(** * Output containers of hummingbird/ml/_container.py

    A shallow embedding of the output containers of Hummingbird
    ([src/hummingbird/ml/_container.py]): the batch splitter
    [BatchContainer._predict_common], the anomaly-detection score methods,
    the prediction primitives of the PyTorch, ONNX and TVM containers and
    the [save] / [load] persistence routines, followed by the properties
    the specification states about them. *)

From Stdlib Require Import ZArith Lia.
From stdpp Require Import base tactics option list list_numbers strings gmap pretty.

(** ** Python results

    A Python call either returns a value or raises.  Only the exception
    classes the modelled code can raise are listed; an [assert] without a
    message raises [AssertionError None]. *)

Inductive exn : Type :=
  | AssertionError (msg : option string)
  | ZeroDivisionError
  | IndexError
  | KeyError (key : string)
  | TypeError
  | ValueError
  | AttributeError
  | RuntimeError (msg : string)
  | FileExistsError (path : string)
  | FileNotFoundError (path : string)
  | NotADirectoryError (path : string)
  | ReadError (path : string)
  | UnpicklingError.

Inductive result (A : Type) : Type :=
  | Ok (a : A)
  | Raise (e : exn).
Arguments Ok {A} a.
Arguments Raise {A} e.

Definition returns {A} (r : result A) : Prop := exists a, r = Ok a.

Definition result_bind {A B} (r : result A) (k : A -> result B) : result B :=
  match r with
  | Ok a => k a
  | Raise e => Raise e
  end.

Definition result_map {A B} (f : A -> B) (r : result A) : result B :=
  result_bind r (fun a => Ok (f a)).

(** Calls that have an effect on a state [S]: the state reached is kept
    when the call raises, as the effects of a Python call are. *)
Definition eff (S A : Type) : Type := S -> result A * S.

Definition ret {S A} (a : A) : eff S A := fun s => (Ok a, s).
Definition raise {S A} (e : exn) : eff S A := fun s => (Raise e, s).
Definition lift {S A} (r : result A) : eff S A := fun s => (r, s).
Definition bind {S A B} (m : eff S A) (k : A -> eff S B) : eff S B :=
  fun s => match m s with
           | (Ok a, s') => k a s'
           | (Raise e, s') => (Raise e, s')
           end.

(** [assert cond, msg] *)
Definition py_assert {S} (cond : bool) (msg : option string) : eff S unit :=
  if cond then ret tt else raise (AssertionError msg).

Declare Scope eff_scope.
Delimit Scope eff_scope with eff.
Notation "'let*' x ':=' m 'in' k" := (bind m (fun x => k))
  (at level 10, x name, m at level 100, k at level 200) : eff_scope.
Notation "m ';;' k" := (bind m (fun _ => k))
  (at level 100, k at level 200, right associativity) : eff_scope.

(** [for i in idxs: acc = body(i, acc)] *)
Fixpoint for_each {S I A} (body : I -> A -> eff S A) (idxs : list I) (acc : A)
  : eff S A :=
  match idxs with
  | [] => ret acc
  | i :: rest => bind (body i acc) (for_each body rest)
  end.

(** ** Python sequences *)

(** A slice bound [i] of a sequence of length [len], as [slice.indices]
    normalises it: a negative bound counts from the end, and every bound
    is clipped to [0..len]. *)
Definition slice_bound (len i : Z) : Z :=
  if (i <? 0)%Z then Z.max 0 (i + len) else Z.min i len.

(** [l[start:stop]] *)
Definition py_slice {A} (start stop : Z) (l : list A) : list A :=
  let len := Z.of_nat (length l) in
  let s := slice_bound len start in
  let e := slice_bound len stop in
  take (Z.to_nat (e - s)) (drop (Z.to_nat s) l).

(** The rows [lo, hi) of an array. *)
Definition rows_between {A} (lo hi : nat) (l : list A) : list A :=
  take (hi - lo) (drop lo l).

(** [range(0, n)] *)
Definition py_range (n : Z) : list Z := seqZ 0 n.

(** [a // b] and [a % b] on Python integers: floor division, as [Z.div]
    and [Z.modulo] are, but raising on a zero divisor. *)
Definition py_floordiv (a b : Z) : result Z :=
  if (b =? 0)%Z then Raise ZeroDivisionError else Ok (a / b)%Z.
Definition py_mod (a b : Z) : result Z :=
  if (b =? 0)%Z then Raise ZeroDivisionError else Ok (a mod b)%Z.

(** ** The batch splitter: [BatchContainer] *)

Module BatchContainer.
Section Splitter.
Local Open Scope Z_scope.
Local Open Scope eff_scope.

(** A 2-D input array is the list of its rows; the output of a
    prediction function is an array, the list of its items along the
    first axis.  [_predict_common] receives its positional arguments
    [*inputs] as a tuple of arrays (the column arrays of a DataFrame are
    split off before the code modelled here). *)
Context {Row Item : Type}.
Local Abbreviation ndarray := (list Row).
Local Abbreviation outarray := (list Item).

(** The two bound methods [_predict_common] is handed. *)
Inductive target : Type := Base | Remainder.
Record call : Type := Call { callee : target; args : list ndarray }.

(** What [_predict_common] returns: one array, or the list of the
    per-batch arrays. *)
Inductive output : Type :=
  | Concatenated (a : outarray)
  | Chunks (predictions : list outarray).

(** The attributes [__init__] sets. *)
Record t : Type := Build {
  _batch_size : Z;
  _remainder_size : Z
}.

(** [__init__(base_container, remainder_model_container=None)], on the
    [_batch_size] attributes of the two containers. *)
Definition __init__ (base_batch_size : option Z)
    (remainder_batch_size : option (option Z)) : result t :=
  match base_batch_size with
  | None => Raise (AssertionError None)
  | Some b =>
      match remainder_batch_size with
      | Some None => Raise (AssertionError None)
      | Some (Some r) => Ok (Build b r)
      | None => Ok (Build b b)
      end
  end.

(** [np.concatenate(predictions)] along the first axis. *)
Definition np_concatenate (predictions : list outarray) : result outarray :=
  match predictions with
  | [] => Raise ValueError
  | _ => Ok (concat predictions)
  end.

Definition output_proc (concatenate_outputs : bool)
    (predictions : list outarray) : result output :=
  if concatenate_outputs
  then result_map Concatenated (np_concatenate predictions)
  else Ok (Chunks predictions).

(** [inputs[0].shape[0]]: [inputs], gathered from the positional
    arguments, is a tuple in every call, so that [is_tuple] holds and the
    other branch of each test on it is never taken. *)
Definition total_rows (inputs : list ndarray) : result Z :=
  match inputs with
  | [] => Raise IndexError
  | a :: _ => Ok (Z.of_nat (length a))
  end.

Variable self : t.
Variables predict_func remainder_predict_func : list ndarray -> result outarray.

(** A call of one of the two prediction functions, recorded in the
    trace of calls. *)
Definition invoke (who : target) (batch : list ndarray)
  : eff (list call) outarray :=
  fun trace =>
    ((match who with
      | Base => predict_func
      | Remainder => remainder_predict_func
      end) batch,
     trace ++ [Call who batch]).

Definition iterations_of (total_size : Z) : result Z :=
  result_bind (py_floordiv total_size (_batch_size self)) (fun iterations =>
  result_bind (py_mod total_size (_batch_size self)) (fun r =>
  let iterations := iterations + (if r >? 0 then 1 else 0) in
  Ok (Z.max 1 iterations))).

(** The body of the [for] loop. *)
Definition loop_body (inputs : list ndarray) (total_size iterations : Z)
    (i : Z) (predictions : list outarray) : eff (list call) (list outarray) :=
  let start := i * _batch_size self in
  let end_ := Z.min (start + _batch_size self) total_size in
  let batch := map (py_slice start end_) inputs in
  let* out :=
    (if i =? iterations - 1
     then (py_assert (end_ - start =? _remainder_size self) None ;;
           invoke Remainder batch)
     else invoke Base batch) in
  ret (predictions ++ [out]).

Definition _predict_common (inputs : list ndarray)
    (concatenate_outputs : bool) : eff (list call) output :=
  let* total_size := lift (total_rows inputs) in
  if total_size =? _batch_size self
  then
    let* out := invoke Base inputs in
    lift (output_proc concatenate_outputs [out])
  else
    let* iterations := lift (iterations_of total_size) in
    let* predictions :=
      for_each (loop_body inputs total_size iterations)
               (py_range iterations) [] in
    lift (output_proc concatenate_outputs predictions).

(** The number of iterations the loop makes when the batch size is not
    zero, and the batch its iteration [i] cuts out of the inputs. *)
Definition iterations (total_size : Z) : Z :=
  Z.max 1 (total_size / _batch_size self
           + (if total_size mod _batch_size self >? 0 then 1 else 0)).

Definition batch_of (inputs : list ndarray) (total_size i : Z)
  : list ndarray :=
  map (py_slice (i * _batch_size self)
                (Z.min (i * _batch_size self + _batch_size self) total_size))
      inputs.

(** The value a prediction function returns on a batch ([[]] stands in
    where it raises). *)
Definition returned (f : list ndarray -> result outarray)
    (batch : list ndarray) : outarray :=
  match f batch with
  | Ok out => out
  | Raise _ => []
  end.

(** [f] agrees with the unsplit computation, whose output on all of
    [inputs] is [full], on every sub-range of [size] rows: handed the
    rows [s, s + size) of the inputs it returns the items [s, s + size)
    of [full]. *)
Definition agrees_on (f : list ndarray -> result outarray)
    (inputs : list ndarray) (full : outarray) (size total_size : Z) : Prop :=
  forall s, 0 <= s -> s + size <= total_size ->
    f (map (py_slice s (s + size)) inputs) = Ok (py_slice s (s + size) full).

End Splitter.

(** The batch size the remainder container is built for: the rows left
    over by the full batches, or a full batch when none are. *)
Definition remainder_for (total_size batch_size : Z) : Z :=
  if (total_size mod batch_size =? 0)%Z then batch_size
  else (total_size mod batch_size)%Z.

End BatchContainer.

(** ** Python values of the containers *)

(** The objects a container holds in its attributes and in its
    [extra_config] dictionary.  A float is kept as its bit pattern; an
    object of a class this code only passes around is kept as the name
    of its type, as [str(type(o))] prints it, and an identity. *)
Inductive pyobj : Type :=
  | PyNone
  | PyInt (z : Z)
  | PyFloat (bits : Z)
  | PyStr (s : string)
  | PyTvmContext (device_type : Z)
  | PyObject (type_name : string) (id : nat)
  | PyOrtSession (model : pyobj) (intra_op_num_threads : option Z)
  | PyGraphModule (graph lib ctx params : pyobj).

(** [o is None] and [o == s] for a string [s] *)
Definition is_none (o : pyobj) : bool :=
  match o with
  | PyNone => true
  | _ => false
  end.

Definition eq_str (o : pyobj) (s : string) : bool :=
  match o with
  | PyStr s' => bool_decide (s' = s)
  | _ => false
  end.

(** The items of an array. *)
Inductive scalar : Type :=
  | SInt (z : Z)
  | SFloat (bits : Z)
  | SStr (s : string)
  | SObj (o : pyobj).

Record dtype_t : Type := Dtype { kind : string; itemsize : Z }.

Definition float64 : dtype_t := Dtype "f" 8.
Definition object_ : dtype_t := Dtype "O" 8.

Definition dtype_eqb (d1 d2 : dtype_t) : bool :=
  bool_decide (kind d1 = kind d2) && (itemsize d1 =? itemsize d2)%Z.

(** A numpy array: its element type, its shape and its items in row-major
    order. *)
Record ndarray : Type := NdArray {
  dtype : dtype_t;
  shape : list Z;
  data : list scalar
}.

Definition ndim (a : ndarray) : nat := length (shape a).

(** [a.ravel()] (also [a.flatten()]): the same items as a 1-D array. *)
Definition ravel (a : ndarray) : ndarray :=
  NdArray (dtype a) [Z.of_nat (length (data a))] (data a).

(** The number of items under one index of the first axis. *)
Definition row_size (rest : list Z) : Z := foldr Z.mul 1%Z rest.

(** [a[i]] for [0 <= i]: the sub-array at index [i] of the first axis. *)
Definition ndarray_getitem (a : ndarray) (i : Z) : result ndarray :=
  match shape a with
  | [] => Raise IndexError
  | n :: rest =>
      if (0 <=? i)%Z && (i <? n)%Z
      then Ok (NdArray (dtype a) rest
                 (take (Z.to_nat (row_size rest))
                       (drop (Z.to_nat (i * row_size rest)) (data a))))
      else Raise IndexError
  end.

(** [a.shape[0]] *)
Definition shape0 (a : ndarray) : result Z :=
  match shape a with
  | [] => Raise IndexError
  | n :: _ => Ok n
  end.

(** A torch device and a torch tensor on it. *)
Record device_t : Type := Device { device_type : string; device_index : Z }.
Record tensor : Type := Tensor { t_data : ndarray; t_device : device_t }.

Definition cpu_device : device_t := Device "cpu" 0.

(** [t.to(device)] and [t.cpu().numpy()] *)
Definition tensor_to (d : device_t) (t : tensor) : tensor :=
  Tensor (t_data t) d.
Definition cpu_numpy (t : tensor) : ndarray := t_data t.

(** A positional argument of a prediction method: a (nested) list,
    given by the array [np.array] makes of it, an array, a tensor, or an
    object of another type, given by the name of its type.  (A
    DataFrame, which [_run] splits into its columns first, is not among
    them.) *)
Inductive pyval : Type :=
  | VList (as_array : ndarray)
  | VArray (a : ndarray)
  | VTensor (t : tensor)
  | VOther (type_name : string).

(** What [model.forward] returns: a tensor or a tuple of tensors. *)
Inductive forward_out : Type :=
  | FTensor (t : tensor)
  | FTuple (ts : list tensor).

(** The names of [hummingbird.ml.operator_converters.constants] this
    module reads; the module itself is not part of the sources, its
    values are parameters. *)
Record constants_t : Type := Constants {
  OFFSET : string;
  IFOREST_THRESHOLD : string;
  TEST_INPUT : string;
  MAX_STRING_LENGTH : string;
  SUPPORTED_STRING_TYPES : list string;
  TVM_CONTEXT : string;
  TVM_LIB : string;
  TVM_GRAPH : string;
  TVM_PARAMS : string;
  SAVE_LOAD_MODEL_TYPE_PATH : string;
  SAVE_LOAD_TORCH_JIT_PATH : string;
  SAVE_LOAD_ONNX_PATH : string;
  SAVE_LOAD_CONTAINER_PATH : string;
  SAVE_LOAD_TVM_LIB_PATH : string;
  SAVE_LOAD_TVM_GRAPH_PATH : string;
  SAVE_LOAD_TVM_PARAMS_PATH : string
}.

(** The libraries the containers call into: pandas, numpy, torch, the
    ONNX runtime, TVM and [hummingbird.ml._utils].  What they compute is
    outside this module; every statement below holds for whatever they
    do. *)
Record libraries : Type := Libraries {
  constants : constants_t;
  (** whether [DataFrame] is the pandas class rather than [None] *)
  pandas_installed : bool;
  (** [get_device(model)] *)
  get_device : pyobj -> option device_t;
  (** [from_strings_to_ints(array, max_string_length)] *)
  from_strings_to_ints : ndarray -> pyobj -> result ndarray;
  (** [array.astype("float32")] *)
  astype_float32 : ndarray -> ndarray;
  (** whether [torch.from_numpy] accepts the element type *)
  torch_supports : dtype_t -> bool;
  (** [model.forward] on the positional arguments *)
  forward : pyobj -> list pyval -> result forward_out;
  (** [array + value] and [array += value] *)
  np_add : ndarray -> pyobj -> result ndarray;
  np_iadd : ndarray -> pyobj -> result ndarray;
  (** [session.run(output_names, named_inputs)] *)
  session_run : pyobj -> list string -> gmap string ndarray
                -> result (list ndarray);
  (** [model.run] on the named tensors followed by
      [model.get_output(index).asnumpy()], on the arrays bound to the
      context of the container *)
  tvm_run_get_output : pyobj -> pyobj -> gmap string ndarray -> Z
                       -> result ndarray;
  (** [hasattr(o, name)] for an object [o] of a class of these
      libraries *)
  hasattr : pyobj -> string -> bool
}.

(** The attributes of an output container.  The attributes a class does
    not set are left at [PyNone], [[]] or [false]. *)
Record container : Type := Container {
  _model : pyobj;
  _n_threads : option Z;
  _batch_size : option Z;
  _extra_config : gmap string pyobj;
  _is_regression : bool;
  _is_anomaly_detection : bool;
  _session : pyobj;
  _output_names : list string;
  _input_names : list string;
  _ctx : pyobj
}.

(** [l[i]] for [0 <= i] *)
Definition py_getitem {A} (l : list A) (i : nat) : result A :=
  match l !! i with
  | Some x => Ok x
  | None => Raise IndexError
  end.

(** [d[key]] *)
Definition dict_getitem (d : gmap string pyobj) (key : string) : result pyobj :=
  match d !! key with
  | Some v => Ok v
  | None => Raise (KeyError key)
  end.

(** [key in d] *)
Definition dict_contains (d : gmap string pyobj) (key : string) : bool :=
  bool_decide (is_Some (d !! key)).

(** [assert cond, msg] where nothing but the result is at stake. *)
Definition check (cond : bool) (msg : option string) : result unit :=
  if cond then Ok tt else Raise (AssertionError msg).

Declare Scope result_scope.
Delimit Scope result_scope with result.
Notation "'let?' x ':=' m 'in' k" := (result_bind m (fun x => k))
  (at level 10, x name, m at level 100, k at level 200) : result_scope.
Notation "m ';?' k" := (result_bind m (fun _ => k))
  (at level 100, k at level 200, right associativity) : result_scope.

(** ** The file system and the process state *)

#[local] Set Warnings "-register-all".

(** What a path names: a directory, a text file, a file holding a
    pickled container ([dill.dump]), a file a library wrote an object
    to, or a zip archive with its members under their relative names. *)
Inductive fnode : Type :=
  | Dir
  | TextFile (content : string)
  | PickleFile (c : container)
  | ObjectFile (o : pyobj)
  | ZipFile (members : list (string * fnode)).

(** The calls into [os], [shutil] and [open], in program order. *)
Inductive fs_call : Type :=
  | OsPathExists (path : string)
  | OsMakedirs (path : string)
  | OpenWrite (path : string)
  | OpenRead (path : string)
  | MakeArchive (base_name root_dir : string)
  | Rmtree (path : string)
  | UnpackArchive (filename extract_dir : string).

(** The state outside the container: the files, as a flat map from path
    names, the calls made on them, the thread settings of torch and the
    environment variables. *)
Record world : Type := World {
  files : gmap string fnode;
  fs_calls : list fs_call;
  torch_num_interop_threads : Z;
  torch_num_threads : Z;
  environ : gmap string string
}.

Definition set_files (f : gmap string fnode -> gmap string fnode) (w : world)
  : world :=
  World (f (files w)) (fs_calls w) (torch_num_interop_threads w)
        (torch_num_threads w) (environ w).

Definition log_call (c : fs_call) (w : world) : world :=
  World (files w) (fs_calls w ++ [c]) (torch_num_interop_threads w)
        (torch_num_threads w) (environ w).

Module Py.
Local Open Scope eff_scope.

(** [s.endswith(suffix)] *)
Definition endswith (s suffix : string) : bool :=
  String.prefix (String.rev suffix) (String.rev s).

(** [s[-n]] for [n >= 1] *)
Definition getitem_from_end (s : string) (n : nat) : result string :=
  if String.length s <? n then Raise IndexError
  else match String.get (String.length s - n) s with
       | Some c => Ok (String c EmptyString)
       | None => Raise IndexError
       end.

(** [needle in s] on strings *)
Definition contains (needle s : string) : bool :=
  bool_decide (is_Some (String.index 0 needle s)).

Definition newline : Ascii.ascii := Ascii.ascii_of_nat 10.
Definition slash : Ascii.ascii := Ascii.ascii_of_nat 47.

(** [file.readline()] on a file just opened: the first line with its
    newline. *)
Fixpoint readline (content : string) : string :=
  match content with
  | EmptyString => EmptyString
  | String c rest =>
      if bool_decide (c = newline) then String c EmptyString
      else String c (readline rest)
  end.

(** [str(type(o))] *)
Definition str_type (o : pyobj) : string :=
  match o with
  | PyNone => "<class 'NoneType'>"
  | PyInt _ => "<class 'int'>"
  | PyFloat _ => "<class 'float'>"
  | PyStr _ => "<class 'str'>"
  | PyTvmContext _ => "<class 'tvm._ffi.runtime_ctypes.TVMContext'>"
  | PyObject type_name _ => type_name
  | PyOrtSession _ _ =>
      "<class 'onnxruntime.capi.onnxruntime_inference_collection.InferenceSession'>"
  | PyGraphModule _ _ _ _ =>
      "<class 'tvm.contrib.graph_runtime.GraphModule'>"
  end.

(** [str(n)] of a thread count *)
Definition str_threads (n : option Z) : string :=
  match n with
  | Some z => pretty z
  | None => "None"
  end.

(** [os.path.join(a, b)] *)
Definition os_path_join (a b : string) : string :=
  if String.prefix "/" b then b
  else if bool_decide (a = "") || endswith a "/" then a +:+ b
  else a +:+ "/" +:+ b.

(** The name of [path] relative to the directory [root], when it lies
    under it. *)
Definition relative_to (root path : string) : option string :=
  let dir := if endswith root "/" then root else root +:+ "/" in
  if String.prefix dir path
  then Some (String.substring (String.length dir)
               (String.length path - String.length dir) path)
  else None.

Definition os_path_exists (path : string) : eff world bool :=
  fun w => (Ok (bool_decide (is_Some (files w !! path))),
            log_call (OsPathExists path) w).

(** The parent directories a path names, the outermost first: what
    is [seen] of the path before a slash, when names are on both sides
    of it.  A slash that begins the path, follows another slash or has
    no name after it ends no parent. *)
Fixpoint has_name (rest : string) : bool :=
  match rest with
  | EmptyString => false
  | String c rest' => negb (bool_decide (c = slash)) || has_name rest'
  end.

Fixpoint parents_from (seen rest : string) : list string :=
  match rest with
  | EmptyString => []
  | String c rest' =>
      (if bool_decide (c = slash)
          && negb (bool_decide (seen = "")) && negb (endswith seen "/")
          && has_name rest'
       then [seen] else [])
      ++ parents_from (seen +:+ String c EmptyString) rest'
  end.

Definition parents (path : string) : list string := parents_from "" path.

(** The parents [os.makedirs] makes before the directory [leaf]
    itself: those that are missing are made; one that is no directory
    makes [os.mkdir] fail on the path below it. *)
Fixpoint make_parents (ps : list string) (leaf : string)
    (fs : gmap string fnode) : result unit * gmap string fnode :=
  match ps with
  | [] => (Ok tt, fs)
  | p :: rest =>
      match fs !! p with
      | Some Dir => make_parents rest leaf fs
      | Some _ => (Raise (NotADirectoryError (hd leaf rest)), fs)
      | None => make_parents rest leaf (<[p := Dir]> fs)
      end
  end.

(** [os.makedirs(path)], on path names as they are written (no [.] or
    [..], no links): the missing parents are made, then the directory,
    which must not exist; the empty path names no file, and the root
    exists. *)
Definition os_makedirs (path : string) : eff world unit :=
  fun w =>
    let w := log_call (OsMakedirs path) w in
    if bool_decide (path = "") then (Raise (FileNotFoundError path), w)
    else if negb (has_name path) then (Raise (FileExistsError path), w)
    else
      match make_parents (parents path) path (files w) with
      | (Raise e, fs) => (Raise e, set_files (fun _ => fs) w)
      | (Ok _, fs) =>
          match fs !! path with
          | Some _ => (Raise (FileExistsError path), set_files (fun _ => fs) w)
          | None => (Ok tt, set_files (fun _ => <[path := Dir]> fs) w)
          end
      end.

(** [open(path, "w")] or [open(path, "wb")], and what is written. *)
Definition write_file (path : string) (node : fnode) : eff world unit :=
  fun w => (Ok tt, set_files (insert path node) (log_call (OpenWrite path) w)).

(** [open(path, "r")] or [open(path, "rb")] *)
Definition open_read (path : string) : eff world fnode :=
  fun w =>
    let w := log_call (OpenRead path) w in
    match files w !! path with
    | Some node => (Ok node, w)
    | None => (Raise (FileNotFoundError path), w)
    end.

(** The text and the objects read back from a file. *)
Definition as_text (path : string) (node : fnode) : result string :=
  match node with
  | TextFile content => Ok content
  | Dir => Raise (FileNotFoundError path)
  | _ => Raise ValueError
  end.

Definition dill_load (node : fnode) : result container :=
  match node with
  | PickleFile c => Ok c
  | _ => Raise UnpicklingError
  end.

Definition load_object (path : string) (node : fnode) : result pyobj :=
  match node with
  | ObjectFile o => Ok o
  | _ => Raise (ReadError path)
  end.

(** [shutil.make_archive(base_name, "zip", root_dir)] *)
Definition shutil_make_archive (base_name root_dir : string) : eff world unit :=
  fun w =>
    let w := log_call (MakeArchive base_name root_dir) w in
    let members :=
      omap (fun '(path, node) =>
              match relative_to root_dir path with
              | Some rel => Some (rel, node)
              | None => None
              end)
           (map_to_list (files w)) in
    (Ok tt, set_files (insert (base_name +:+ ".zip") (ZipFile members)) w).

(** [shutil.rmtree(path)] *)
Definition shutil_rmtree (path : string) : eff world unit :=
  fun w =>
    let w := log_call (Rmtree path) w in
    match files w !! path with
    | None => (Raise (FileNotFoundError path), w)
    | Some _ =>
        (Ok tt,
         set_files (fun fs =>
           filter (fun '(p, _) => p <> path /\ relative_to path p = None) fs)
           w)
    end.

(** [shutil.unpack_archive(filename, extract_dir, format="zip")] *)
Definition shutil_unpack_archive (filename extract_dir : string)
  : eff world unit :=
  fun w =>
    let w := log_call (UnpackArchive filename extract_dir) w in
    match files w !! filename with
    | Some (ZipFile members) =>
        (Ok tt,
         set_files (fun fs =>
           foldr (fun '(rel, node) fs =>
                    <[os_path_join extract_dir rel := node]> fs)
                 (<[extract_dir := Dir]> fs) members)
           w)
    | Some _ => (Raise (ReadError filename), w)
    | None => (Raise (ReadError filename), w)
    end.

End Py.

(** ** [SklearnContainer] and the abstract containers *)

Module SklearnContainer.
Local Open Scope result_scope.

(** [_run(function, *inputs)], for inputs that are no DataFrame: the
    test [type(inputs[0]) == DataFrame] is evaluated when pandas is
    installed, and raises on an empty argument list. *)
Definition _run {A} (L : libraries)
    (function : list pyval -> result A) (inputs : list pyval) : result A :=
  (if pandas_installed L then py_getitem inputs 0 ;? Ok tt else Ok tt) ;?
  function inputs.

End SklearnContainer.
(** The mixin of the anomaly detectors; [_decision_function] is the
    abstract method a backend class supplies. *)
Module SklearnContainerAnomalyDetection.
Local Open Scope result_scope.

Definition decision_function (L : libraries)
    (_decision_function : container -> list pyval -> result ndarray)
    (self : container) (inputs : list pyval) : result ndarray :=
  let? scores := SklearnContainer._run L (_decision_function self) inputs in
  if dict_contains (_extra_config self) (IFOREST_THRESHOLD (constants L))
  then
    let? threshold :=
      dict_getitem (_extra_config self) (IFOREST_THRESHOLD (constants L)) in
    np_iadd L scores threshold
  else Ok scores.

Definition score_samples (L : libraries)
    (_decision_function : container -> list pyval -> result ndarray)
    (self : container) (inputs : list pyval) : result ndarray :=
  let? scores := decision_function L _decision_function self inputs in
  let? offset := dict_getitem (_extra_config self) (OFFSET (constants L)) in
  np_add L scores offset.

End SklearnContainerAnomalyDetection.

(** ** Persistence: [save] and [load] *)

(** Assignments to the attributes of a container. *)
Definition with_model (m : pyobj) (c : container) : container :=
  Container m (_n_threads c) (_batch_size c) (_extra_config c)
    (_is_regression c) (_is_anomaly_detection c) (_session c)
    (_output_names c) (_input_names c) (_ctx c).

Definition with_session (v : pyobj) (c : container) : container :=
  Container (_model c) (_n_threads c) (_batch_size c) (_extra_config c)
    (_is_regression c) (_is_anomaly_detection c) v
    (_output_names c) (_input_names c) (_ctx c).

Definition with_ctx (v : pyobj) (c : container) : container :=
  Container (_model c) (_n_threads c) (_batch_size c) (_extra_config c)
    (_is_regression c) (_is_anomaly_detection c) (_session c)
    (_output_names c) (_input_names c) v.

(** [self._extra_config[key] = v] *)
Definition with_config (key : string) (v : pyobj) (c : container) : container :=
  Container (_model c) (_n_threads c) (_batch_size c)
    (<[key := v]> (_extra_config c))
    (_is_regression c) (_is_anomaly_detection c) (_session c)
    (_output_names c) (_input_names c) (_ctx c).

(** [save] runs on the container it is called on and on the world. *)
Module Saving.

Definition this : eff (container * world) container :=
  fun s => (Ok (fst s), s).

Definition assign (f : container -> container) : eff (container * world) unit :=
  fun s => (Ok tt, (f (fst s), snd s)).

Definition in_world {A} (m : eff world A) : eff (container * world) A :=
  fun s => let (r, w) := m (snd s) in (r, (fst s, w)).

(** [if constants.TEST_INPUT in self._extra_config:
        self._extra_config[constants.TEST_INPUT] = None] *)
Definition null_test_input (L : libraries) : eff (container * world) unit :=
  bind this (fun self =>
  if dict_contains (_extra_config self) (TEST_INPUT (constants L))
  then assign (with_config (TEST_INPUT (constants L)) PyNone)
  else ret tt).

(** The container once [null_test_input] has run on it. *)
Definition test_input_nulled (L : libraries) (self : container) : container :=
  if dict_contains (_extra_config self) (TEST_INPUT (constants L))
  then with_config (TEST_INPUT (constants L)) PyNone self
  else self.

(** A run of [save] that raised an [AssertionError] with a message and
    touched no file: since the state [w] it made no call on the file
    system but, at most, the test whether [location] exists. *)
Definition refused (location : string) (w : world)
    (run : result unit * (container * world)) : Prop :=
  (exists msg, fst run = Raise (AssertionError (Some msg)))
  /\ files (snd (snd run)) = files w
  /\ (fs_calls (snd (snd run)) = fs_calls w
      \/ fs_calls (snd (snd run)) = fs_calls w ++ [OsPathExists location]).

(** [assert not os.path.exists(location), ...] and
    [os.makedirs(location)] *)
Definition make_fresh_dir (location : string) : eff (container * world) unit :=
  bind (in_world (Py.os_path_exists location)) (fun found =>
  bind (py_assert (negb found)
          (Some ("Directory " +:+ location +:+ " already exists."))) (fun _ =>
  in_world (Py.os_makedirs location))).

(** [shutil.make_archive(location, "zip", location)] and
    [shutil.rmtree(location)] *)
Definition zip_and_remove (location : string) : eff (container * world) unit :=
  bind (in_world (Py.shutil_make_archive location location)) (fun _ =>
  in_world (Py.shutil_rmtree location)).

End Saving.

(** The first statements of the three [load] methods under
    [do_unzip_and_model_type_check]: the archive is unpacked and the
    directory to read from is returned. *)
Module Loading.
Local Open Scope eff_scope.

Definition unzip (location : string) : eff world string :=
  let zip_location := location in
  let zip_location :=
    if negb (Py.endswith location "zip") then location +:+ ".zip"
    else zip_location in
  let* location :=
    if negb (Py.endswith location "zip") then ret location
    else lift (Py.getitem_from_end zip_location 4) in
  Py.shutil_unpack_archive zip_location location ;;
  let* found := Py.os_path_exists location in
  py_assert found
    (Some ("Model location " +:+ location +:+ " does not exist.")) ;;
  ret location.

(** [with open(os.path.join(location, SAVE_LOAD_MODEL_TYPE_PATH), "r")
     as file: model_type = file.readline()] *)
Definition read_model_type (L : libraries) (location : string)
  : eff world string :=
  let path := Py.os_path_join location (SAVE_LOAD_MODEL_TYPE_PATH (constants L)) in
  let* node := Py.open_read path in
  let* content := lift (Py.as_text path node) in
  ret (Py.readline content).

(** From the state [w] on, the first call on the file system that led to
    [w'] is [shutil.unpack_archive(filename, extract_dir, ...)]. *)
Definition unpacks_first (w : world) (filename extract_dir : string)
    (w' : world) : Prop :=
  exists rest,
    fs_calls w' = fs_calls w ++ UnpackArchive filename extract_dir :: rest.

(** A computation that only adds to the record of calls. *)
Definition appends_calls {A} (m : eff world A) : Prop :=
  forall w, exists calls, fs_calls (snd (m w)) = fs_calls w ++ calls.

(** A library reading an object back from a file. *)
Definition read_object (path : string) : eff world pyobj :=
  let* node := Py.open_read path in
  lift (Py.load_object path node).

(** [with open(path, "rb") as file: container = dill.load(file)] *)
Definition read_container (path : string) : eff world container :=
  let* node := Py.open_read path in
  lift (Py.dill_load node).

End Loading.

(** ** PyTorch containers *)

Module PyTorchSklearnContainer.
Local Open Scope result_scope.

(** [out.cpu().numpy()] on what [forward] returned: a tuple has no
    method [cpu]. *)
Definition out_numpy (out : forward_out) : result ndarray :=
  match out with
  | FTensor t => Ok (cpu_numpy t)
  | FTuple _ => Raise AttributeError
  end.

(** [out[i].cpu().numpy()]: item [i] of a tuple, or the sub-tensor at
    index [i] of a tensor. *)
Definition out_item_numpy (out : forward_out) (i : nat) : result ndarray :=
  match out with
  | FTuple ts => let? t := py_getitem ts i in Ok (cpu_numpy t)
  | FTensor t => ndarray_getitem (t_data t) (Z.of_nat i)
  end.

Definition _transform (L : libraries) (self : container)
    (inputs : list pyval) : result ndarray :=
  let? out := forward L (_model self) inputs in
  out_numpy out.

Definition _predict (L : libraries) (self : container)
    (inputs : list pyval) : result ndarray :=
  if _is_regression self then
    let? out := forward L (_model self) inputs in
    let? a := out_numpy out in
    Ok (ravel a)
  else if _is_anomaly_detection self then
    let? out := forward L (_model self) inputs in
    let? a := out_item_numpy out 0 in
    Ok (ravel a)
  else
    let? out := forward L (_model self) inputs in
    let? a := out_item_numpy out 0 in
    Ok (ravel a).

Definition _predict_proba (L : libraries) (self : container)
    (inputs : list pyval) : result ndarray :=
  let? out := forward L (_model self) inputs in
  out_item_numpy out 1.

Definition _decision_function (L : libraries) (self : container)
    (inputs : list pyval) : result ndarray :=
  let? out := forward L (_model self) inputs in
  let? a := out_item_numpy out 1 in
  Ok (ravel a).

Definition transform (L : libraries) (self : container)
    (inputs : list pyval) : result ndarray :=
  SklearnContainer._run L (_transform L self) inputs.

Definition predict (L : libraries) (self : container)
    (inputs : list pyval) : result ndarray :=
  SklearnContainer._run L (_predict L self) inputs.

Definition predict_proba (L : libraries) (self : container)
    (inputs : list pyval) : result ndarray :=
  SklearnContainer._run L (_predict_proba L self) inputs.

Definition decision_function (L : libraries) :=
  SklearnContainerAnomalyDetection.decision_function L (_decision_function L).

Definition score_samples (L : libraries) :=
  SklearnContainerAnomalyDetection.score_samples L (_decision_function L).

(** [save(location)] *)
Definition save (L : libraries) (location : string)
  : eff (container * world) unit :=
  (let* self := Saving.this in
   py_assert (negb (is_none (_model self)))
     (Some "Saving a None model is undefined.") ;;
   Saving.null_test_input L ;;
   Saving.make_fresh_dir location ;;
   let* self := Saving.this in
   (if Py.contains "torch.jit" (Py.str_type (_model self)) then
      Saving.in_world (Py.write_file
        (Py.os_path_join location (SAVE_LOAD_MODEL_TYPE_PATH (constants L)))
        (TextFile "torch.jit")) ;;
      Saving.in_world (Py.write_file
        (Py.os_path_join location (SAVE_LOAD_TORCH_JIT_PATH (constants L)))
        (ObjectFile (_model self))) ;;
      let model := _model self in
      Saving.assign (with_model PyNone) ;;
      let* snapshot := Saving.this in
      Saving.in_world (Py.write_file
        (Py.os_path_join location "container.pkl") (PickleFile snapshot)) ;;
      Saving.assign (with_model model)
    else if Py.contains "PyTorchBackendModel" (Py.str_type (_model self)) then
      Saving.in_world (Py.write_file
        (Py.os_path_join location (SAVE_LOAD_MODEL_TYPE_PATH (constants L)))
        (TextFile "torch")) ;;
      Saving.in_world (Py.write_file
        (Py.os_path_join location (SAVE_LOAD_TORCH_JIT_PATH (constants L)))
        (PickleFile self))
    else
      raise (RuntimeError ("Model type " +:+ Py.str_type (_model self)
                           +:+ " not recognized."))) ;;
   Saving.zip_and_remove location)%eff.

(** [torch.set_num_interop_threads(1)] unless it is 1 already, and
    [torch.set_num_threads(n)] *)
Definition set_torch_threads (n : Z) : eff world unit :=
  fun w =>
    (Ok tt,
     World (files w) (fs_calls w)
       (if bool_decide (torch_num_interop_threads w <> 1%Z) then 1%Z
        else torch_num_interop_threads w)
       n (environ w)).

(** [load(location, do_unzip_and_model_type_check=True)] *)
Definition load (L : libraries) (location : string)
    (do_unzip_and_model_type_check : bool) : eff world container :=
  (let* location :=
     if do_unzip_and_model_type_check then Loading.unzip location
     else ret location in
   let* model_type := Loading.read_model_type L location in
   let* container :=
     if bool_decide (model_type = "torch.jit") then
       let* model := Loading.read_object
         (Py.os_path_join location (SAVE_LOAD_TORCH_JIT_PATH (constants L))) in
       let* container := Loading.read_container
         (Py.os_path_join location "container.pkl") in
       ret (with_model model container)
     else if bool_decide (model_type = "torch") then
       Loading.read_container
         (Py.os_path_join location (SAVE_LOAD_TORCH_JIT_PATH (constants L)))
     else
       raise (RuntimeError ("Model type " +:+ model_type
                            +:+ " not recognized")) in
   match _n_threads container with
   | Some n => set_torch_threads n
   | None => ret tt
   end ;;
   ret container)%eff.

End PyTorchSklearnContainer.

(** ** TorchScript containers *)

Module TorchScriptSklearnContainer.
Local Open Scope result_scope.

(** One round of the loop of [_torchscript_wrapper]: what input [i]
    becomes. *)
Definition coerce_input (L : libraries) (device : option device_t)
    (extra_config : gmap string pyobj) (i : nat) (input : pyval)
  : result pyval :=
  let input :=
    match input with
    | VList a => VArray a
    | _ => input
    end in
  let? input :=
    match input with
    | VArray a =>
        let? a :=
          if bool_decide (kind (dtype a) ∈ SUPPORTED_STRING_TYPES (constants L))
          then
            check (dict_contains extra_config (MAX_STRING_LENGTH (constants L)))
                  None ;?
            let? max_len :=
              dict_getitem extra_config (MAX_STRING_LENGTH (constants L)) in
            from_strings_to_ints L a max_len
          else Ok a in
        let a := if dtype_eqb (dtype a) float64 then astype_float32 L a else a in
        if torch_supports L (dtype a)
        then Ok (VTensor (Tensor a cpu_device))
        else Raise TypeError
    | VTensor _ => Ok input
    | VList _ => Ok input
    | VOther type_name =>
        Raise (RuntimeError ("Inputer tensor " +:+ pretty i
                             +:+ " of not supported type " +:+ type_name))
    end in
  match device with
  | None => Raise AttributeError
  | Some d =>
      if bool_decide (device_type d <> "cpu")
      then
        match input with
        | VTensor t => Ok (VTensor (tensor_to d t))
        | _ => Raise AttributeError
        end
      else Ok input
  end.

(** The loop over [range(len(inputs))], from index [i] on. *)
Fixpoint coerce_from (L : libraries) (device : option device_t)
    (extra_config : gmap string pyobj) (i : nat) (inputs : list pyval)
  : result (list pyval) :=
  match inputs with
  | [] => Ok []
  | input :: rest =>
      let? input := coerce_input L device extra_config i input in
      let? rest := coerce_from L device extra_config (S i) rest in
      Ok (input :: rest)
  end.

Definition _torchscript_wrapper {A} (L : libraries) (device : option device_t)
    (function : list pyval -> result A) (inputs : list pyval)
    (extra_config : gmap string pyobj) : result A :=
  let? inputs := coerce_from L device extra_config 0 inputs in
  function inputs.

(** [lambda x: body] called on the positional arguments. *)
Definition lambda_x {A} (body : pyval -> result A) (args : list pyval)
  : result A :=
  match args with
  | [x] => body x
  | _ => Raise TypeError
  end.

Definition transform (L : libraries) (self : container)
    (inputs : list pyval) : result ndarray :=
  let device := get_device L (_model self) in
  let f := PyTorchSklearnContainer._transform L self in
  let f_wrapped := lambda_x (fun x =>
    _torchscript_wrapper L device f [x] (_extra_config self)) in
  SklearnContainer._run L f_wrapped inputs.

Definition predict (L : libraries) (self : container)
    (inputs : list pyval) : result ndarray :=
  let device := get_device L (_model self) in
  let f := PyTorchSklearnContainer._predict L self in
  let f_wrapped := lambda_x (fun x =>
    _torchscript_wrapper L device f [x] (_extra_config self)) in
  SklearnContainer._run L f_wrapped inputs.

Definition predict_proba (L : libraries) (self : container)
    (inputs : list pyval) : result ndarray :=
  let device := get_device L (_model self) in
  let f := PyTorchSklearnContainer._predict_proba L self in
  let f_wrapped := fun x =>
    _torchscript_wrapper L device f x (_extra_config self) in
  SklearnContainer._run L f_wrapped inputs.

Definition decision_function (L : libraries) (self : container)
    (inputs : list pyval) : result ndarray :=
  let device := get_device L (_model self) in
  let f := PyTorchSklearnContainer._decision_function L self in
  let f_wrapped := lambda_x (fun x =>
    _torchscript_wrapper L device f [x] (_extra_config self)) in
  let? scores := SklearnContainer._run L f_wrapped inputs in
  if dict_contains (_extra_config self) (IFOREST_THRESHOLD (constants L))
  then
    let? threshold :=
      dict_getitem (_extra_config self) (IFOREST_THRESHOLD (constants L)) in
    np_iadd L scores threshold
  else Ok scores.

Definition score_samples (L : libraries) (self : container)
    (inputs : list pyval) : result ndarray :=
  let device := get_device L (_model self) in
  let f := decision_function L self in
  let f_wrapped := lambda_x (fun x =>
    _torchscript_wrapper L device f [x] (_extra_config self)) in
  let? scores := SklearnContainer._run L f_wrapped inputs in
  let? offset := dict_getitem (_extra_config self) (OFFSET (constants L)) in
  np_add L scores offset.

End TorchScriptSklearnContainer.

(** ** ONNX containers *)

Module ONNXSklearnContainer.
Local Open Scope result_scope.

(** [np.array(v)] *)
Definition np_array (v : pyval) : result ndarray :=
  match v with
  | VList a => Ok a
  | VArray a => Ok a
  | VTensor t =>
      if bool_decide (device_type (t_device t) = "cpu")
      then Ok (t_data t) else Raise TypeError
  | VOther type_name =>
      Ok (NdArray object_ [] [SObj (PyObject type_name 0)])
  end.

(** The items of [v] as a sequence: [len(v)] and [v[i]]. *)
Definition subarrays (a : ndarray) : result (list ndarray) :=
  match shape a with
  | [] => Raise TypeError
  | n :: rest =>
      Ok (map (fun i =>
                 NdArray (dtype a) rest
                   (take (Z.to_nat (row_size rest))
                         (drop (i * Z.to_nat (row_size rest)) (data a))))
              (seq 0 (Z.to_nat n)))
  end.

Definition py_items (v : pyval) : result (list pyval) :=
  match v with
  | VList a => result_map (map VList) (subarrays a)
  | VArray a => result_map (map VArray) (subarrays a)
  | VTensor t =>
      result_map (map (fun a => VTensor (Tensor a (t_device t))))
                 (subarrays (t_data t))
  | VOther _ => Raise TypeError
  end.

(** The loop of [_get_named_inputs], over the inputs paired with their
    names. *)
Fixpoint name_inputs (L : libraries) (self : container)
    (named_inputs : gmap string ndarray) (pairs : list (string * pyval))
  : result (gmap string ndarray) :=
  match pairs with
  | [] => Ok named_inputs
  | (name, input) :: rest =>
      let? input_ := np_array input in
      let? input_ :=
        if bool_decide (kind (dtype input_)
                          ∈ SUPPORTED_STRING_TYPES (constants L))
        then
          check (dict_contains (_extra_config self)
                   (MAX_STRING_LENGTH (constants L))) None ;?
          let? max_len :=
            dict_getitem (_extra_config self)
              (MAX_STRING_LENGTH (constants L)) in
          from_strings_to_ints L input_ max_len
        else Ok input_ in
      name_inputs L self (<[name := input_]> named_inputs) rest
  end.

Definition _get_named_inputs (L : libraries) (self : container)
    (inputs : list pyval) : result (gmap string ndarray) :=
  let? inputs :=
    if length inputs <? length (_input_names self)
    then let? first := py_getitem inputs 0 in py_items first
    else Ok inputs in
  check (length inputs =? length (_input_names self)) None ;?
  name_inputs L self ∅ (zip (_input_names self) inputs).

(** [np.array(outputs)[0]] on the list [session.run] returned: the first
    output, which is the only one where this module asks for one. *)
Definition stacked_getitem0 (outputs : list ndarray) : result ndarray :=
  py_getitem outputs 0.

Definition _transform (L : libraries) (self : container)
    (inputs : list pyval) : result ndarray :=
  check (length (_output_names self) =? 1) None ;?
  let? named_inputs := _get_named_inputs L self inputs in
  let? outputs :=
    session_run L (_session self) (_output_names self) named_inputs in
  stacked_getitem0 outputs.

Definition _predict (L : libraries) (self : container)
    (inputs : list pyval) : result ndarray :=
  let? named_inputs := _get_named_inputs L self inputs in
  if _is_regression self then
    check (length (_output_names self) =? 1) None ;?
    let? outputs :=
      session_run L (_session self) (_output_names self) named_inputs in
    let? a := stacked_getitem0 outputs in
    Ok (ravel a)
  else if _is_anomaly_detection self then
    check (length (_output_names self) =? 2) None ;?
    let? name := py_getitem (_output_names self) 0 in
    let? outputs := session_run L (_session self) [name] named_inputs in
    let? a := stacked_getitem0 outputs in
    Ok (ravel a)
  else
    check (length (_output_names self) =? 2) None ;?
    let? name := py_getitem (_output_names self) 0 in
    let? outputs := session_run L (_session self) [name] named_inputs in
    stacked_getitem0 outputs.

Definition _predict_proba (L : libraries) (self : container)
    (inputs : list pyval) : result ndarray :=
  check (length (_output_names self) =? 2) None ;?
  let? named_inputs := _get_named_inputs L self inputs in
  let? name := py_getitem (_output_names self) 1 in
  let? outputs := session_run L (_session self) [name] named_inputs in
  py_getitem outputs 0.

Definition _decision_function (L : libraries) (self : container)
    (inputs : list pyval) : result ndarray :=
  check (length (_output_names self) =? 2) None ;?
  let? named_inputs := _get_named_inputs L self inputs in
  let? name := py_getitem (_output_names self) 1 in
  let? outputs := session_run L (_session self) [name] named_inputs in
  let? a := py_getitem outputs 0 in
  Ok (ravel a).

Definition transform (L : libraries) (self : container)
    (inputs : list pyval) : result ndarray :=
  SklearnContainer._run L (_transform L self) inputs.

Definition predict (L : libraries) (self : container)
    (inputs : list pyval) : result ndarray :=
  SklearnContainer._run L (_predict L self) inputs.

Definition predict_proba (L : libraries) (self : container)
    (inputs : list pyval) : result ndarray :=
  SklearnContainer._run L (_predict_proba L self) inputs.

Definition decision_function (L : libraries) :=
  SklearnContainerAnomalyDetection.decision_function L (_decision_function L).

Definition score_samples (L : libraries) :=
  SklearnContainerAnomalyDetection.score_samples L (_decision_function L).

(** [ort.InferenceSession(model.SerializeToString(),
    sess_options=sess_options)], the options being set from
    [_n_threads]. *)
Definition inference_session (model : pyobj) (n_threads : option Z) : pyobj :=
  PyOrtSession model n_threads.

(** [save(location)] *)
Definition save (L : libraries) (location : string)
  : eff (container * world) unit :=
  (let* self := Saving.this in
   py_assert (negb (is_none (_model self)))
     (Some "Saving a None model is undefined.") ;;
   Saving.null_test_input L ;;
   Saving.make_fresh_dir location ;;
   Saving.in_world (Py.write_file
     (Py.os_path_join location (SAVE_LOAD_MODEL_TYPE_PATH (constants L)))
     (TextFile "onnx")) ;;
   let* self := Saving.this in
   Saving.in_world (Py.write_file
     (Py.os_path_join location (SAVE_LOAD_ONNX_PATH (constants L)))
     (ObjectFile (_model self))) ;;
   let model := _model self in
   let session := _session self in
   Saving.assign (with_model PyNone) ;;
   Saving.assign (with_session PyNone) ;;
   let* snapshot := Saving.this in
   Saving.in_world (Py.write_file
     (Py.os_path_join location (SAVE_LOAD_CONTAINER_PATH (constants L)))
     (PickleFile snapshot)) ;;
   Saving.zip_and_remove location ;;
   Saving.assign (with_model model) ;;
   Saving.assign (with_session session))%eff.

(** [load(location, do_unzip_and_model_type_check=True)] *)
Definition load (L : libraries) (location : string)
    (do_unzip_and_model_type_check : bool) : eff world container :=
  (let* location :=
     if do_unzip_and_model_type_check then
       let* location := Loading.unzip location in
       let* model_type := Loading.read_model_type L location in
       py_assert (bool_decide (model_type = "onnx"))
         (Some ("Expected ONNX model type, got " +:+ model_type)) ;;
       ret location
     else ret location in
   let* model := Loading.read_object
     (Py.os_path_join location (SAVE_LOAD_ONNX_PATH (constants L))) in
   let* container := Loading.read_container
     (Py.os_path_join location (SAVE_LOAD_CONTAINER_PATH (constants L))) in
   let container := with_model model container in
   let container :=
     with_session (inference_session (_model container)
                     (_n_threads container)) container in
   ret container)%eff.

End ONNXSklearnContainer.

(** ** TVM containers *)

Module TVMSklearnContainer.
Local Open Scope result_scope.

(** [inp.shape[0]]: lists and foreign objects have no [shape]. *)
Definition input_rows (inp : pyval) : result Z :=
  match inp with
  | VArray a => shape0 a
  | VTensor t => shape0 (t_data t)
  | VList _ | VOther _ => Raise AttributeError
  end.

Definition input_array (inp : pyval) : ndarray :=
  match inp with
  | VList a | VArray a => a
  | VTensor t => t_data t
  | VOther type_name => NdArray object_ [] [SObj (PyObject type_name 0)]
  end.

(** [str(x)] of a batch size *)
Definition str_batch_size (b : option Z) : string :=
  match b with
  | Some z => pretty z
  | None => "None"
  end.

(** [msg.format(rows, batch_size)] *)
Definition msg_format (rows : Z) (batch_size : option Z) : string :=
  "The number of input rows " +:+ pretty rows
  +:+ " is different from the batch size " +:+ str_batch_size batch_size
  +:+ " the TVM model is compiled for.".

(** The loop of [_to_tvm_tensor] from index [i] on. *)
Fixpoint to_tvm_tensor_from (self : container) (i : nat)
    (tvm_tensors : gmap string ndarray) (inputs : list pyval)
  : result (gmap string ndarray) :=
  match inputs with
  | [] => Ok tvm_tensors
  | inp :: rest =>
      let? rows := input_rows inp in
      check (bool_decide (Some rows = _batch_size self))
            (Some (msg_format rows (_batch_size self))) ;?
      let? name := py_getitem (_input_names self) i in
      to_tvm_tensor_from self (S i)
        (<[name := input_array inp]> tvm_tensors) rest
  end.

Definition _to_tvm_tensor (self : container) (inputs : list pyval)
  : result (gmap string ndarray) :=
  to_tvm_tensor_from self 0 ∅ inputs.

(** An input of exactly [_batch_size] rows. *)
Definition has_batch_rows (self : container) (inp : pyval) : Prop :=
  exists rows, input_rows inp = Ok rows /\ Some rows = _batch_size self.

(** [self.model.run]: the method is looked up before the arguments of
    the call are evaluated.  A graph module has it; [None], a number, a
    string and a context have no such attribute. *)
Definition model_run (L : libraries) (model : pyobj) : result unit :=
  match model with
  | PyGraphModule _ _ _ _ => Ok tt
  | PyObject _ _ | PyOrtSession _ _ =>
      if hasattr L model "run" then Ok tt else Raise AttributeError
  | PyNone | PyInt _ | PyFloat _ | PyStr _ | PyTvmContext _ =>
      Raise AttributeError
  end.

(** [self.model.run], called on the tensors [self._to_tvm_tensor]
    makes of the inputs as its keyword arguments, and
    [return self.model.get_output(output_index).asnumpy()] *)
Definition _predict_common (L : libraries) (self : container)
    (output_index : Z) (inputs : list pyval) : result ndarray :=
  model_run L (_model self) ;?
  let? tvm_tensors := _to_tvm_tensor self inputs in
  tvm_run_get_output L (_model self) (_ctx self) tvm_tensors output_index.

Definition _transform (L : libraries) (self : container)
    (inputs : list pyval) : result ndarray :=
  _predict_common L self 0 inputs.

Definition _predict (L : libraries) (self : container)
    (inputs : list pyval) : result ndarray :=
  let? out := _predict_common L self 0 inputs in
  Ok (ravel out).

Definition _predict_proba (L : libraries) (self : container)
    (inputs : list pyval) : result ndarray :=
  _predict_common L self 1 inputs.

Definition _decision_function (L : libraries) (self : container)
    (inputs : list pyval) : result ndarray :=
  let? out := _predict_common L self 1 inputs in
  Ok (ravel out).

Definition transform (L : libraries) (self : container)
    (inputs : list pyval) : result ndarray :=
  SklearnContainer._run L (_transform L self) inputs.

Definition predict (L : libraries) (self : container)
    (inputs : list pyval) : result ndarray :=
  SklearnContainer._run L (_predict L self) inputs.

Definition predict_proba (L : libraries) (self : container)
    (inputs : list pyval) : result ndarray :=
  SklearnContainer._run L (_predict_proba L self) inputs.

Definition decision_function (L : libraries) :=
  SklearnContainerAnomalyDetection.decision_function L (_decision_function L).

Definition score_samples (L : libraries) :=
  SklearnContainerAnomalyDetection.score_samples L (_decision_function L).

(** [self._ctx.device_type] *)
Definition ctx_device_type (ctx : pyobj) : result Z :=
  match ctx with
  | PyTvmContext device_type => Ok device_type
  | _ => Raise AttributeError
  end.

(** [tvm.cpu()], and the function [tvm.gpu] itself *)
Definition tvm_cpu : pyobj := PyTvmContext 1.
Definition tvm_gpu_function : pyobj := PyObject "<class 'function'>" 0.

(** What [fo.write] accepts in text mode. *)
Definition text_of (v : pyobj) : result fnode :=
  match v with
  | PyStr s => Ok (TextFile s)
  | _ => Raise TypeError
  end.

(** [lib.export_library(path)]: [None] has no such method. *)
Definition exportable (lib : pyobj) : result pyobj :=
  match lib with
  | PyNone => Raise AttributeError
  | _ => Ok lib
  end.

Definition config (key : string) : eff (container * world) pyobj :=
  bind Saving.this (fun self => lift (dict_getitem (_extra_config self) key)).

(** [save(location)] *)
Definition save (L : libraries) (location : string)
  : eff (container * world) unit :=
  (let* self := Saving.this in
   py_assert (negb (is_none (_model self)))
     (Some "Saving a None model is undefined.") ;;
   Saving.make_fresh_dir location ;;
   Saving.in_world (Py.write_file
     (Py.os_path_join location (SAVE_LOAD_MODEL_TYPE_PATH (constants L)))
     (TextFile "tvm")) ;;
   let path_lib :=
     Py.os_path_join location (SAVE_LOAD_TVM_LIB_PATH (constants L)) in
   let* lib := config (TVM_LIB (constants L)) in
   let* lib := lift (exportable lib) in
   Saving.in_world (Py.write_file path_lib (ObjectFile lib)) ;;
   Saving.in_world (Py.write_file
     (Py.os_path_join location (SAVE_LOAD_TVM_GRAPH_PATH (constants L)))
     (TextFile "")) ;;
   let* graph := config (TVM_GRAPH (constants L)) in
   let* graph_text := lift (text_of graph) in
   Saving.in_world (Py.write_file
     (Py.os_path_join location (SAVE_LOAD_TVM_GRAPH_PATH (constants L)))
     graph_text) ;;
   Saving.in_world (Py.write_file
     (Py.os_path_join location (SAVE_LOAD_TVM_PARAMS_PATH (constants L)))
     (TextFile "")) ;;
   let* params := config (TVM_PARAMS (constants L)) in
   Saving.in_world (Py.write_file
     (Py.os_path_join location (SAVE_LOAD_TVM_PARAMS_PATH (constants L)))
     (ObjectFile params)) ;;
   Saving.null_test_input L ;;
   let* lib := config (TVM_LIB (constants L)) in
   let* graph := config (TVM_GRAPH (constants L)) in
   let* params := config (TVM_PARAMS (constants L)) in
   let* ctx := config (TVM_CONTEXT (constants L)) in
   let* self := Saving.this in
   let model := _model self in
   Saving.assign (with_config (TVM_LIB (constants L)) PyNone) ;;
   Saving.assign (with_config (TVM_GRAPH (constants L)) PyNone) ;;
   Saving.assign (with_config (TVM_PARAMS (constants L)) PyNone) ;;
   Saving.assign (with_config (TVM_CONTEXT (constants L)) PyNone) ;;
   let* device_type := lift (ctx_device_type (_ctx self)) in
   Saving.assign (with_ctx
     (PyStr (if (device_type =? 1)%Z then "cpu" else "cuda"))) ;;
   Saving.assign (with_model PyNone) ;;
   let* snapshot := Saving.this in
   Saving.in_world (Py.write_file
     (Py.os_path_join location (SAVE_LOAD_CONTAINER_PATH (constants L)))
     (PickleFile snapshot)) ;;
   Saving.zip_and_remove location ;;
   Saving.assign (with_config (TVM_LIB (constants L)) lib) ;;
   Saving.assign (with_config (TVM_GRAPH (constants L)) graph) ;;
   Saving.assign (with_config (TVM_PARAMS (constants L)) params) ;;
   Saving.assign (with_config (TVM_CONTEXT (constants L)) ctx) ;;
   Saving.assign (with_ctx ctx) ;;
   Saving.assign (with_model model))%eff.

(** [os.environ[name] = value] *)
Definition setenv (name value : string) : eff world unit :=
  fun w =>
    (Ok tt,
     World (files w) (fs_calls w) (torch_num_interop_threads w)
       (torch_num_threads w) (<[name := value]> (environ w))).

(** [load(location, do_unzip_and_model_type_check=True)] *)
Definition load (L : libraries) (location : string)
    (do_unzip_and_model_type_check : bool) : eff world container :=
  (let* location :=
     if do_unzip_and_model_type_check then
       let* location := Loading.unzip location in
       let* model_type := Loading.read_model_type L location in
       py_assert (bool_decide (model_type = "tvm"))
         (Some ("Expected TVM model type, got " +:+ model_type)) ;;
       ret location
     else ret location in
   let path_lib :=
     Py.os_path_join location (SAVE_LOAD_TVM_LIB_PATH (constants L)) in
   let graph_path :=
     Py.os_path_join location (SAVE_LOAD_TVM_GRAPH_PATH (constants L)) in
   let* graph_node := Py.open_read graph_path in
   let* graph := lift (Py.as_text graph_path graph_node) in
   let* lib := Loading.read_object path_lib in
   let* params := Loading.read_object
     (Py.os_path_join location (SAVE_LOAD_TVM_PARAMS_PATH (constants L))) in
   let* container := Loading.read_container
     (Py.os_path_join location (SAVE_LOAD_CONTAINER_PATH (constants L))) in
   let ctx :=
     if eq_str (_ctx container) "cpu" then tvm_cpu
     else tvm_gpu_function in
   let container :=
     with_model (PyGraphModule (PyStr graph) lib ctx params) container in
   let container := with_config (TVM_GRAPH (constants L)) (PyStr graph) container in
   let container := with_config (TVM_LIB (constants L)) lib container in
   let container := with_config (TVM_PARAMS (constants L)) params container in
   let container := with_config (TVM_CONTEXT (constants L)) ctx container in
   let container := with_ctx ctx container in
   setenv "TVM_NUM_THREADS" (Py.str_threads (_n_threads container)) ;;
   ret container)%eff.

End TVMSklearnContainer.

(** A prediction function for the examples: it works row by row on its
    first input, so it computes on a batch what it computes on those rows
    of the whole input. *)
Module BatchExamples.
Definition times10 (batch : list (list nat)) : result (list nat) :=
  Ok (map (fun x => x * 10) (hd [] batch)).

Definition ten_rows : list (list nat) := [seq 0 10].
Definition ten_outputs : list nat := map (fun x => x * 10) (seq 0 10).
End BatchExamples.

(** Libraries and containers for the examples: a model with two
    outputs, the second one a column of scores. *)
Module PredictExamples.

Definition example_constants : constants_t :=
  {| OFFSET := "offset";
     IFOREST_THRESHOLD := "iforest_threshold";
     TEST_INPUT := "test_input";
     MAX_STRING_LENGTH := "max_string_length";
     SUPPORTED_STRING_TYPES := ["S"; "U"];
     TVM_CONTEXT := "tvm_context";
     TVM_LIB := "tvm_lib";
     TVM_GRAPH := "tvm_graph";
     TVM_PARAMS := "tvm_params";
     SAVE_LOAD_MODEL_TYPE_PATH := "model_type.txt";
     SAVE_LOAD_TORCH_JIT_PATH := "torch_jit.pt";
     SAVE_LOAD_ONNX_PATH := "model.onnx";
     SAVE_LOAD_CONTAINER_PATH := "container.pkl";
     SAVE_LOAD_TVM_LIB_PATH := "deploy_lib.tar";
     SAVE_LOAD_TVM_GRAPH_PATH := "deploy_graph.json";
     SAVE_LOAD_TVM_PARAMS_PATH := "deploy_param.params" |}.

Definition int64 : dtype_t := Dtype "i" 8.

(** The labels [[0], [1]] and the scores [[5], [7]], both of shape (2, 1). *)
Definition labels : ndarray := NdArray int64 [2; 1]%Z [SInt 0; SInt 1].
Definition scores : ndarray := NdArray int64 [2; 1]%Z [SInt 5; SInt 7].

(** Addition of an integer to the integer items of an array. *)
Definition add_int (a : ndarray) (v : pyobj) : result ndarray :=
  match v with
  | PyInt z =>
      Ok (NdArray (dtype a) (shape a)
            (map (fun x => match x with
                           | SInt y => SInt (y + z)
                           | _ => x
                           end) (data a)))
  | _ => Raise TypeError
  end.

Definition example_libraries : libraries :=
  {| constants := example_constants;
     pandas_installed := true;
     get_device := fun _ => Some cpu_device;
     from_strings_to_ints := fun a _ => Ok a;
     astype_float32 := fun a => NdArray (Dtype "f" 4) (shape a) (data a);
     torch_supports := fun _ => true;
     forward := fun _ _ =>
       Ok (FTuple [Tensor labels cpu_device; Tensor scores cpu_device]);
     np_add := add_int;
     np_iadd := add_int;
     session_run := fun _ names _ =>
       Ok (map (fun name => if bool_decide (name = "label") then labels
                            else scores) names);
     tvm_run_get_output := fun _ _ _ index =>
       Ok (if (index =? 0)%Z then labels else scores);
     hasattr := fun _ _ => true |}.

Definition two_rows : ndarray :=
  NdArray int64 [2; 3]%Z [SInt 1; SInt 2; SInt 3; SInt 4; SInt 5; SInt 6].
Definition three_rows : ndarray :=
  NdArray int64 [3; 1]%Z [SInt 1; SInt 2; SInt 3].

(** An anomaly detector with offset 10 and a classifier, both for
    batches of two rows. *)
Definition anomaly_detector : container :=
  {| _model := PyObject "<class 'torch.jit._script.RecursiveScriptModule'>" 1;
     _n_threads := None;
     _batch_size := Some 2%Z;
     _extra_config := {[ "offset" := PyInt 10 ]};
     _is_regression := false;
     _is_anomaly_detection := true;
     _session := PyObject "<class 'onnxruntime.InferenceSession'>" 2;
     _output_names := ["label"; "score"];
     _input_names := ["input_0"];
     _ctx := PyTvmContext 1 |}.

Definition classifier : container :=
  {| _model := PyObject "<class 'onnx.onnx_ml_pb2.ModelProto'>" 3;
     _n_threads := None;
     _batch_size := Some 2%Z;
     _extra_config := ∅;
     _is_regression := false;
     _is_anomaly_detection := false;
     _session := PyObject "<class 'onnxruntime.InferenceSession'>" 4;
     _output_names := ["label"; "probabilities"];
     _input_names := ["input_0"];
     _ctx := PyNone |}.

End PredictExamples.

(** A world without files, and containers to save into it: an ONNX
    classifier that still holds a test input, and a TVM container. *)
Module PersistExamples.

Definition empty_world : world := World ∅ [] 4 4 ∅.

Definition with_test_input : container :=
  with_config "test_input" (PyObject "<class 'numpy.ndarray'>" 9)
    PredictExamples.classifier.

Definition tvm_container : container :=
  with_config "tvm_lib" (PyObject "<class 'tvm.runtime.module.Module'>" 5)
    (with_config "tvm_graph" (PyStr "{}")
       (with_config "tvm_params" (PyObject "<class 'dict'>" 6)
          (with_config "tvm_context" (PyTvmContext 1)
             PredictExamples.anomaly_detector))).

(** The world after the classifier is saved to ["model"]. *)
Definition saved_world : world :=
  snd (snd (ONNXSklearnContainer.save PredictExamples.example_libraries
              "model" (with_test_input, empty_world))).

(** A directory that holds an ONNX model and its container, and a
    type file that says ["tvm"]. *)
Definition tagged_directory : world :=
  World {[ "model/model_type.txt" := TextFile "tvm";
           "model/model.onnx" := ObjectFile (_model PredictExamples.classifier);
           "model/container.pkl" := PickleFile PredictExamples.classifier ]}
        [] 4 4 ∅.

End PersistExamples.

(** ** Notions for the properties of the splitter, the wrappers and
    the saved files *)

Module BatchCalls.
Section Sized.
Context {Row : Type}.

(** A call whose arrays all have the batch size of the container it goes
    to: [_batch_size] for the base, [_remainder_size] for the remainder. *)
Definition sized (self : BatchContainer.t) (c : @BatchContainer.call Row)
  : Prop :=
  Forall (fun a : list Row =>
            Z.of_nat (length a)
            = match BatchContainer.callee c with
              | BatchContainer.Base => BatchContainer._batch_size self
              | BatchContainer.Remainder => BatchContainer._remainder_size self
              end)
         (BatchContainer.args c).

(** Array [j] of a batch ([[]] when the batch has fewer arrays). *)
Definition array_of (batch : list (list Row)) (j : nat) : list Row :=
  default [] (batch !! j).

End Sized.

(** A 2-D array of the given rows, as a container receives it. *)
Definition as_array (dt : dtype_t) (cols : Z) (rows : list (list scalar))
  : pyval :=
  VArray (NdArray dt [Z.of_nat (length rows); cols] (concat rows)).

End BatchCalls.

Module Wrapped.

(** An input as the wrapped function receives it: a tensor, on [d] when
    [d] is not the cpu. *)
Definition tensor_for (d : device_t) (x : pyval) : Prop :=
  exists t, x = VTensor t /\ (device_type d <> "cpu" -> t_device t = d).

End Wrapped.

Module NamedInputs.

(** What [_get_named_inputs] stores for an input: [np.array] of it,
    turned into integers when it is an array of strings. *)
Definition stored (L : libraries) (self : container) (input : pyval)
    (a' : ndarray) : Prop :=
  exists a,
    ONNXSklearnContainer.np_array input = Ok a
    /\ if bool_decide (kind (dtype a) ∈ SUPPORTED_STRING_TYPES (constants L))
       then exists max_len,
              _extra_config self !! MAX_STRING_LENGTH (constants L)
              = Some max_len
              /\ from_strings_to_ints L a max_len = Ok a'
       else a' = a.

End NamedInputs.

(** The files of a saved model: the directory [save] fills, the archive
    made of it and the directory [load] unpacks. *)
Module Bundle.

(** The members [shutil.make_archive] puts into the archive of
    [root_dir]: the files under it, by their relative names. *)
Definition archive_members (root_dir : string) (fs : gmap string fnode)
  : list (string * fnode) :=
  omap (fun '(path, node) =>
          match Py.relative_to root_dir path with
          | Some rel => Some (rel, node)
          | None => None
          end)
       (map_to_list fs).

(** The files once the directory [location] exists and holds the
    [entries], the first entry being the one written last. *)
Definition directory (location : string) (entries : list (string * fnode))
    (fs : gmap string fnode) : gmap string fnode :=
  foldr (fun '(rel, node) fs => <[Py.os_path_join location rel := node]> fs)
        (<[location := Dir]> fs) entries.

(** The files once [shutil.rmtree(path)] has run. *)
Definition removed (path : string) (fs : gmap string fnode)
  : gmap string fnode :=
  filter (fun '(p, _) => p <> path /\ Py.relative_to path p = None) fs.

(** The files once the directory of the [entries] is archived and
    removed. *)
Definition archived (location : string) (entries : list (string * fnode))
    (fs : gmap string fnode) : gmap string fnode :=
  let dir := directory location entries fs in
  removed location
    (<[location +:+ ".zip" := ZipFile (archive_members location dir)]> dir).

(** A location as [save] and [load] are meant to be given: a directory
    name that is not empty and ends neither in a slash nor in [zip]. *)
Definition plain_location (location : string) : Prop :=
  location <> ""
  /\ Py.endswith location "/" = false
  /\ Py.endswith location "zip" = false.

(** A file name that is not an absolute path. *)
Definition relative_name (name : string) : Prop :=
  String.prefix "/" name = false.

(** The directories above [location] exist, so that [os.makedirs] has
    the directory [location] alone to make. *)
Definition parents_exist (location : string) (fs : gmap string fnode)
  : Prop :=
  Forall (fun p => fs !! p = Some Dir) (Py.parents location).

(** Nothing exists at [location] or under it. *)
Definition vacant (location : string) (fs : gmap string fnode) : Prop :=
  fs !! location = None
  /\ forall path, is_Some (Py.relative_to location path) -> fs !! path = None.

(** Between the files [fs] and [fs'] nothing has changed but this: the
    archive of [location] exists and holds the [entries], and nothing
    exists at [location] or under it. *)
Definition only_archive (location : string) (entries : list (string * fnode))
    (fs fs' : gmap string fnode) : Prop :=
  (exists members,
     fs' !! (location +:+ ".zip") = Some (ZipFile members)
     /\ forall rel node, (rel, node) ∈ members <-> (rel, node) ∈ entries)
  /\ (forall path,
        path = location \/ is_Some (Py.relative_to location path) ->
        fs' !! path = None)
  /\ (forall path,
        path <> location +:+ ".zip" -> path <> location ->
        Py.relative_to location path = None ->
        fs' !! path = fs !! path).

(** What [save] of an ONNX container writes. *)
Definition onnx_entries (L : libraries) (self : container)
  : list (string * fnode) :=
  [ (SAVE_LOAD_CONTAINER_PATH (constants L),
     PickleFile (with_session PyNone
                   (with_model PyNone (Saving.test_input_nulled L self))));
    (SAVE_LOAD_ONNX_PATH (constants L), ObjectFile (_model self));
    (SAVE_LOAD_MODEL_TYPE_PATH (constants L), TextFile "onnx") ].

(** What [save] of a PyTorch container writes for a TorchScript model. *)
Definition torch_jit_entries (L : libraries) (self : container)
  : list (string * fnode) :=
  [ ("container.pkl",
     PickleFile (with_model PyNone (Saving.test_input_nulled L self)));
    (SAVE_LOAD_TORCH_JIT_PATH (constants L), ObjectFile (_model self));
    (SAVE_LOAD_MODEL_TYPE_PATH (constants L), TextFile "torch.jit") ].

(** What [save] of a PyTorch container writes for a
    [PyTorchBackendModel]. *)
Definition torch_entries (L : libraries) (self : container)
  : list (string * fnode) :=
  [ (SAVE_LOAD_TORCH_JIT_PATH (constants L),
     PickleFile (Saving.test_input_nulled L self));
    (SAVE_LOAD_MODEL_TYPE_PATH (constants L), TextFile "torch") ].

(** The container a TVM [save] pickles: what cannot be pickled is
    taken out, and [_ctx] is the name of the device. *)
Definition tvm_snapshot (L : libraries) (self : container) (device_type : Z)
  : container :=
  with_model PyNone
    (with_ctx (PyStr (if (device_type =? 1)%Z then "cpu" else "cuda"))
       (with_config (TVM_CONTEXT (constants L)) PyNone
          (with_config (TVM_PARAMS (constants L)) PyNone
             (with_config (TVM_GRAPH (constants L)) PyNone
                (with_config (TVM_LIB (constants L)) PyNone
                   (Saving.test_input_nulled L self)))))).

(** What [save] of a TVM container writes. *)
Definition tvm_entries (L : libraries) (self : container)
    (lib : pyobj) (graph : string) (params : pyobj) (device_type : Z)
  : list (string * fnode) :=
  [ (SAVE_LOAD_CONTAINER_PATH (constants L),
     PickleFile (tvm_snapshot L self device_type));
    (SAVE_LOAD_TVM_PARAMS_PATH (constants L), ObjectFile params);
    (SAVE_LOAD_TVM_GRAPH_PATH (constants L), TextFile graph);
    (SAVE_LOAD_TVM_LIB_PATH (constants L), ObjectFile lib);
    (SAVE_LOAD_MODEL_TYPE_PATH (constants L), TextFile "tvm") ].

(** A TVM container as [__init__] and [load] leave it, ready for
    [save]: the library, the graph, the parameters and the context are
    stored in [_extra_config], under keys other than that of the test
    input, and [_ctx] is a context. *)
Definition tvm_saveable (L : libraries) (self : container)
    (lib : pyobj) (graph : string) (params ctx : pyobj) (device_type : Z)
  : Prop :=
  _extra_config self !! TVM_LIB (constants L) = Some lib
  /\ is_none lib = false
  /\ _extra_config self !! TVM_GRAPH (constants L) = Some (PyStr graph)
  /\ _extra_config self !! TVM_PARAMS (constants L) = Some params
  /\ _extra_config self !! TVM_CONTEXT (constants L) = Some ctx
  /\ _ctx self = PyTvmContext device_type
  /\ Forall (fun key => key <> TEST_INPUT (constants L))
       [TVM_LIB (constants L); TVM_GRAPH (constants L);
        TVM_PARAMS (constants L); TVM_CONTEXT (constants L)].

(** The thread settings of torch and the environment are the same in
    both states. *)
Definition same_process (w w' : world) : Prop :=
  torch_num_interop_threads w' = torch_num_interop_threads w
  /\ torch_num_threads w' = torch_num_threads w
  /\ environ w' = environ w.

(** A computation that leaves the thread settings and the environment
    alone. *)
Definition files_only {A} (m : eff world A) : Prop :=
  forall w, same_process w (snd (m w)).

End Bundle.

(** More examples: a prediction function that fails on the batch that
    starts with row 4, libraries that find no device for a model, and a
    world in which ["model"] exists. *)
Module MoreExamples.

Definition picky (batch : list (list nat)) : result (list nat) :=
  match hd [] batch with
  | 4 :: _ => Raise ValueError
  | rows => Ok (map (fun x => x * 10) rows)
  end.

Definition four_rows : list (list (list scalar)) :=
  [[[SInt 1]; [SInt 2]; [SInt 3]; [SInt 4]]].

Definition constantly_empty (batch : list (list (list scalar)))
  : result (list nat) := Ok [].

Definition count_inputs (inputs : list pyval) : result nat :=
  Ok (length inputs).

Definition no_device_libraries : libraries :=
  {| constants := PredictExamples.example_constants;
     pandas_installed := true;
     get_device := fun _ => None;
     from_strings_to_ints := fun a _ => Ok a;
     astype_float32 := fun a => a;
     torch_supports := fun _ => true;
     forward := fun _ _ => Raise ValueError;
     np_add := PredictExamples.add_int;
     np_iadd := PredictExamples.add_int;
     session_run := fun _ _ _ => Raise ValueError;
     tvm_run_get_output := fun _ _ _ _ => Raise ValueError;
     hasattr := fun _ _ => true |}.

Definition occupied_world : world := World {[ "model" := Dir ]} [] 4 4 ∅.

(** A container for two threads, and a world that holds the directory
    of it as [save] writes it for a [PyTorchBackendModel]. *)
Definition threaded : container :=
  {| _model := PyObject "<class 'PyTorchBackendModel'>" 7;
     _n_threads := Some 2%Z;
     _batch_size := None;
     _extra_config := ∅;
     _is_regression := true;
     _is_anomaly_detection := false;
     _session := PyNone;
     _output_names := [];
     _input_names := [];
     _ctx := PyNone |}.

Definition directory_world : world :=
  World {[ "model/model_type.txt" := TextFile "torch";
           "model/torch_jit.pt" := PickleFile threaded ]} [] 4 4 ∅.

End MoreExamples.

(** * Properties *)

(** ** Results and effects *)

Lemma returns_Ok {A} (a : A) : returns (Ok a).
Proof. by exists a. Qed.

Lemma for_each_app {S I A} (body : I -> A -> eff S A) (l1 l2 : list I)
    (acc : A) (s : S) :
  for_each body (l1 ++ l2) acc s
  = bind (for_each body l1 acc) (for_each body l2) s.
Proof.
  revert acc s. induction l1 as [|i l1 IH]; intros acc s; simpl.
  - reflexivity.
  - unfold bind. destruct (body i acc s) as [[a|e] s']; [|done].
    by rewrite IH.
Qed.

(** ** Slices *)

Lemma py_slice_rows_between {A} (s e : Z) (l : list A) :
  (0 <= s <= e)%Z ->
  py_slice s e l = rows_between (Z.to_nat s) (Z.to_nat e) l.
Proof.
  intros Hse. unfold py_slice, rows_between, slice_bound.
  destruct (Z.ltb_spec s 0) as [?|_]; [lia|].
  destruct (Z.ltb_spec e 0) as [?|_]; [lia|].
  destruct (decide (Z.to_nat s <= length l)) as [Hs|Hs].
  - replace (Z.to_nat (Z.min s (Z.of_nat (length l)))) with (Z.to_nat s) by lia.
    destruct (decide (Z.to_nat e <= length l)) as [He|He].
    + f_equal. lia.
    + rewrite !take_ge; [done|rewrite length_drop; lia..].
  - rewrite !(drop_ge l) by lia. by rewrite !take_nil.
Qed.

Lemma length_rows_between {A} (lo hi : nat) (l : list A) :
  hi <= length l -> length (rows_between lo hi l) = hi - lo.
Proof. intros. unfold rows_between. rewrite length_take, length_drop. lia. Qed.

Lemma rows_between_all {A} (l : list A) : rows_between 0 (length l) l = l.
Proof. unfold rows_between. rewrite drop_0, Nat.sub_0_r. by apply take_ge. Qed.

Lemma rows_between_snoc {A} (m hi : nat) (l : list A) :
  m <= hi ->
  take m l ++ rows_between m hi l = take hi l.
Proof.
  intros. unfold rows_between. rewrite take_take_drop. f_equal. lia.
Qed.

(** ** The batch splitter *)

Section SplitterFacts.
Import BatchContainer.
Local Open Scope Z_scope.

Context {Row Item : Type}.
Variable self : BatchContainer.t.
Variables pf rf : list (list Row) -> result (list Item).
Variable inputs : list (list Row).
Variable N : Z.

Local Abbreviation B := (_batch_size self).
Local Abbreviation R := (_remainder_size self).
Local Abbreviation k := (iterations self N).
Local Abbreviation body := (loop_body self pf rf inputs N k).
Local Abbreviation batch := (batch_of self inputs N).

(** *** Arithmetic of the iteration count *)

Lemma iterations_of_nonzero :
  B <> 0 -> iterations_of self N = Ok k.
Proof.
  intros HB. unfold iterations_of, iterations, py_floordiv, py_mod.
  destruct (Z.eqb_spec B 0) as [?|_]; [done|]. reflexivity.
Qed.

Lemma iterations_of_zero :
  B = 0 -> iterations_of self N = Raise ZeroDivisionError.
Proof.
  intros HB. unfold iterations_of, py_floordiv. by rewrite HB.
Qed.

Lemma iterations_ge_1 : 1 <= k.
Proof. unfold iterations. lia. Qed.

Lemma iterations_cover :
  0 < B -> 0 <= N -> (k - 1) * B <= N <= k * B.
Proof.
  intros HB HN. unfold iterations.
  pose proof (Z.div_mod N B ltac:(lia)) as Hdiv.
  pose proof (Z.mod_pos_bound N B HB) as Hmod.
  assert (0 <= N / B) by (apply Z.div_pos; lia).
  destruct (Z.gtb_spec (N mod B) 0); nia.
Qed.

Lemma iterations_full_batch i :
  0 < B -> 0 <= N -> 0 <= i < k - 1 -> i * B + B <= N.
Proof.
  intros HB HN Hi. pose proof (iterations_cover HB HN). nia.
Qed.

Lemma iterations_ceil :
  0 < B -> 1 <= N -> k = (N + B - 1) / B.
Proof.
  intros HB HN. unfold iterations.
  pose proof (Z.div_mod N B ltac:(lia)) as Hdiv.
  pose proof (Z.mod_pos_bound N B HB) as Hmod.
  assert (0 <= N / B) by (apply Z.div_pos; lia).
  destruct (Z.gtb_spec (N mod B) 0).
  - rewrite Z.max_r by lia.
    apply (Z.div_unique_pos _ _ _ (N mod B - 1)); lia.
  - assert (N mod B = 0) as Hz by lia. rewrite Hz in Hdiv.
    assert (1 <= N / B) by nia.
    rewrite Z.max_r by lia.
    apply (Z.div_unique_pos _ _ _ (B - 1)); lia.
Qed.

(** The rows left for the last iteration. *)
Lemma last_rows :
  0 < B -> 1 <= N ->
  N - (k - 1) * B = (if N mod B =? 0 then B else N mod B).
Proof.
  intros HB HN. unfold iterations.
  pose proof (Z.div_mod N B ltac:(lia)) as Hdiv.
  pose proof (Z.mod_pos_bound N B HB) as Hmod.
  assert (0 <= N / B) by (apply Z.div_pos; lia).
  destruct (Z.eqb_spec (N mod B) 0) as [Hz|Hnz].
  - rewrite Hz in *. simpl. assert (1 <= N / B) by nia. nia.
  - destruct (Z.gtb_spec (N mod B) 0); [nia|lia].
Qed.

(** *** One iteration *)

Lemma loop_body_base i acc t :
  i <> k - 1 ->
  body i acc t
  = (result_map (fun out => acc ++ [out]) (pf (batch i)),
     t ++ [Call Base (batch i)]).
Proof.
  intros Hi. unfold loop_body, bind.
  destruct (Z.eqb_spec i (k - 1)) as [?|_]; [done|].
  unfold invoke, batch_of. by destruct (pf _).
Qed.

Lemma loop_body_last acc t :
  body (k - 1) acc t
  = if Z.min ((k - 1) * B + B) N - (k - 1) * B =? R
    then (result_map (fun out => acc ++ [out]) (rf (batch (k - 1))),
          t ++ [Call Remainder (batch (k - 1))])
    else (Raise (AssertionError None), t).
Proof.
  unfold loop_body, bind. rewrite Z.eqb_refl.
  destruct (_ =? R); simpl; [|done].
  unfold invoke, batch_of. by destruct (rf _).
Qed.

(** *** The iterations before the last *)

Lemma base_loop_returns l acc t :
  Forall (fun i => i <> k - 1 /\ returns (pf (batch i))) l ->
  for_each body l acc t
  = (Ok (acc ++ map (fun i => returned pf (batch i)) l),
     t ++ map (fun i => Call Base (batch i)) l).
Proof.
  intros Hl. revert acc t.
  induction Hl as [|i l [Hi [out Hout]] _ IH]; intros acc t; simpl.
  - by rewrite !app_nil_r.
  - unfold bind. rewrite loop_body_base by done.
    unfold returned. rewrite Hout. simpl.
    rewrite IH. by rewrite <- !app_assoc.
Qed.

Lemma for_each_raise_inv l acc t r t' :
  Forall (fun i => i <> k - 1) l ->
  for_each body l acc t = (Ok r, t') ->
  Forall (fun i => returns (pf (batch i))) l.
Proof.
  intros Hl. revert acc t.
  induction Hl as [|i l Hi _ IH]; intros acc t; simpl; [constructor|].
  unfold bind. rewrite loop_body_base by done.
  destruct (pf (batch i)) as [out|e] eqn:Hout; simpl; [|done].
  intros Hrest. constructor; [by exists out|by eapply IH].
Qed.

(** *** The whole call *)

Lemma predict_common_single cc t :
  total_rows inputs = Ok N -> N = B ->
  _predict_common self pf rf inputs cc t
  = (result_bind (pf inputs) (fun out => output_proc cc [out]),
     t ++ [Call Base inputs]).
Proof.
  intros HN HB. unfold _predict_common, bind, lift. rewrite HN.
  rewrite HB, Z.eqb_refl. unfold invoke. by destruct (pf inputs).
Qed.

Lemma predict_common_loop cc t :
  total_rows inputs = Ok N -> N <> B -> B <> 0 ->
  _predict_common self pf rf inputs cc t
  = bind (for_each body (seqZ 0 k) [])
         (fun predictions => lift (output_proc cc predictions)) t.
Proof.
  intros HN HNB HB. unfold _predict_common. unfold bind at 1, lift at 1.
  rewrite HN. destruct (Z.eqb_spec N B) as [?|_]; [done|].
  unfold bind at 1, lift at 1. by rewrite iterations_of_nonzero.
Qed.

Lemma range_split_last :
  seqZ 0 k = seqZ 0 (k - 1) ++ [k - 1].
Proof.
  pose proof iterations_ge_1.
  replace k with ((k - 1) + 1) at 1 by lia.
  rewrite seqZ_app by lia. by f_equal.
Qed.

Lemma total_rows_nonneg :
  total_rows inputs = Ok N -> 0 <= N.
Proof. destruct inputs; simpl; intros [= <-]; lia. Qed.

(** The call, when it does not take the single-batch branch and the
    base function returns on the batches before the last. *)
Lemma predict_common_split cc t :
  total_rows inputs = Ok N -> N <> B -> 0 < B ->
  (forall i, 0 <= i < k - 1 -> returns (pf (batch i))) ->
  _predict_common self pf rf inputs cc t
  = if N - (k - 1) * B =? R
    then (result_bind (rf (batch (k - 1))) (fun out =>
            output_proc cc
              (map (fun i => returned pf (batch i)) (seqZ 0 (k - 1)) ++ [out])),
          t ++ map (fun i => Call Base (batch i)) (seqZ 0 (k - 1))
            ++ [Call Remainder (batch (k - 1))])
    else (Raise (AssertionError None),
          t ++ map (fun i => Call Base (batch i)) (seqZ 0 (k - 1))).
Proof.
  intros HN HNB HB Hpf.
  pose proof (total_rows_nonneg HN) as HN0.
  pose proof (iterations_cover HB HN0) as Hk.
  rewrite predict_common_loop by (done || lia).
  rewrite range_split_last. unfold bind at 1.
  rewrite for_each_app. unfold bind at 1.
  rewrite base_loop_returns; cycle 1.
  { apply Forall_seqZ. intros i Hi. split; [lia|]. apply Hpf. lia. }
  simpl. unfold bind at 1. rewrite loop_body_last.
  replace (Z.min ((k - 1) * B + B) N) with N by lia.
  destruct (_ =? R); [|done].
  rewrite <- app_assoc. by destruct (rf _).
Qed.

Lemma last_batch_rows :
  total_rows inputs = Ok N -> 0 < B ->
  Z.of_nat (length (hd [] (batch (k - 1)))) = N - (k - 1) * B.
Proof.
  intros HN HB.
  pose proof (total_rows_nonneg HN) as HN0.
  pose proof (iterations_cover HB HN0) as Hk.
  pose proof iterations_ge_1 as Hk1.
  unfold batch_of. destruct inputs as [|a rest]; [done|].
  injection HN as HN. simpl.
  assert (0 <= (k - 1) * B) by nia.
  rewrite py_slice_rows_between by lia.
  rewrite length_rows_between by lia. lia.
Qed.

Lemma concat_full_batches (full : list Item) (n : nat) :
  0 < B ->
  concat (map (fun i => py_slice (i * B) (i * B + B) full)
              (seqZ 0 (Z.of_nat n)))
  = take (Z.to_nat (Z.of_nat n * B)) full.
Proof.
  intros HB. induction n as [|n IH].
  - done.
  - rewrite seqZ_S, map_app, concat_app, IH. simpl.
    replace (0 + Z.of_nat n) with (Z.of_nat n) by lia.
    rewrite app_nil_r, py_slice_rows_between by nia.
    replace (Z.to_nat (Z.of_nat n * B + B))
      with (Z.to_nat (Z.of_nat (S n) * B)) by nia.
    apply rows_between_snoc. nia.
Qed.

(** C1, for a non-empty input.  Let the input arrays have [N >= 1] rows
    each, let the batch size be positive and the remainder size be
    [N mod B], or [B] when that is zero, and let the unsplit computation
    return [full], one item per row.  If the base function agrees with
    it on every sub-range of [B] rows and the remainder function on
    every sub-range of [R] rows, the call with
    [concatenate_outputs=True] returns [full]. *)
Theorem predict_common_equals_unsplit (full : list Item) t :
  0 < B ->
  1 <= N ->
  inputs <> [] ->
  Forall (fun a => Z.of_nat (length a) = N) inputs ->
  Z.of_nat (length full) = N ->
  R = remainder_for N B ->
  agrees_on pf inputs full B N ->
  agrees_on rf inputs full R N ->
  fst (_predict_common self pf rf inputs true t) = Ok (Concatenated full).
Proof.
  intros HB HN1 Hne Hrows Hfull HR Hpf Hrf.
  assert (total_rows inputs = Ok N) as HN.
  { destruct inputs as [|a rest]; [done|]. simpl. f_equal.
    by apply Forall_cons in Hrows as [-> _]. }
  destruct (decide (N = B)) as [HNB|HNB].
  - rewrite predict_common_single by done. simpl.
    specialize (Hpf 0 ltac:(lia) ltac:(lia)). rewrite Z.add_0_l in Hpf.
    replace (map (py_slice 0 B) inputs) with inputs in Hpf; cycle 1.
    { clear -Hrows HNB. induction Hrows as [|a l Ha _ IH]; [done|].
      simpl. rewrite <- IH. f_equal. rewrite <- HNB, <- Ha.
      rewrite py_slice_rows_between by lia.
      rewrite Nat2Z.id. symmetry. apply rows_between_all. }
    rewrite Hpf. simpl. rewrite app_nil_r.
    rewrite <- HNB, <- Hfull. do 2 f_equal.
    rewrite py_slice_rows_between by lia.
    rewrite Nat2Z.id. apply rows_between_all.
  - pose proof (iterations_cover HB ltac:(lia)) as Hk.
    pose proof iterations_ge_1 as Hk1.
    pose proof (last_rows HB HN1) as Hlast.
    assert (forall i, 0 <= i < k - 1 ->
              pf (batch i) = Ok (py_slice (i * B) (i * B + B) full)) as Hb.
    { intros i Hi. unfold batch_of.
      pose proof (iterations_full_batch i HB ltac:(lia) Hi).
      replace (Z.min (i * B + B) N) with (i * B + B) by lia.
      apply Hpf; nia. }
    rewrite predict_common_split; [|done..|]; cycle 1.
    { intros i Hi. rewrite Hb by done. apply returns_Ok. }
    fold (remainder_for N B) in Hlast. rewrite <- HR in Hlast.
    rewrite Hlast, Z.eqb_refl. simpl.
    assert (rf (batch (k - 1)) = Ok (py_slice ((k - 1) * B) N full)) as ->.
    { unfold batch_of. replace (Z.min ((k - 1) * B + B) N) with N by lia.
      specialize (Hrf ((k - 1) * B) ltac:(nia) ltac:(lia)).
      by replace ((k - 1) * B + R) with N in Hrf by lia. }
    simpl. unfold np_concatenate.
    destruct (_ ++ [_]) eqn:E; [by destruct (map _ _)|]. rewrite <- E.
    simpl. do 2 f_equal. rewrite concat_app. simpl. rewrite app_nil_r.
    erewrite map_ext_in; cycle 1.
    { intros i Hi%list_elem_of_In%elem_of_seqZ. unfold returned.
      rewrite Hb by lia. reflexivity. }
    replace (k - 1) with (Z.of_nat (Z.to_nat (k - 1))) at 1 by lia.
    rewrite concat_full_batches by done.
    rewrite Z2Nat.id by lia.
    rewrite py_slice_rows_between by nia.
    rewrite rows_between_snoc by nia.
    apply take_ge. lia.
Qed.

(** C2.  When the input has exactly [_batch_size] rows, one call is
    made, to the base prediction function on the whole input, and its
    output is handed to [output_proc] as a one-element list.  Otherwise
    (for a positive batch size, and prediction functions that return on
    the batches they are given) the base function is called on the
    batches before the last only, the last batch goes to the remainder
    function, whether or not the batch size divides the row count, and
    the call raises [AssertionError] exactly when the row count of the
    last batch differs from [_remainder_size]. *)
Theorem predict_common_routing cc t :
  total_rows inputs = Ok N ->
  0 < B ->
  (forall i, 0 <= i < k - 1 -> returns (pf (batch i))) ->
  returns (rf (batch (k - 1))) ->
  let run := _predict_common self pf rf inputs cc t in
  let final := batch (k - 1) in
  let final_rows := Z.of_nat (length (hd [] final)) in
  (N = B ->
     run = (result_bind (pf inputs) (fun out => output_proc cc [out]),
            t ++ [Call Base inputs]))
  /\ (N <> B ->
        snd run
        = t ++ map (fun i => Call Base (batch i)) (seqZ 0 (k - 1))
            ++ (if final_rows =? R then [Call Remainder final] else [])
        /\ (fst run = Raise (AssertionError None) <-> final_rows <> R)
        /\ (final_rows = R -> returns (fst run))).
Proof.
  intros HN HB Hpf [out Hrf] run final final_rows. split.
  - intros HNB. by apply predict_common_single.
  - intros HNB. subst run final_rows final.
    rewrite last_batch_rows by done.
    rewrite predict_common_split by done.
    pose proof iterations_ge_1 as Hk1.
    destruct (Z.eqb_spec (N - (k - 1) * B) R) as [Heq|Hne]; simpl.
    + rewrite Hrf. simpl. split; [done|].
      assert (exists o, output_proc cc
        (map (fun i => returned pf (batch i)) (seqZ 0 (k - 1)) ++ [out]) = Ok o)
        as [o Ho].
      { unfold output_proc, np_concatenate.
        destruct cc; [|by eexists].
        destruct (_ ++ [out]) eqn:E; [by destruct (map _ _)|by eexists]. }
      rewrite Ho. split; [split; [done|lia]|]. intros _. by exists o.
    + rewrite app_nil_r. split; [done|]. split; [done|lia].
Qed.

Lemma map_const {A C} (x : C) (l : list A) :
  map (fun _ => x) l = replicate (length l) x.
Proof. induction l as [|a l IH]; simpl; [done|by f_equal]. Qed.

Lemma returned_Ok (f : list (list Row) -> result (list Item)) b :
  returns (f b) -> f b = Ok (returned f b).
Proof. intros [out Hout]. unfold returned. by rewrite Hout. Qed.

(** What a call that goes through the loop and returns has met on its
    way. *)
Lemma predict_common_returns_inv cc t r t' :
  total_rows inputs = Ok N -> 0 < B -> N <> B ->
  _predict_common self pf rf inputs cc t = (Ok r, t') ->
  (forall i, 0 <= i < k - 1 -> returns (pf (batch i)))
  /\ N - (k - 1) * B = R
  /\ returns (rf (batch (k - 1))).
Proof.
  intros HN HB HNB Hrun.
  pose proof iterations_ge_1 as Hk1.
  assert (forall i, 0 <= i < k - 1 -> returns (pf (batch i))) as Hpf.
  { rewrite predict_common_loop in Hrun by (done || lia).
    rewrite range_split_last in Hrun. unfold bind at 1 in Hrun.
    rewrite for_each_app in Hrun. unfold bind at 1 in Hrun.
    destruct (for_each _ (seqZ 0 (k - 1)) [] t) as [[acc|e] t1] eqn:Hloop;
      [|done].
    apply for_each_raise_inv in Hloop; [|apply Forall_seqZ; lia].
    intros i Hi. eapply Forall_seqZ in Hloop; [done|lia]. }
  split; [exact Hpf|].
  rewrite predict_common_split in Hrun by done.
  destruct (Z.eqb_spec (N - (k - 1) * B) R) as [Hlast|?]; [|done].
  split; [done|].
  destruct (rf (batch (k - 1))) as [out|e]; [by exists out|done].
Qed.

(** C3.  A call that does not take the single-batch branch and returns
    makes one call per iteration: their number is [N // B], one more
    when [N % B > 0], and at least one, which is the ceiling of [N / B]
    for a non-empty input (and the input is not empty when the
    remainder size is positive); the call of iteration [i] is on the
    rows [i*B, min((i+1)*B, N)) of every input array, and goes to the
    remainder function in the last iteration and to the base function
    before; with [concatenate_outputs=False] the result is the list of
    what these calls returned, one chunk per iteration in order, and
    with [concatenate_outputs=True] the same call returns the
    concatenation of these chunks. *)
Theorem predict_common_chunks t r t' :
  total_rows inputs = Ok N ->
  0 < B ->
  N <> B ->
  _predict_common self pf rf inputs false t = (Ok r, t') ->
  exists chunks calls,
    r = Chunks chunks
    /\ t' = t ++ calls
    /\ length chunks = length calls
    /\ Z.of_nat (length calls)
       = Z.max 1 (N / B + (if N mod B >? 0 then 1 else 0))
    /\ (1 <= N -> Z.of_nat (length calls) = (N + B - 1) / B)
    /\ (0 < R -> 1 <= N)
    /\ map args calls
        = map (fun i => map (rows_between (Z.to_nat (i * B))
                                          (Z.to_nat (Z.min ((i + 1) * B) N)))
                            inputs)
              (seqZ 0 (Z.of_nat (length calls)))
    /\ map callee calls = replicate (length calls - 1) Base ++ [Remainder]
    /\ Forall2 (fun c chunk =>
                  match callee c with
                  | Base => pf (args c)
                  | Remainder => rf (args c)
                  end = Ok chunk)
               calls chunks
    /\ _predict_common self pf rf inputs true t
        = (Ok (Concatenated (concat chunks)), t').
Proof.
  intros HN HB HNB Hrun.
  pose proof (total_rows_nonneg HN) as HN0.
  pose proof (iterations_cover HB HN0) as Hk.
  pose proof iterations_ge_1 as Hk1.
  destruct (predict_common_returns_inv _ _ _ _ HN HB HNB Hrun)
    as (Hpf & Hlast & [out Hout]).
  rewrite predict_common_split in Hrun by done.
  rewrite predict_common_split by done.
  destruct (Z.eqb_spec (N - (k - 1) * B) R) as [_|?]; [|done].
  rewrite Hout in *. simpl in *.
  injection Hrun as <- <-.
  set (calls := map (fun i => Call Base (batch i)) (seqZ 0 (k - 1))
                ++ [Call Remainder (batch (k - 1))]).
  assert (Z.of_nat (length calls) = k) as Hlen.
  { unfold calls. rewrite length_app, length_map, length_seqZ. simpl. lia. }
  exists (map (fun i => returned pf (batch i)) (seqZ 0 (k - 1)) ++ [out]),
    calls.
  split; [done|]. split; [done|].
  split. { unfold calls. by rewrite !length_app, !length_map. }
  split; [by rewrite Hlen|].
  split. { intros. rewrite Hlen. by apply iterations_ceil. }
  split.
  { intros HR. destruct (decide (N = 0)) as [HN00|?]; [|lia].
    exfalso. unfold iterations in Hlast. rewrite HN00 in Hlast.
    rewrite Z.div_0_l, Z.mod_0_l in Hlast by lia. simpl in Hlast. lia. }
  split.
  { rewrite Hlen. unfold calls. rewrite range_split_last.
    rewrite !map_app, !map_map. simpl. f_equal.
    + apply map_ext_in. intros i Hi%list_elem_of_In%elem_of_seqZ.
      unfold batch_of. apply map_ext. intros a.
      rewrite py_slice_rows_between by nia.
      do 2 f_equal; lia.
    + f_equal. unfold batch_of. apply map_ext. intros a.
      rewrite py_slice_rows_between by nia.
      do 2 f_equal; lia. }
  split.
  { unfold calls. rewrite length_app, length_map, length_seqZ. simpl.
    rewrite map_app, map_map. simpl. f_equal.
    rewrite map_const, length_seqZ. f_equal. lia. }
  split.
  { unfold calls. apply Forall2_app; [|by constructor].
    apply Forall2_fmap. apply Forall_Forall2_diag.
    apply Forall_seqZ. intros i Hi. simpl. apply returned_Ok, Hpf. lia. }
  by destruct (map (fun i => returned pf (batch i)) (seqZ 0 (k - 1))).
Qed.

End SplitterFacts.

(** *** The splitter on examples *)

Lemma py_slice_map {A C} (f : A -> C) (s e : Z) (l : list A) :
  py_slice s e (map f l) = map f (py_slice s e l).
Proof.
  unfold py_slice. rewrite length_map.
  by rewrite skipn_map, firstn_map.
Qed.

Lemma times10_agrees (l : list nat) (size total_size : Z) :
  BatchContainer.agrees_on BatchExamples.times10 [l]
    (map (fun x => x * 10) l) size total_size.
Proof.
  intros s _ _. unfold BatchExamples.times10. simpl.
  by rewrite py_slice_map.
Qed.

Lemma times10_returns (batch : list (list nat)) :
  returns (BatchExamples.times10 batch).
Proof. apply returns_Ok. Qed.

(** Ten rows through a splitter of batch size 4 and remainder size 2. *)
Lemma predict_common_equals_unsplit_witness :
  fst (BatchContainer._predict_common (BatchContainer.Build 4 2)
         BatchExamples.times10 BatchExamples.times10
         BatchExamples.ten_rows true [])
  = Ok (BatchContainer.Concatenated BatchExamples.ten_outputs).
Proof.
  apply (predict_common_equals_unsplit (BatchContainer.Build 4 2)
           BatchExamples.times10 BatchExamples.times10
           BatchExamples.ten_rows 10 BatchExamples.ten_outputs []).
  - reflexivity.
  - discriminate.
  - discriminate.
  - repeat constructor.
  - reflexivity.
  - reflexivity.
  - apply times10_agrees.
  - apply times10_agrees.
Defined.

(** C1 as stated fails on an input without rows: with batch size 4 and
    remainder size 4 (as [0 mod 4 = 0]) the single iteration hands its
    empty batch to the last-iteration branch, whose assertion compares 0
    with 4. *)
Lemma predict_common_empty_input_raises :
  ~ (forall (self : BatchContainer.t)
       (pf rf : list (list nat) -> result (list nat))
       (inputs : list (list nat)) (N : Z) (full : list nat),
       (0 < BatchContainer._batch_size self)%Z ->
       inputs <> [] ->
       Forall (fun a => Z.of_nat (length a) = N) inputs ->
       Z.of_nat (length full) = N ->
       BatchContainer._remainder_size self
       = BatchContainer.remainder_for N (BatchContainer._batch_size self) ->
       BatchContainer.agrees_on pf inputs full
         (BatchContainer._batch_size self) N ->
       BatchContainer.agrees_on rf inputs full
         (BatchContainer._remainder_size self) N ->
       fst (BatchContainer._predict_common self pf rf inputs true [])
       = Ok (BatchContainer.Concatenated full)).
Proof.
  intros H.
  specialize (H (BatchContainer.Build 4 4)
                BatchExamples.times10 BatchExamples.times10 [[]] 0%Z []).
  simpl in H. discriminate H.
  - reflexivity.
  - discriminate.
  - repeat constructor.
  - reflexivity.
  - reflexivity.
  - apply (times10_agrees []).
  - apply (times10_agrees []).
Qed.

Lemma predict_common_routing_witness :
  snd (BatchContainer._predict_common (BatchContainer.Build 4 4)
         BatchExamples.times10 BatchExamples.times10
         [seq 0 8] true [])
  = [BatchContainer.Call BatchContainer.Base [seq 0 4];
     BatchContainer.Call BatchContainer.Remainder [seq 4 4]].
Proof.
  pose proof (predict_common_routing (BatchContainer.Build 4 4)
                BatchExamples.times10 BatchExamples.times10 [seq 0 8] 8
                true [] eq_refl eq_refl
                (fun i _ => times10_returns _) (times10_returns _)) as [_ H].
  destruct (H ltac:(discriminate)) as [Hcalls _].
  exact Hcalls.
Defined.

Lemma predict_common_chunks_witness :
  exists chunks,
    Forall2 (fun c chunk =>
               BatchExamples.times10 (BatchContainer.args c) = Ok chunk)
      [BatchContainer.Call BatchContainer.Base [seq 0 4];
       BatchContainer.Call BatchContainer.Base [seq 4 4];
       BatchContainer.Call BatchContainer.Remainder [seq 8 2]]
      chunks
    /\ BatchContainer._predict_common (BatchContainer.Build 4 2)
         BatchExamples.times10 BatchExamples.times10
         BatchExamples.ten_rows true []
       = (Ok (BatchContainer.Concatenated (concat chunks)),
          [BatchContainer.Call BatchContainer.Base [seq 0 4];
           BatchContainer.Call BatchContainer.Base [seq 4 4];
           BatchContainer.Call BatchContainer.Remainder [seq 8 2]]).
Proof.
  destruct (predict_common_chunks (BatchContainer.Build 4 2)
              BatchExamples.times10 BatchExamples.times10
              BatchExamples.ten_rows 10 [] _ _ eq_refl eq_refl
              ltac:(discriminate) eq_refl)
    as (chunks & calls & _ & Hcalls & _ & _ & _ & _ & _ & _ & Hchunks & Hrun).
  simpl in Hcalls. subst calls.
  exists chunks. split; [|exact Hrun].
  eapply Forall2_impl; [exact Hchunks|].
  intros [[|] batch] chunk H; exact H.
Defined.

(** ** Results *)

Lemma result_bind_Ok_inv {A C} (r : result A) (k : A -> result C) (c : C) :
  result_bind r k = Ok c -> exists a, r = Ok a /\ k a = Ok c.
Proof. destruct r as [a|e]; simpl; [by exists a|done]. Qed.

Ltac bind_inv H :=
  let a := fresh "a" in
  let Ha := fresh "H" a in
  apply result_bind_Ok_inv in H as (a & Ha & H).

(** ** The batch size of a TVM container *)

Section TvmBatchSize.
Import TVMSklearnContainer.

Variable self : container.

Local Abbreviation has_batch_rows := (TVMSklearnContainer.has_batch_rows self).

Lemma to_tvm_tensor_from_mismatch pre inp post rows i tvm_tensors :
  Forall has_batch_rows pre ->
  i + length pre <= length (_input_names self) ->
  input_rows inp = Ok rows ->
  Some rows <> _batch_size self ->
  to_tvm_tensor_from self i tvm_tensors (pre ++ inp :: post)
  = Raise (AssertionError (Some (msg_format rows (_batch_size self)))).
Proof.
  intros Hpre. revert i tvm_tensors.
  induction Hpre as [|p pre (b & Hb & Hbs) _ IH]; intros i acc Hlen Hrows Hne;
    simpl in *.
  - rewrite Hrows. simpl. by rewrite bool_decide_eq_false_2.
  - rewrite Hb. simpl. rewrite bool_decide_eq_true_2 by done. simpl.
    unfold py_getitem.
    destruct (lookup_lt_is_Some_2 (_input_names self) i ltac:(lia))
      as [name ->].
    simpl. apply IH; [lia|done..].
Qed.

Lemma to_tvm_tensor_from_no_assertion inputs i tvm_tensors msg :
  Forall has_batch_rows inputs ->
  to_tvm_tensor_from self i tvm_tensors inputs <> Raise (AssertionError msg).
Proof.
  intros Hin. revert i tvm_tensors.
  induction Hin as [|p inputs (b & Hb & Hbs) _ IH]; intros i acc; simpl.
  - done.
  - rewrite Hb. simpl. rewrite bool_decide_eq_true_2 by done. simpl.
    unfold py_getitem. destruct (_input_names self !! i); simpl; [apply IH|done].
Qed.

Lemma run_raise {A} (L : libraries) (f : list pyval -> result A)
    (inputs : list pyval) (e : exn) :
  inputs <> [] -> f inputs = Raise e ->
  SklearnContainer._run L f inputs = Raise e.
Proof.
  intros Hne Hf. unfold SklearnContainer._run.
  destruct inputs as [|x rest]; [done|].
  rewrite Hf. by destruct (pandas_installed L).
Qed.

Lemma tvm_methods_raise (L : libraries) (inputs : list pyval) (e : exn) :
  inputs <> [] ->
  (forall index, _predict_common L self index inputs = Raise e) ->
  transform L self inputs = Raise e
  /\ predict L self inputs = Raise e
  /\ predict_proba L self inputs = Raise e
  /\ decision_function L self inputs = Raise e
  /\ score_samples L self inputs = Raise e.
Proof.
  intros Hne Hc.
  assert (decision_function L self inputs = Raise e) as Hd.
  { unfold decision_function,
      SklearnContainerAnomalyDetection.decision_function.
    rewrite (run_raise L _ inputs e); [done..|].
    unfold _decision_function. by rewrite Hc. }
  repeat split.
  - apply run_raise; [done|]. apply Hc.
  - apply run_raise; [done|]. unfold _predict. by rewrite Hc.
  - apply run_raise; [done|]. apply Hc.
  - exact Hd.
  - unfold score_samples, SklearnContainerAnomalyDetection.score_samples.
    fold (decision_function L self inputs). by rewrite Hd.
Qed.

(** C9.  [_to_tvm_tensor] checks its inputs in order.  The first input
    whose row count differs from [_batch_size], names being there for
    the inputs before it, makes the call raise [AssertionError] with the
    message that spells out the row count and the batch size, and with
    it every prediction method of a container whose model has the
    method [run], which is looked up before the inputs are checked;
    when every input has [_batch_size] rows the call raises no
    [AssertionError].  A container whose model has no [run], such as
    one without a model, does not get to the check: its prediction
    methods raise [AttributeError] on any inputs. *)
Theorem to_tvm_tensor_batch_size (inputs : list pyval) :
  (forall pre inp post rows,
     inputs = pre ++ inp :: post ->
     Forall has_batch_rows pre ->
     length pre <= length (_input_names self) ->
     input_rows inp = Ok rows ->
     Some rows <> _batch_size self ->
     let error :=
       AssertionError (Some (
         "The number of input rows " +:+ pretty rows
         +:+ " is different from the batch size "
         +:+ str_batch_size (_batch_size self)
         +:+ " the TVM model is compiled for.")) in
     _to_tvm_tensor self inputs = Raise error
     /\ forall L,
          model_run L (_model self) = Ok tt ->
          transform L self inputs = Raise error
          /\ predict L self inputs = Raise error
          /\ predict_proba L self inputs = Raise error
          /\ decision_function L self inputs = Raise error
          /\ score_samples L self inputs = Raise error)
  /\ (Forall has_batch_rows inputs ->
      forall msg, _to_tvm_tensor self inputs <> Raise (AssertionError msg))
  /\ (forall L,
        model_run L (_model self) = Raise AttributeError ->
        inputs <> [] ->
        transform L self inputs = Raise AttributeError
        /\ predict L self inputs = Raise AttributeError
        /\ predict_proba L self inputs = Raise AttributeError
        /\ decision_function L self inputs = Raise AttributeError
        /\ score_samples L self inputs = Raise AttributeError).
Proof.
  split; [|split].
  - intros pre inp post rows -> Hpre Hlen Hrows Hne error.
    assert (_to_tvm_tensor self (pre ++ inp :: post) = Raise error) as He
      by (by apply to_tvm_tensor_from_mismatch).
    split; [exact He|]. intros L Hrun.
    apply tvm_methods_raise; [by destruct pre|].
    intros index. unfold _predict_common. by rewrite Hrun, He.
  - intros Hin msg. by apply to_tvm_tensor_from_no_assertion.
  - intros L Hrun Hne. apply tvm_methods_raise; [done|].
    intros index. unfold _predict_common. by rewrite Hrun.
Qed.

End TvmBatchSize.

Lemma to_tvm_tensor_batch_size_witness :
  (TVMSklearnContainer._to_tvm_tensor PredictExamples.anomaly_detector
     [VArray PredictExamples.two_rows; VArray PredictExamples.three_rows]
   = Raise (AssertionError (Some
       "The number of input rows 3 is different from the batch size 2 the TVM model is compiled for."))
   /\ TVMSklearnContainer.predict PredictExamples.example_libraries
        PredictExamples.anomaly_detector
        [VArray PredictExamples.two_rows; VArray PredictExamples.three_rows]
      = Raise (AssertionError (Some
          "The number of input rows 3 is different from the batch size 2 the TVM model is compiled for.")))
  /\ TVMSklearnContainer._to_tvm_tensor PredictExamples.anomaly_detector
       [VArray PredictExamples.two_rows]
     <> Raise (AssertionError None).
Proof.
  assert (Forall (TVMSklearnContainer.has_batch_rows
                    PredictExamples.anomaly_detector)
            [VArray PredictExamples.two_rows]) as Hpre.
  { constructor; [|constructor]. by exists 2%Z. }
  assert (Some 3%Z <> _batch_size PredictExamples.anomaly_detector) as Hne
    by discriminate.
  pose proof (to_tvm_tensor_batch_size PredictExamples.anomaly_detector
                [VArray PredictExamples.two_rows;
                 VArray PredictExamples.three_rows]) as [Hmismatch _].
  pose proof (to_tvm_tensor_batch_size PredictExamples.anomaly_detector
                [VArray PredictExamples.two_rows]) as (_ & Hfit & _).
  destruct (Hmismatch [VArray PredictExamples.two_rows]
              (VArray PredictExamples.three_rows) [] 3%Z eq_refl Hpre
              (le_n 1) eq_refl Hne) as [Htensor Hmethods].
  destruct (Hmethods PredictExamples.example_libraries eq_refl)
    as (_ & Hpredict & _).
  split; [split; [exact Htensor|exact Hpredict]|].
  exact (Hfit Hpre None).
Defined.

(** ** The dimension of what [predict] returns *)

Lemma ndim_ravel (a : ndarray) : ndim (ravel a) = 1.
Proof. reflexivity. Qed.

Lemma run_Ok_inv {A} (L : libraries) (f : list pyval -> result A)
    (inputs : list pyval) (a : A) :
  SklearnContainer._run L f inputs = Ok a -> f inputs = Ok a.
Proof.
  unfold SklearnContainer._run. intros H. bind_inv H. exact H.
Qed.

Lemma pytorch_predict_flat (L : libraries) (self : container)
    (inputs : list pyval) (a : ndarray) :
  PyTorchSklearnContainer._predict L self inputs = Ok a -> ndim a = 1.
Proof.
  unfold PyTorchSklearnContainer._predict. intros H.
  destruct (_is_regression self); [|destruct (_is_anomaly_detection self)];
    bind_inv H; bind_inv H; by injection H as <-.
Qed.

Lemma pytorch_predict_1d (L : libraries) (self : container)
    (inputs : list pyval) (a : ndarray) :
  PyTorchSklearnContainer.predict L self inputs = Ok a -> ndim a = 1.
Proof. intros H%run_Ok_inv. by eapply pytorch_predict_flat. Qed.

Lemma torchscript_predict_1d (L : libraries) (self : container)
    (inputs : list pyval) (a : ndarray) :
  TorchScriptSklearnContainer.predict L self inputs = Ok a -> ndim a = 1.
Proof.
  intros H%run_Ok_inv. unfold TorchScriptSklearnContainer.lambda_x in H.
  destruct inputs as [|x [|]]; try done.
  unfold TorchScriptSklearnContainer._torchscript_wrapper in H.
  bind_inv H. by eapply pytorch_predict_flat.
Qed.

Lemma tvm_predict_1d (L : libraries) (self : container)
    (inputs : list pyval) (a : ndarray) :
  TVMSklearnContainer.predict L self inputs = Ok a -> ndim a = 1.
Proof.
  intros H%run_Ok_inv. unfold TVMSklearnContainer._predict in H.
  bind_inv H. by injection H as <-.
Qed.

Lemma onnx_predict_1d (L : libraries) (self : container)
    (inputs : list pyval) (a : ndarray) :
  _is_regression self = true \/ _is_anomaly_detection self = true ->
  ONNXSklearnContainer.predict L self inputs = Ok a -> ndim a = 1.
Proof.
  intros Hstyle H%run_Ok_inv. unfold ONNXSklearnContainer._predict in H.
  bind_inv H.
  destruct (_is_regression self); [|destruct (_is_anomaly_detection self)].
  - do 3 bind_inv H. by injection H as <-.
  - do 4 bind_inv H. by injection H as <-.
  - by destruct Hstyle.
Qed.

(** The classification branch of the ONNX container hands on the first
    output of the session as it is. *)
Lemma onnx_predict_classification (L : libraries) (self : container)
    (inputs : list pyval) (named : gmap string ndarray)
    (name : string) (out : ndarray) (others : list ndarray) :
  _is_regression self = false ->
  _is_anomaly_detection self = false ->
  length (_output_names self) = 2 ->
  _output_names self !! 0 = Some name ->
  ONNXSklearnContainer._get_named_inputs L self inputs = Ok named ->
  session_run L (_session self) [name] named = Ok (out :: others) ->
  ONNXSklearnContainer._predict L self inputs = Ok out.
Proof.
  intros Hreg Han Hlen Hname Hnamed Hrun.
  unfold ONNXSklearnContainer._predict. rewrite Hnamed, Hreg, Han. simpl.
  rewrite Hlen. simpl. unfold py_getitem. rewrite Hname. simpl.
  by rewrite Hrun.
Qed.

(** C8 on the ONNX classifier of the examples, whose session returns
    its labels with shape (2, 1): [predict] returns them with that shape,
    a 2-D array. *)
Theorem onnx_classifier_predict_not_flattened :
  ONNXSklearnContainer.predict PredictExamples.example_libraries
    PredictExamples.classifier [VArray PredictExamples.two_rows]
  = Ok PredictExamples.labels
  /\ ndim PredictExamples.labels = 2.
Proof. split; reflexivity. Qed.

(** ** The score of an anomaly detector *)

Section ScoreSamples.
Local Open Scope result_scope.

Variable L : libraries.
Variable self : container.

(** [scores + self._extra_config[constants.OFFSET]] *)
Local Abbreviation plus_offset r :=
  (let? scores := r in
   let? offset := dict_getitem (_extra_config self) (OFFSET (constants L)) in
   np_add L scores offset).

Lemma mixin_score_samples df (inputs : list pyval) :
  SklearnContainerAnomalyDetection.score_samples L df self inputs
  = plus_offset
      (SklearnContainerAnomalyDetection.decision_function L df self inputs).
Proof. reflexivity. Qed.

(** An input the wrapper has worked on goes through it unchanged. *)
Lemma coerce_input_idem device i j (x x' : pyval) :
  TorchScriptSklearnContainer.coerce_input L device (_extra_config self) i x
  = Ok x' ->
  TorchScriptSklearnContainer.coerce_input L device (_extra_config self) j x'
  = Ok x'.
Proof.
  unfold TorchScriptSklearnContainer.coerce_input. intros H.
  bind_inv H. destruct device as [d|]; [|done].
  assert (exists t, a = VTensor t) as [t ->].
  { destruct x as [arr|arr|t|ty]; simpl in Ha; try done.
    - bind_inv Ha. destruct (torch_supports _ _); [|done].
      injection Ha as <-. by eexists.
    - bind_inv Ha. destruct (torch_supports _ _); [|done].
      injection Ha as <-. by eexists.
    - injection Ha as <-. by eexists. }
  destruct (bool_decide (device_type d <> "cpu")) eqn:Hd;
    by injection H as <-.
Qed.

Lemma torchscript_score_samples (inputs : list pyval) :
  TorchScriptSklearnContainer.score_samples L self inputs
  = plus_offset (TorchScriptSklearnContainer.decision_function L self inputs).
Proof.
  unfold TorchScriptSklearnContainer.score_samples. f_equal.
  unfold TorchScriptSklearnContainer.decision_function at 2.
  unfold SklearnContainer._run.
  destruct (if pandas_installed L then _ else _) as [[]|e] eqn:Hdf; simpl;
    [|done].
  unfold TorchScriptSklearnContainer.lambda_x.
  destruct inputs as [|x [|]]; simpl; try done.
  unfold TorchScriptSklearnContainer._torchscript_wrapper. simpl.
  destruct (TorchScriptSklearnContainer.coerce_input _ _ _ 0 x)
    as [x'|e] eqn:Hx; simpl; [|done].
  unfold TorchScriptSklearnContainer.decision_function,
    SklearnContainer._run, TorchScriptSklearnContainer.lambda_x,
    TorchScriptSklearnContainer._torchscript_wrapper.
  simpl. rewrite (coerce_input_idem _ _ _ _ _ Hx). simpl.
  by destruct (pandas_installed L).
Qed.

(** C4.  In each of the four anomaly-detection containers, when
    [decision_function] returns [scores] on the inputs and [off] is
    stored under [constants.OFFSET] in [_extra_config], [score_samples]
    on the same inputs is [scores + off]. *)
Theorem score_samples_is_decision_function_plus_offset
    (inputs : list pyval) (off : pyobj) :
  _extra_config self !! OFFSET (constants L) = Some off ->
  (forall scores,
     PyTorchSklearnContainer.decision_function L self inputs = Ok scores ->
     PyTorchSklearnContainer.score_samples L self inputs
     = np_add L scores off)
  /\ (forall scores,
        TorchScriptSklearnContainer.decision_function L self inputs
        = Ok scores ->
        TorchScriptSklearnContainer.score_samples L self inputs
        = np_add L scores off)
  /\ (forall scores,
        ONNXSklearnContainer.decision_function L self inputs = Ok scores ->
        ONNXSklearnContainer.score_samples L self inputs
        = np_add L scores off)
  /\ (forall scores,
        TVMSklearnContainer.decision_function L self inputs = Ok scores ->
        TVMSklearnContainer.score_samples L self inputs
        = np_add L scores off).
Proof.
  intros Hoff.
  assert (forall r scores, r = Ok scores ->
            plus_offset r = np_add L scores off) as Hplus.
  { intros r scores ->. simpl. unfold dict_getitem. by rewrite Hoff. }
  repeat split; intros scores Hd.
  - unfold PyTorchSklearnContainer.score_samples.
    rewrite mixin_score_samples. by apply Hplus.
  - rewrite torchscript_score_samples. by apply Hplus.
  - unfold ONNXSklearnContainer.score_samples.
    rewrite mixin_score_samples. by apply Hplus.
  - unfold TVMSklearnContainer.score_samples.
    rewrite mixin_score_samples. by apply Hplus.
Qed.

End ScoreSamples.

(** The TorchScript detector of the examples: scores 5 and 7, offset 10. *)
Lemma score_samples_is_decision_function_plus_offset_witness :
  TorchScriptSklearnContainer.score_samples PredictExamples.example_libraries
    PredictExamples.anomaly_detector [VArray PredictExamples.two_rows]
  = Ok (NdArray PredictExamples.int64 [2%Z] [SInt 15; SInt 17]).
Proof.
  destruct (score_samples_is_decision_function_plus_offset
              PredictExamples.example_libraries
              PredictExamples.anomaly_detector
              [VArray PredictExamples.two_rows] (PyInt 10) eq_refl)
    as (_ & Hts & _ & _).
  exact (Hts _ eq_refl).
Defined.

(** ** Effects, step by step *)

Lemma bind_Ok_inv {S A C} (m : eff S A) (k : A -> eff S C) s c s' :
  bind m k s = (Ok c, s') ->
  exists a s1, m s = (Ok a, s1) /\ k a s1 = (Ok c, s').
Proof.
  unfold bind. destruct (m s) as [[a|e] s1]; [|done]. intros H. by exists a, s1.
Qed.

Lemma lift_inv {S A} (r : result A) (a : A) (s s' : S) :
  lift r s = (Ok a, s') -> r = Ok a /\ s' = s.
Proof. by intros [= <- <-]. Qed.

Lemma py_assert_inv {S} (cond : bool) msg (u : unit) (s s' : S) :
  py_assert cond msg s = (Ok u, s') -> cond = true /\ s' = s.
Proof. destruct cond; [by intros [= <- <-]|done]. Qed.

Lemma this_inv (c : container) s s' :
  Saving.this s = (Ok c, s') -> c = fst s /\ s' = s.
Proof. by intros [= <- <-]. Qed.

Lemma assign_inv f (u : unit) s s' :
  Saving.assign f s = (Ok u, s') -> s' = (f (fst s), snd s).
Proof. by intros [= <-]. Qed.

Lemma in_world_inv {A} (m : eff world A) (r : result A) s s' :
  Saving.in_world m s = (r, s') -> exists w', s' = (fst s, w').
Proof.
  unfold Saving.in_world. destruct (m (snd s)) as [r' w'].
  intros [= _ <-]. by exists w'.
Qed.

Lemma null_test_input_run (L : libraries) s :
  Saving.null_test_input L s
  = (Ok tt, (Saving.test_input_nulled L (fst s), snd s)).
Proof.
  unfold Saving.null_test_input, Saving.test_input_nulled, bind, Saving.this.
  destruct (dict_contains _ _); [done|]. by destruct s.
Qed.

Lemma make_fresh_dir_inv (location : string) (u : unit) s s' :
  Saving.make_fresh_dir location s = (Ok u, s') ->
  exists w', s' = (fst s, w').
Proof.
  unfold Saving.make_fresh_dir. intros H.
  apply bind_Ok_inv in H as (found & s1 & H1 & H).
  apply in_world_inv in H1 as [w1 ->].
  apply bind_Ok_inv in H as (? & s2 & H2 & H).
  apply py_assert_inv in H2 as [_ ->].
  apply in_world_inv in H as [w2 ->]. by exists w2.
Qed.

Lemma zip_and_remove_inv (location : string) (r : result unit) s s' :
  Saving.zip_and_remove location s = (r, s') ->
  exists w', s' = (fst s, w').
Proof.
  unfold Saving.zip_and_remove, bind. intros H.
  destruct (Saving.in_world _ s) as [[a|e] s1] eqn:H1.
  - apply in_world_inv in H1 as [w1 ->].
    apply in_world_inv in H as [w2 ->]. by exists w2.
  - apply in_world_inv in H1 as [w1 ->]. injection H as _ <-. by exists w1.
Qed.

Lemma config_inv (key : string) (v : pyobj) s s' :
  TVMSklearnContainer.config key s = (Ok v, s') ->
  _extra_config (fst s) !! key = Some v /\ s' = s.
Proof.
  unfold TVMSklearnContainer.config. intros H.
  apply bind_Ok_inv in H as (c & s1 & [-> ->]%this_inv & H).
  apply lift_inv in H as [H ->]. split; [|done].
  unfold dict_getitem in H. by destruct (_ !! key) as [v'|]; [injection H as ->|].
Qed.

(** One statement of a [save] taken off a returning run [H]. *)
Ltac save_step H :=
  let a := fresh "a" in
  let s := fresh "s" in
  let H1 := fresh "Hstep" in
  apply bind_Ok_inv in H as (a & s & H1 & H);
  lazymatch type of H1 with
  | Saving.this _ = _ => apply this_inv in H1 as [-> ->]
  | py_assert _ _ _ = _ => apply py_assert_inv in H1 as [H1 ->]
  | Saving.null_test_input _ _ = _ =>
      rewrite null_test_input_run in H1; injection H1 as <- <-
  | Saving.make_fresh_dir _ _ = _ => apply make_fresh_dir_inv in H1 as [? ->]
  | Saving.zip_and_remove _ _ = _ => apply zip_and_remove_inv in H1 as [? ->]
  | Saving.assign _ _ = _ => apply assign_inv in H1 as ->
  | TVMSklearnContainer.config _ _ = _ =>
      apply config_inv in H1 as [H1 ->]; simpl in H1
  | lift _ _ = _ => apply lift_inv in H1 as [H1 ->]
  | Saving.in_world _ _ = _ => apply in_world_inv in H1 as [? ->]
  end;
  simpl in H.

(** ** [save] and the container in memory *)

Section SaveFrame.
Variable L : libraries.
Variable location : string.
Variable self : container.
Variable w : world.

Lemma with_model_restore (c : container) :
  with_model (_model c) (with_model PyNone c) = c.
Proof. by destruct c. Qed.

Lemma with_session_restore (c : container) :
  with_session (_session c)
    (with_model (_model c) (with_session PyNone (with_model PyNone c))) = c.
Proof. by destruct c. Qed.

Lemma pytorch_save_frame u self' w' :
  PyTorchSklearnContainer.save L location (self, w) = (Ok u, (self', w')) ->
  self' = Saving.test_input_nulled L self.
Proof.
  unfold PyTorchSklearnContainer.save. intros H.
  do 5 save_step H.
  apply bind_Ok_inv in H as (? & s & Hbranch & H).
  apply zip_and_remove_inv in H as [w2 [= -> _]].
  destruct (Py.contains "torch.jit" _).
  - do 5 save_step Hbranch.
    apply assign_inv in Hbranch as ->. simpl.
    apply with_model_restore.
  - destruct (Py.contains "PyTorchBackendModel" _); [|done].
    save_step Hbranch. by apply in_world_inv in Hbranch as [? ->].
Qed.

Lemma onnx_save_frame u self' w' :
  ONNXSklearnContainer.save L location (self, w) = (Ok u, (self', w')) ->
  self' = Saving.test_input_nulled L self.
Proof.
  unfold ONNXSklearnContainer.save. intros H.
  do 12 save_step H.
  apply assign_inv in H as [= -> _]. simpl.
  apply with_session_restore.
Qed.

Lemma config_restore (m : gmap string pyobj) (kl kg kp kc : string)
    (lib graph params ctx : pyobj) :
  m !! kl = Some lib -> m !! kg = Some graph ->
  m !! kp = Some params -> m !! kc = Some ctx ->
  <[kc := ctx]> (<[kp := params]> (<[kg := graph]> (<[kl := lib]>
    (<[kc := PyNone]> (<[kp := PyNone]> (<[kg := PyNone]>
      (<[kl := PyNone]> m))))))) = m.
Proof.
  intros Hl Hg Hp Hc. apply map_eq. intros j.
  rewrite !lookup_insert. repeat case_decide; subst; congruence.
Qed.

Lemma tvm_restore (c : container) (kl kg kp kc : string)
    (lib graph params ctx device : pyobj) :
  _extra_config c !! kl = Some lib ->
  _extra_config c !! kg = Some graph ->
  _extra_config c !! kp = Some params ->
  _extra_config c !! kc = Some ctx ->
  with_model (_model c)
    (with_ctx ctx
       (with_config kc ctx (with_config kp params
          (with_config kg graph (with_config kl lib
             (with_model PyNone (with_ctx device
                (with_config kc PyNone (with_config kp PyNone
                   (with_config kg PyNone
                      (with_config kl PyNone c)))))))))))
  = with_ctx ctx c.
Proof.
  destruct c as [model0 threads0 batch0 config0 reg0 anom0 session0 outs0
                 ins0 ctx0].
  cbv beta iota delta
    [with_model with_ctx with_config
     _model _n_threads _batch_size _extra_config _is_regression
     _is_anomaly_detection _session _output_names _input_names _ctx].
  intros Hl Hg Hp Hc. f_equal. by apply config_restore.
Qed.

Lemma tvm_save_frame u self' w' :
  TVMSklearnContainer.save L location (self, w) = (Ok u, (self', w')) ->
  exists ctx,
    _extra_config (Saving.test_input_nulled L self)
      !! TVM_CONTEXT (constants L) = Some ctx
    /\ self' = with_ctx ctx (Saving.test_input_nulled L self).
Proof.
  unfold TVMSklearnContainer.save. intros H.
  do 35 save_step H.
  apply assign_inv in H as [= -> _].
  cbn [fst snd].
  eexists. split; [eassumption|].
  by apply tvm_restore.
Qed.

(** C5, as the code has it.  After a [save] that returned, the model
    handle, the ONNX session and the TVM entries of [_extra_config] hold
    the values they had before, [_ctx] of a TVM container holds the
    entry stored under [constants.TVM_CONTEXT], and no other attribute
    has changed, except that the entry under [constants.TEST_INPUT],
    when there is one, is [None].  So a container without a stored test
    input is the same after [save] as before (for TVM, when [_ctx] is the
    stored context, as [__init__] and [load] leave it). *)
Theorem save_restores_all_but_test_input u self' w' :
  (PyTorchSklearnContainer.save L location (self, w) = (Ok u, (self', w')) ->
   self' = Saving.test_input_nulled L self)
  /\ (ONNXSklearnContainer.save L location (self, w) = (Ok u, (self', w')) ->
      self' = Saving.test_input_nulled L self)
  /\ (TVMSklearnContainer.save L location (self, w) = (Ok u, (self', w')) ->
      exists ctx,
        _extra_config (Saving.test_input_nulled L self)
          !! TVM_CONTEXT (constants L) = Some ctx
        /\ self' = with_ctx ctx (Saving.test_input_nulled L self))
  /\ (_extra_config self !! TEST_INPUT (constants L) = None ->
      Saving.test_input_nulled L self = self).
Proof.
  split; [apply pytorch_save_frame|].
  split; [apply onnx_save_frame|].
  split; [apply tvm_save_frame|].
  intros Hnone. unfold Saving.test_input_nulled, dict_contains.
  rewrite Hnone. by rewrite bool_decide_eq_false_2 by (by intros [? ?]).
Qed.

End SaveFrame.

(** C5 as stated fails on a container that holds a test input: the
    ONNX classifier of the examples is saved, and the test input it
    held is [None] afterwards. *)
Lemma save_leaves_test_input_nulled :
  ~ (forall (L : libraries) (location : string) (self : container)
       (w : world) (u : unit) (self' : container) (w' : world),
       ONNXSklearnContainer.save L location (self, w) = (Ok u, (self', w')) ->
       self' = self).
Proof.
  intros H.
  pose (run := ONNXSklearnContainer.save PredictExamples.example_libraries
                 "model"
                 (PersistExamples.with_test_input, PersistExamples.empty_world)).
  specialize (H PredictExamples.example_libraries "model"
                PersistExamples.with_test_input PersistExamples.empty_world
                tt (fst (snd run)) (snd (snd run))).
  assert (fst run = Ok tt) as Hok by (vm_compute; reflexivity).
  assert (fst (snd run) = PersistExamples.with_test_input) as Heq.
  { apply H. fold run. destruct run as [r [c' w']]. simpl in *. by subst. }
  apply (f_equal (fun c => _extra_config c !! "test_input")) in Heq.
  vm_compute in Heq. discriminate Heq.
Qed.

Lemma save_restores_all_but_test_input_witness :
  exists c' w',
    ONNXSklearnContainer.save PredictExamples.example_libraries "model"
      (PersistExamples.with_test_input, PersistExamples.empty_world)
    = (Ok tt, (c', w'))
    /\ c' = with_config "test_input" PyNone PersistExamples.with_test_input.
Proof.
  pose (run := ONNXSklearnContainer.save PredictExamples.example_libraries
                 "model"
                 (PersistExamples.with_test_input, PersistExamples.empty_world)).
  assert (fst run = Ok tt) as Hok by (vm_compute; reflexivity).
  exists (fst (snd run)), (snd (snd run)).
  assert (run = (Ok tt, (fst (snd run), snd (snd run)))) as Hrun.
  { destruct run as [r [c' w']]. simpl in *. by subst. }
  split; [exact Hrun|].
  exact (proj1 (proj2 (save_restores_all_but_test_input
                         PredictExamples.example_libraries "model"
                         PersistExamples.with_test_input
                         PersistExamples.empty_world tt _ _)) Hrun).
Defined.

(** ** [save] on a location that exists, or without a model *)

Section SaveRefused.
Variable L : libraries.
Variable location : string.
Variable self : container.
Variable w : world.

Lemma make_fresh_dir_exists (c : container) :
  is_Some (files w !! location) ->
  Saving.make_fresh_dir location (c, w)
  = (Raise (AssertionError
             (Some ("Directory " +:+ location +:+ " already exists."))),
     (c, log_call (OsPathExists location) w)).
Proof.
  intros Hex. unfold Saving.make_fresh_dir, bind, Saving.in_world,
    Py.os_path_exists. simpl.
  by rewrite bool_decide_eq_true_2.
Qed.

Lemma pytorch_save_refused :
  is_none (_model self) = true \/ is_Some (files w !! location) ->
  Saving.refused location w
    (PyTorchSklearnContainer.save L location (self, w)).
Proof.
  intros Hcase. unfold PyTorchSklearnContainer.save, bind at 1 2.
  unfold Saving.this at 1. simpl.
  destruct (is_none (_model self)) eqn:Hnone; simpl.
  - split; [by eexists|]. split; [done|by left].
  - destruct Hcase as [?|Hex]; [done|].
    unfold bind at 1. rewrite null_test_input_run. simpl.
    unfold bind at 1. rewrite make_fresh_dir_exists by done.
    split; [by eexists|]. split; [done|by right].
Qed.

Lemma onnx_save_refused :
  is_none (_model self) = true \/ is_Some (files w !! location) ->
  Saving.refused location w
    (ONNXSklearnContainer.save L location (self, w)).
Proof.
  intros Hcase. unfold ONNXSklearnContainer.save, bind at 1 2.
  unfold Saving.this at 1. simpl.
  destruct (is_none (_model self)) eqn:Hnone; simpl.
  - split; [by eexists|]. split; [done|by left].
  - destruct Hcase as [?|Hex]; [done|].
    unfold bind at 1. rewrite null_test_input_run. simpl.
    unfold bind at 1. rewrite make_fresh_dir_exists by done.
    split; [by eexists|]. split; [done|by right].
Qed.

Lemma tvm_save_refused :
  is_none (_model self) = true \/ is_Some (files w !! location) ->
  Saving.refused location w
    (TVMSklearnContainer.save L location (self, w)).
Proof.
  intros Hcase. unfold TVMSklearnContainer.save, bind at 1 2.
  unfold Saving.this at 1. simpl.
  destruct (is_none (_model self)) eqn:Hnone; simpl.
  - split; [by eexists|]. split; [done|by left].
  - destruct Hcase as [?|Hex]; [done|].
    unfold bind at 1. rewrite make_fresh_dir_exists by done.
    split; [by eexists|]. split; [done|by right].
Qed.

(** C6.  [save] of each backend, called without a model or on a
    location that exists, raises [AssertionError] with its message, and
    the files are what they were: the run made no call on the file
    system except, at most, the test whether [location] exists. *)
Theorem save_refuses_existing_location_or_missing_model :
  is_none (_model self) = true \/ is_Some (files w !! location) ->
  Saving.refused location w
    (PyTorchSklearnContainer.save L location (self, w))
  /\ Saving.refused location w
       (ONNXSklearnContainer.save L location (self, w))
  /\ Saving.refused location w
       (TVMSklearnContainer.save L location (self, w)).
Proof.
  intros Hcase. split; [by apply pytorch_save_refused|].
  split; [by apply onnx_save_refused|by apply tvm_save_refused].
Qed.

End SaveRefused.

(** Saving the classifier of the examples a second time to ["model"],
    where ["model.zip"] is but ["model"] is not, goes through; saving it
    to ["model.zip"] is refused. *)
Lemma save_refuses_existing_location_or_missing_model_witness :
  Saving.refused "model.zip" PersistExamples.saved_world
    (ONNXSklearnContainer.save PredictExamples.example_libraries "model.zip"
       (PersistExamples.with_test_input, PersistExamples.saved_world)).
Proof.
  refine (proj1 (proj2 (save_refuses_existing_location_or_missing_model
                          PredictExamples.example_libraries "model.zip"
                          PersistExamples.with_test_input
                          PersistExamples.saved_world _))).
  right. vm_compute. by eexists.
Defined.

(** ** [load] and the model type *)

Section LoadModelType.
Variable L : libraries.
Variable location : string.
Variable w : world.


End LoadModelType.



(** ** [load] and the place the archive is unpacked to *)

Lemma bind_assoc {S A C D} (m : eff S A) (f : A -> eff S C)
    (g : C -> eff S D) (s : S) :
  bind (bind m f) g s = bind m (fun a => bind (f a) g) s.
Proof. unfold bind. by destruct (m s) as [[a|e] s1]. Qed.

Lemma appends_ret {A} (a : A) : Loading.appends_calls (ret a).
Proof. intros w. exists []. by rewrite app_nil_r. Qed.

Lemma appends_raise {A} (e : exn) : Loading.appends_calls (@raise world A e).
Proof. intros w. exists []. by rewrite app_nil_r. Qed.

Lemma appends_lift {A} (r : result A) : Loading.appends_calls (lift r).
Proof. intros w. exists []. by rewrite app_nil_r. Qed.

Lemma appends_py_assert cond msg :
  Loading.appends_calls (py_assert cond msg).
Proof. destruct cond; [apply appends_ret|apply appends_raise]. Qed.

Lemma appends_bind {A C} (m : eff world A) (k : A -> eff world C) :
  Loading.appends_calls m -> (forall a, Loading.appends_calls (k a)) ->
  Loading.appends_calls (bind m k).
Proof.
  intros Hm Hk w. unfold bind. destruct (Hm w) as [calls1 H1].
  destruct (m w) as [[a|e] w1]; simpl in H1.
  - destruct (Hk a w1) as [calls2 H2]. exists (calls1 ++ calls2).
    by rewrite H2, H1, app_assoc.
  - by exists calls1.
Qed.

Lemma appends_os_path_exists path :
  Loading.appends_calls (Py.os_path_exists path).
Proof. intros w. by eexists. Qed.

Lemma appends_open_read path : Loading.appends_calls (Py.open_read path).
Proof.
  intros w. unfold Py.open_read. simpl.
  destruct (files w !! path); by eexists.
Qed.

Lemma appends_set_torch_threads n :
  Loading.appends_calls (PyTorchSklearnContainer.set_torch_threads n).
Proof. intros w. exists []. by rewrite app_nil_r. Qed.

Lemma appends_setenv name value :
  Loading.appends_calls (TVMSklearnContainer.setenv name value).
Proof. intros w. exists []. by rewrite app_nil_r. Qed.

(** The goals [appends_calls m] for the code that follows the unpacking. *)
Ltac appends :=
  repeat first
    [ apply appends_ret | apply appends_raise | apply appends_lift
    | apply appends_py_assert | apply appends_os_path_exists
    | apply appends_open_read | apply appends_set_torch_threads
    | apply appends_setenv
    | apply appends_bind; [|intros ?]
    | match goal with
      | |- Loading.appends_calls (if ?b then _ else _) => destruct b
      | |- Loading.appends_calls (match ?x with _ => _ end) => destruct x
      end ].

Lemma appends_read_model_type L dir :
  Loading.appends_calls (Loading.read_model_type L dir).
Proof. unfold Loading.read_model_type. appends. Qed.

Lemma appends_read_object path :
  Loading.appends_calls (Loading.read_object path).
Proof. unfold Loading.read_object. appends. Qed.

Lemma appends_read_container path :
  Loading.appends_calls (Loading.read_container path).
Proof. unfold Loading.read_container. appends. Qed.

Lemma unpack_then {A} (filename extract_dir : string)
    (k : unit -> eff world A) (w : world) :
  (forall u, Loading.appends_calls (k u)) ->
  Loading.unpacks_first w filename extract_dir
    (snd (bind (Py.shutil_unpack_archive filename extract_dir) k w)).
Proof.
  intros Hk. unfold bind, Py.shutil_unpack_archive, Loading.unpacks_first.
  simpl. destruct (files w !! filename) as [[| | | |members]|];
    try (by exists []).
  match goal with
  | |- context [k tt ?w1] => destruct (Hk tt w1) as [calls Hcalls]
  end.
  exists calls. rewrite Hcalls. simpl. by rewrite <- app_assoc.
Qed.

(** [unzip] followed by code that only adds calls. *)
Lemma unzip_then {A} (location : string) (k : string -> eff world A)
    (w : world) :
  (forall dir, Loading.appends_calls (k dir)) ->
  (Py.endswith location "zip" = false ->
   Loading.unpacks_first w (location +:+ ".zip") location
     (snd (bind (Loading.unzip location) k w)))
  /\ (Py.endswith location "zip" = true ->
      forall c,
        4 <= String.length location ->
        String.get (String.length location - 4) location = Some c ->
        Loading.unpacks_first w location (String c EmptyString)
          (snd (bind (Loading.unzip location) k w))).
Proof.
  intros Hk. split.
  - intros Hends. unfold Loading.unzip. rewrite Hends. simpl.
    rewrite bind_assoc. unfold bind at 1, ret at 1.
    rewrite bind_assoc. apply unpack_then. intros u. appends. apply Hk.
  - intros Hends c Hlen Hget. unfold Loading.unzip. rewrite Hends. simpl.
    unfold Py.getitem_from_end.
    destruct (Nat.ltb_spec (String.length location) 4) as [?|_]; [lia|].
    rewrite Hget. rewrite bind_assoc. unfold bind at 1, lift at 1.
    rewrite bind_assoc. apply unpack_then. intros u. appends. apply Hk.
Qed.

Section LoadUnpack.
Variable L : libraries.
Variable location : string.
Variable w : world.

(** C10.  With [do_unzip_and_model_type_check=True] the first thing each
    [load] does on the file system is to unpack an archive.  For a
    location that does not end with ["zip"] it unpacks
    [location + ".zip"] into [location]; for a location that ends with
    ["zip"] it unpacks [location] into the directory named by the one
    character at index [-4] of [location]. *)
Theorem load_unpack_destination :
  (Py.endswith location "zip" = false ->
   Loading.unpacks_first w (location +:+ ".zip") location
     (snd (PyTorchSklearnContainer.load L location true w))
   /\ Loading.unpacks_first w (location +:+ ".zip") location
        (snd (ONNXSklearnContainer.load L location true w))
   /\ Loading.unpacks_first w (location +:+ ".zip") location
        (snd (TVMSklearnContainer.load L location true w)))
  /\ (Py.endswith location "zip" = true ->
      forall c,
        4 <= String.length location ->
        String.get (String.length location - 4) location = Some c ->
        Loading.unpacks_first w location (String c EmptyString)
          (snd (PyTorchSklearnContainer.load L location true w))
        /\ Loading.unpacks_first w location (String c EmptyString)
             (snd (ONNXSklearnContainer.load L location true w))
        /\ Loading.unpacks_first w location (String c EmptyString)
             (snd (TVMSklearnContainer.load L location true w))).
Proof.
  assert (forall dir, Loading.appends_calls (fun w' =>
            PyTorchSklearnContainer.load L dir false w')) as Hpt.
  { intros dir. unfold PyTorchSklearnContainer.load.
    repeat first [ apply appends_read_model_type | apply appends_read_object
                 | apply appends_read_container | progress appends ]. }
  split.
  - intros Hends. split; [|split].
    + unfold PyTorchSklearnContainer.load.
      apply unzip_then; [|done]. intros dir. apply (Hpt dir).
    + unfold ONNXSklearnContainer.load. rewrite bind_assoc.
      apply unzip_then; [|done]. intros dir.
      repeat first [ apply appends_read_model_type | apply appends_read_object
                   | apply appends_read_container | progress appends ].
    + unfold TVMSklearnContainer.load. rewrite bind_assoc.
      apply unzip_then; [|done]. intros dir.
      repeat first [ apply appends_read_model_type | apply appends_read_object
                   | apply appends_read_container | progress appends ].
  - intros Hends c Hlen Hget. split; [|split].
    + unfold PyTorchSklearnContainer.load.
      eapply unzip_then; [|done..]. intros dir. apply (Hpt dir).
    + unfold ONNXSklearnContainer.load. rewrite bind_assoc.
      eapply unzip_then; [|done..]. intros dir.
      repeat first [ apply appends_read_model_type | apply appends_read_object
                   | apply appends_read_container | progress appends ].
    + unfold TVMSklearnContainer.load. rewrite bind_assoc.
      eapply unzip_then; [|done..]. intros dir.
      repeat first [ apply appends_read_model_type | apply appends_read_object
                   | apply appends_read_container | progress appends ].
Qed.

End LoadUnpack.

(** Loading ["model.zip"] unpacks it into ["."], and loading ["model"]
    unpacks ["model.zip"] into ["model"]. *)
Lemma load_unpack_destination_witness :
  Loading.unpacks_first PersistExamples.saved_world "model.zip" "."
    (snd (ONNXSklearnContainer.load PredictExamples.example_libraries
            "model.zip" true PersistExamples.saved_world))
  /\ Loading.unpacks_first PersistExamples.saved_world "model.zip" "model"
       (snd (ONNXSklearnContainer.load PredictExamples.example_libraries
               "model" true PersistExamples.saved_world)).
Proof.
  split.
  - apply (proj2 (load_unpack_destination PredictExamples.example_libraries
                    "model.zip" PersistExamples.saved_world)
             eq_refl (Ascii.ascii_of_nat 46)).
    + simpl. lia.
    + reflexivity.
  - apply (proj1 (load_unpack_destination PredictExamples.example_libraries
                    "model" PersistExamples.saved_world) eq_refl).
Defined.

(** ** More on the batch splitter *)

Lemma length_py_slice {A} (s e : Z) (l : list A) :
  (0 <= s <= e)%Z -> (e <= Z.of_nat (length l))%Z ->
  Z.of_nat (length (py_slice s e l)) = (e - s)%Z.
Proof.
  intros Hse He. rewrite py_slice_rows_between by done.
  rewrite length_rows_between by lia. lia.
Qed.

Lemma snd_bind_lift {S A C} (m : eff S A) (f : A -> result C) (s : S) :
  snd (bind m (fun a => lift (f a)) s) = snd (m s).
Proof. unfold bind, lift. by destruct (m s) as [[a|e] s1]. Qed.

Lemma lookup_map {A C} (f : A -> C) (l : list A) (j : nat) :
  map f l !! j = f <$> (l !! j).
Proof. revert j. induction l as [|a l IH]; intros [|j]; simpl; auto. Qed.

Section SplitterMore.
Import BatchContainer.
Local Open Scope Z_scope.

Context {Row Item : Type}.
Variable self : BatchContainer.t.
Variables pf rf : list (list Row) -> result (list Item).
Variable inputs : list (list Row).
Variable N : Z.

Local Abbreviation B := (_batch_size self).
Local Abbreviation R := (_remainder_size self).
Local Abbreviation k := (iterations self N).
Local Abbreviation body := (loop_body self pf rf inputs N k).
Local Abbreviation batch := (batch_of self inputs N).

Lemma output_proc_returns cc (predictions : list (list Item)) :
  predictions <> [] -> returns (output_proc cc predictions).
Proof.
  intros Hne. unfold output_proc, np_concatenate.
  destruct cc; [|by eexists]. destruct predictions; [done|by eexists].
Qed.

Lemma batch_rows i :
  0 < B -> 0 <= N -> 0 <= i <= k - 1 ->
  Forall (fun a => Z.of_nat (length a) = N) inputs ->
  Forall (fun a => Z.of_nat (length a) = Z.min (i * B + B) N - i * B)
         (batch i).
Proof.
  intros HB HN0 Hi Hrows. unfold batch_of.
  apply Forall_forall. intros b Hb.
  apply list_elem_of_In, in_map_iff in Hb as (a & <- & Ha).
  eapply Forall_forall in Hrows; [|by apply list_elem_of_In].
  pose proof (iterations_cover self N HB HN0) as Hk.
  apply length_py_slice; nia.
Qed.

Lemma loop_calls_sized l acc t :
  0 < B -> 0 <= N ->
  Forall (fun a => Z.of_nat (length a) = N) inputs ->
  Forall (fun i => 0 <= i <= k - 1) l ->
  Forall (BatchCalls.sized self) t ->
  Forall (BatchCalls.sized self) (snd (for_each body l acc t)).
Proof.
  intros HB HN0 Hrows Hl. revert acc t.
  induction Hl as [|i l Hi _ IH]; intros acc t Ht; simpl; [done|].
  unfold bind at 1.
  destruct (decide (i = k - 1)) as [->|Hne].
  - rewrite loop_body_last.
    pose proof (batch_rows (k - 1) HB HN0 ltac:(lia) Hrows) as Hb.
    destruct (Z.eqb_spec (Z.min ((k - 1) * B + B) N - (k - 1) * B) R)
      as [Heq|?]; [|done].
    assert (Forall (BatchCalls.sized self)
              (t ++ [Call Remainder (batch (k - 1))])) as Ht'.
    { apply Forall_app. split; [done|]. constructor; [|done].
      unfold BatchCalls.sized. simpl. by rewrite <- Heq. }
    destruct (rf _); simpl; [by apply IH|done].
  - rewrite loop_body_base by done.
    pose proof (batch_rows i HB HN0 Hi Hrows) as Hb.
    pose proof (iterations_full_batch self N i HB HN0 ltac:(lia)).
    assert (Forall (BatchCalls.sized self) (t ++ [Call Base (batch i)]))
      as Ht'.
    { apply Forall_app. split; [done|]. constructor; [|done].
      unfold BatchCalls.sized. simpl.
      eapply Forall_impl; [exact Hb|]. simpl. intros; lia. }
    destruct (pf _); simpl; [by apply IH|done].
Qed.

Lemma predict_common_calls_sized cc :
  total_rows inputs = Ok N ->
  0 < B ->
  Forall (fun a => Z.of_nat (length a) = N) inputs ->
  Forall (BatchCalls.sized self)
    (snd (_predict_common self pf rf inputs cc [])).
Proof.
  intros HN HB Hrows.
  pose proof (total_rows_nonneg inputs N HN) as HN0.
  destruct (decide (N = B)) as [HNB|HNB].
  - rewrite (predict_common_single self pf rf inputs N) by done. simpl.
    constructor; [|done]. unfold BatchCalls.sized. simpl.
    eapply Forall_impl; [exact Hrows|]. simpl. intros; lia.
  - rewrite (predict_common_loop self pf rf inputs N) by (done || lia).
    rewrite snd_bind_lift. apply loop_calls_sized; try done.
    apply Forall_seqZ. pose proof (iterations_ge_1 self N). lia.
Qed.

(** X1.  When every input array has as many rows as the first one and
    the batch size is positive, every array [_predict_common] hands to
    a prediction function has the batch size of the container it goes
    to: [_batch_size] rows in a call of [predict_func],
    [_remainder_size] rows in a call of [remainder_predict_func].  This
    holds of every call made, whether the run returns or raises. *)
Theorem splitter_batches_sized cc c a :
  total_rows inputs = Ok N ->
  0 < B ->
  Forall (fun a => Z.of_nat (length a) = N) inputs ->
  c ∈ snd (_predict_common self pf rf inputs cc []) ->
  a ∈ args c ->
  Z.of_nat (length a) = match callee c with
                        | Base => B
                        | Remainder => R
                        end.
Proof.
  intros HN HB Hrows Hc Ha.
  pose proof (predict_common_calls_sized cc HN HB Hrows) as Hsized.
  eapply Forall_forall in Hsized; [|exact Hc].
  eapply Forall_forall in Hsized; [|exact Ha]. exact Hsized.
Qed.

Lemma batches_partition (j : nat) (a : list Row) :
  0 < B -> 0 <= N ->
  inputs !! j = Some a ->
  concat (map (fun i => BatchCalls.array_of (batch i) j) (seqZ 0 k))
  = take (Z.to_nat N) a.
Proof.
  intros HB HN0 Ha.
  pose proof (iterations_cover self N HB HN0) as Hk.
  pose proof (iterations_ge_1 self N) as Hk1.
  assert (forall i, BatchCalls.array_of (batch i) j
                    = py_slice (i * B) (Z.min (i * B + B) N) a) as Harr.
  { intros i. unfold BatchCalls.array_of, batch_of.
    by rewrite lookup_map, Ha. }
  rewrite (range_split_last self N), map_app, concat_app. simpl.
  rewrite app_nil_r, Harr.
  erewrite map_ext_in; cycle 1.
  { intros i Hi%list_elem_of_In%elem_of_seqZ. rewrite Harr.
    pose proof (iterations_full_batch self N i HB HN0 ltac:(lia)).
    replace (Z.min (i * B + B) N) with (i * B + B) by lia. reflexivity. }
  replace (k - 1) with (Z.of_nat (Z.to_nat (k - 1))) at 1 by lia.
  rewrite (concat_full_batches self a) by done.
  rewrite Z2Nat.id by lia.
  replace (Z.min ((k - 1) * B + B) N) with N by lia.
  rewrite py_slice_rows_between by nia.
  apply rows_between_snoc. nia.
Qed.

(** X2.  The batches [_predict_common] hands on cover the input
    without gap or overlap: in a call that returns, on input arrays
    that all have the rows of the first, the arrays the prediction
    functions received for the [j]-th input, in the order of the calls
    and put one after the other, are the [j]-th input array. *)
Theorem splitter_batches_partition cc r t' (j : nat) (a : list Row) :
  total_rows inputs = Ok N ->
  0 < B ->
  Forall (fun a => Z.of_nat (length a) = N) inputs ->
  inputs !! j = Some a ->
  _predict_common self pf rf inputs cc [] = (Ok r, t') ->
  concat (map (fun c => BatchCalls.array_of (args c) j) t') = a.
Proof.
  intros HN HB Hrows Ha Hrun.
  pose proof (total_rows_nonneg inputs N HN) as HN0.
  assert (Z.of_nat (length a) = N) as Hlen.
  { eapply Forall_forall in Hrows; [exact Hrows|].
    by eapply list_elem_of_lookup_2. }
  destruct (decide (N = B)) as [HNB|HNB].
  - rewrite (predict_common_single self pf rf inputs N) in Hrun by done.
    injection Hrun as _ <-. simpl.
    unfold BatchCalls.array_of. rewrite Ha. simpl. apply app_nil_r.
  - destruct (predict_common_returns_inv self pf rf inputs N cc [] r t'
                HN HB HNB Hrun) as (Hpf & Hlast & [out Hout]).
    rewrite (predict_common_split self pf rf inputs N) in Hrun by done.
    destruct (Z.eqb_spec (N - (iterations self N - 1) * B) R) as [_|?];
      [|done].
    injection Hrun as _ <-. simpl.
    rewrite map_app, map_map. simpl.
    transitivity (concat (map (fun i => BatchCalls.array_of (batch i) j)
                            (seqZ 0 k))).
    { by rewrite (range_split_last self N), map_app. }
    rewrite (batches_partition j a HB HN0 Ha).
    apply firstn_all2. lia.
Qed.

Lemma last_rows_accepts :
  0 < B -> 0 <= N -> 0 < R <= B ->
  N - (k - 1) * B = R <-> exists j, 0 <= j /\ N = j * B + R.
Proof.
  intros HB HN0 HR.
  pose proof (iterations_cover self N HB HN0) as Hk.
  pose proof (iterations_ge_1 self N) as Hk1.
  split.
  - intros Heq. exists (k - 1). split; lia.
  - intros (j & Hj & HNj).
    enough (k - 1 = j) by nia.
    unfold iterations.
    destruct (decide (R = B)) as [HRB|HRB].
    + assert (N = B * (j + 1) + 0) as HN' by nia.
      rewrite <- (Z.div_unique_pos N B (j + 1) 0) by lia.
      rewrite <- (Z.mod_unique_pos N B (j + 1) 0) by lia. simpl. lia.
    + assert (N = B * j + R) as HN' by nia.
      rewrite <- (Z.div_unique_pos N B j R) by lia.
      rewrite <- (Z.mod_unique_pos N B j R) by lia.
      destruct (Z.gtb_spec R 0); lia.
Qed.

(** X3.  The row counts [_predict_common] accepts.  With
    [0 < _remainder_size <= _batch_size] and prediction functions that
    return, the call returns exactly when the number [N] of rows is
    [_batch_size], or [j * _batch_size + _remainder_size] for some
    [j >= 0]; on every other [N] it raises. *)
Theorem splitter_accepts cc t :
  total_rows inputs = Ok N ->
  0 < R <= B ->
  (forall b, returns (pf b)) ->
  (forall b, returns (rf b)) ->
  returns (fst (_predict_common self pf rf inputs cc t))
  <-> N = B \/ exists j, 0 <= j /\ N = j * B + R.
Proof.
  intros HN HR Hpf Hrf.
  pose proof (total_rows_nonneg inputs N HN) as HN0.
  assert (0 < B) as HB by lia.
  destruct (decide (N = B)) as [HNB|HNB].
  - rewrite (predict_common_single self pf rf inputs N) by done. simpl.
    destruct (Hpf inputs) as [out ->]. simpl.
    split; [by left|]. intros _. by apply output_proc_returns.
  - rewrite (predict_common_split self pf rf inputs N) by done.
    rewrite <- last_rows_accepts by done.
    destruct (Z.eqb_spec (N - (k - 1) * B) R) as [Heq|Hne]; simpl.
    + destruct (Hrf (batch (k - 1))) as [out ->]. simpl.
      split; [by right|]. intros _. apply output_proc_returns.
      by destruct (map _ _).
    + split; [by intros [? ?]|]. by intros [?|?].
Qed.

(** X4.  A splitter built without a remainder container,
    [BatchContainer(base_container)], accepts exactly the inputs whose
    row count is a positive multiple of the batch size. *)
Theorem splitter_default_remainder (b : Z) cc t :
  __init__ (Some b) None = Ok self ->
  total_rows inputs = Ok N ->
  0 < b ->
  (forall x, returns (pf x)) ->
  returns (fst (_predict_common self pf pf inputs cc t))
  <-> 1 <= N /\ N mod b = 0.
Proof.
  intros Hinit HN Hb Hpf.
  assert (B = b /\ R = b) as [HB HR] by (by injection Hinit as <-).
  pose proof (total_rows_nonneg inputs N HN) as HN0.
  destruct (decide (N = B)) as [HNB|HNB].
  - rewrite (predict_common_single self pf pf inputs N) by done. simpl.
    destruct (Hpf inputs) as [out ->]. simpl.
    split; [|intros _; by apply output_proc_returns].
    intros _. rewrite HNB, HB. split; [lia|]. by apply Z_mod_same_full.
  - rewrite (predict_common_split self pf pf inputs N) by (done || lia).
    assert (N - (k - 1) * B = R <-> 1 <= N /\ N mod b = 0) as <-.
    { rewrite last_rows_accepts by lia. rewrite HB, HR. split.
      - intros (j & Hj & ->). split; [nia|].
        replace (j * b + b) with ((j + 1) * b) by lia. apply Z_mod_mult.
      - intros [HN1 Hmod]. exists (N / b - 1).
        pose proof (Z_div_mod_eq_full N b) as Hdiv. split; nia. }
    destruct (Z.eqb_spec (N - (k - 1) * B) R) as [Heq|Hne]; simpl.
    + destruct (Hpf (batch (k - 1))) as [out ->]. simpl.
      split; [done|]. intros _. apply output_proc_returns.
      by destruct (map _ _).
    + split; [by intros [? ?]|done].
Qed.

(** X5.  Without any input [_predict_common] raises [IndexError], and
    with a batch size of 0 and an input that is not empty it raises
    [ZeroDivisionError]; in both cases no prediction function has been
    called. *)
Theorem splitter_edge_errors cc t :
  _predict_common self pf rf [] cc t = (Raise IndexError, t)
  /\ (total_rows inputs = Ok N -> B = 0 -> N <> 0 ->
      _predict_common self pf rf inputs cc t = (Raise ZeroDivisionError, t)).
Proof.
  split; [done|]. intros HN HB HN0.
  unfold _predict_common, bind, lift. rewrite HN.
  destruct (Z.eqb_spec N B) as [?|_]; [lia|].
  by rewrite iterations_of_zero.
Qed.

(** X6.  An exception [predict_func] raises on the batch of an
    iteration [j] before the last is what [_predict_common] raises: the
    calls made are those for the batches [0 .. j], in order, and the
    remainder function is not called. *)
Theorem splitter_propagates_exception (j : Z) (e : exn) cc t :
  total_rows inputs = Ok N ->
  0 < B -> N <> B ->
  0 <= j < k - 1 ->
  (forall i, 0 <= i < j -> returns (pf (batch i))) ->
  pf (batch j) = Raise e ->
  _predict_common self pf rf inputs cc t
  = (Raise e, t ++ map (fun i => Call Base (batch i)) (seqZ 0 (j + 1))).
Proof.
  intros HN HB HNB Hj Hbefore He.
  rewrite (predict_common_loop self pf rf inputs N) by (done || lia).
  assert (seqZ 0 k = seqZ 0 j ++ j :: seqZ (j + 1) (k - j - 1)) as ->.
  { transitivity (seqZ 0 (j + (k - j))); [f_equal; lia|].
    rewrite seqZ_app by lia. rewrite (seqZ_cons (0 + j)) by lia.
    replace (0 + j) with j by lia. do 2 f_equal; lia. }
  unfold bind at 1. rewrite for_each_app. unfold bind at 1.
  rewrite base_loop_returns; cycle 1.
  { apply Forall_seqZ. intros i Hi. split; [lia|]. apply Hbefore. lia. }
  simpl. unfold bind at 1.
  rewrite loop_body_base by lia. rewrite He. simpl.
  f_equal. rewrite <- app_assoc. f_equal.
  replace (j + 1) with (Z.of_nat (S (Z.to_nat j))) by lia.
  rewrite seqZ_S, map_app. simpl.
  by rewrite !Z2Nat.id by lia.
Qed.

End SplitterMore.

Section SplitterTvm.
Local Open Scope Z_scope.

Variables base remainder : container.
Variable self : BatchContainer.t.
Context {Item : Type}.
Variables pf rf : list (list (list scalar)) -> result (list Item).
Variable inputs : list (list (list scalar)).
Variable N : Z.

(** X7.  A splitter that [__init__] builds from two TVM containers
    hands each of them batches it accepts: on inputs that all have the
    rows of the first, no call the splitter makes fails the batch-size
    assertion of [_to_tvm_tensor] in the container it goes to. *)
Theorem splitter_batches_fit_tvm cc dt cols msg c :
  BatchContainer.__init__ (_batch_size base) (Some (_batch_size remainder))
  = Ok self ->
  BatchContainer.total_rows inputs = Ok N ->
  0 < BatchContainer._batch_size self ->
  Forall (fun a => Z.of_nat (length a) = N) inputs ->
  c ∈ snd (BatchContainer._predict_common self pf rf inputs cc []) ->
  TVMSklearnContainer._to_tvm_tensor
    (match BatchContainer.callee c with
     | BatchContainer.Base => base
     | BatchContainer.Remainder => remainder
     end)
    (map (BatchCalls.as_array dt cols) (BatchContainer.args c))
  <> Raise (AssertionError msg).
Proof.
  intros Hinit HN HB Hrows Hc.
  pose proof (predict_common_calls_sized self pf rf inputs N cc HN HB Hrows)
    as Hsized.
  eapply Forall_forall in Hsized; [|exact Hc].
  unfold BatchContainer.__init__ in Hinit.
  destruct (_batch_size base) as [b|] eqn:Hb; [|done].
  destruct (_batch_size remainder) as [r|] eqn:Hr; [|done].
  injection Hinit as <-. simpl in *.
  apply to_tvm_tensor_from_no_assertion.
  apply Forall_forall. intros v Hv.
  apply list_elem_of_In, in_map_iff in Hv as (a & <- & Ha).
  apply list_elem_of_In in Ha.
  eapply Forall_forall in Hsized; [|exact Ha].
  exists (Z.of_nat (length a)). split; [done|].
  destruct (BatchContainer.callee c); simpl in Hsized; congruence.
Qed.

End SplitterTvm.

(** *** The splitter on examples, again *)

Lemma splitter_batches_sized_witness :
  Z.of_nat (length (seq 8 2))
  = BatchContainer._remainder_size (BatchContainer.Build 4 2).
Proof.
  refine (splitter_batches_sized (BatchContainer.Build 4 2)
            BatchExamples.times10 BatchExamples.times10
            BatchExamples.ten_rows 10 true
            (BatchContainer.Call BatchContainer.Remainder [seq 8 2])
            (seq 8 2) eq_refl eq_refl _ _ _).
  - repeat constructor.
  - vm_compute. repeat constructor.
  - repeat constructor.
Defined.

Lemma splitter_batches_partition_witness :
  concat (map (fun c => BatchCalls.array_of (BatchContainer.args c) 0)
            [BatchContainer.Call BatchContainer.Base [seq 0 4];
             BatchContainer.Call BatchContainer.Base [seq 4 4];
             BatchContainer.Call BatchContainer.Remainder [seq 8 2]])
  = seq 0 10.
Proof.
  assert (Forall (fun a => Z.of_nat (length a) = 10%Z) BatchExamples.ten_rows)
    as Hrows by (by repeat constructor).
  exact (splitter_batches_partition (BatchContainer.Build 4 2)
           BatchExamples.times10 BatchExamples.times10
           BatchExamples.ten_rows 10 true _ _ 0 (seq 0 10) eq_refl eq_refl
           Hrows eq_refl eq_refl).
Defined.

Lemma splitter_accepts_witness :
  returns (fst (BatchContainer._predict_common (BatchContainer.Build 4 2)
                  BatchExamples.times10 BatchExamples.times10
                  BatchExamples.ten_rows true []))
  <-> (10 = 4 \/ exists j, 0 <= j /\ 10 = j * 4 + 2)%Z.
Proof.
  assert (0 < 2 <= 4)%Z as Hsizes by (split; [reflexivity|discriminate]).
  pose proof (splitter_accepts (BatchContainer.Build 4 2)
                BatchExamples.times10 BatchExamples.times10
                BatchExamples.ten_rows 10 true [] eq_refl Hsizes
                times10_returns times10_returns) as H.
  exact H.
Defined.

Lemma splitter_default_remainder_witness :
  returns (fst (BatchContainer._predict_common (BatchContainer.Build 5 5)
                  BatchExamples.times10 BatchExamples.times10
                  BatchExamples.ten_rows true []))
  <-> (1 <= 10 /\ 10 mod 5 = 0)%Z.
Proof.
  exact (splitter_default_remainder (BatchContainer.Build 5 5)
           BatchExamples.times10 BatchExamples.ten_rows 10 5 true []
           eq_refl eq_refl eq_refl times10_returns).
Defined.

Lemma splitter_edge_errors_witness :
  BatchContainer._predict_common (BatchContainer.Build 0 0)
    BatchExamples.times10 BatchExamples.times10 BatchExamples.ten_rows true []
  = (Raise ZeroDivisionError, []).
Proof.
  exact (proj2 (splitter_edge_errors (BatchContainer.Build 0 0)
                  BatchExamples.times10 BatchExamples.times10
                  BatchExamples.ten_rows 10 true [])
           eq_refl eq_refl ltac:(discriminate)).
Defined.

Lemma splitter_propagates_exception_witness :
  BatchContainer._predict_common (BatchContainer.Build 4 2)
    MoreExamples.picky BatchExamples.times10 BatchExamples.ten_rows true []
  = (Raise ValueError,
     [BatchContainer.Call BatchContainer.Base [seq 0 4];
      BatchContainer.Call BatchContainer.Base [seq 4 4]]).
Proof.
  refine (splitter_propagates_exception (BatchContainer.Build 4 2)
            MoreExamples.picky BatchExamples.times10 BatchExamples.ten_rows
            10 1 ValueError true [] eq_refl eq_refl ltac:(discriminate)
            _ _ eq_refl).
  - vm_compute. split; [discriminate|reflexivity].
  - intros i Hi. assert (i = 0)%Z as -> by lia. by eexists.
Defined.

Lemma splitter_batches_fit_tvm_witness :
  TVMSklearnContainer._to_tvm_tensor PredictExamples.anomaly_detector
    (map (BatchCalls.as_array PredictExamples.int64 1)
       [[[SInt 1]; [SInt 2]]])
  <> Raise (AssertionError None).
Proof.
  refine (splitter_batches_fit_tvm PredictExamples.anomaly_detector
            PredictExamples.anomaly_detector (BatchContainer.Build 2 2)
            MoreExamples.constantly_empty MoreExamples.constantly_empty
            MoreExamples.four_rows 4 true PredictExamples.int64 1 None
            (BatchContainer.Call BatchContainer.Base [[[SInt 1]; [SInt 2]]])
            eq_refl eq_refl eq_refl _ _).
  - repeat constructor.
  - vm_compute. repeat constructor.
Defined.

(** ** The TorchScript wrapper *)

Section Wrapper.
Local Open Scope result_scope.
Import TorchScriptSklearnContainer.

Variable L : libraries.
Variable extra_config : gmap string pyobj.

Lemma coerce_input_tensor d i x x' :
  coerce_input L (Some d) extra_config i x = Ok x' ->
  Wrapped.tensor_for d x'.
Proof.
  unfold coerce_input. intros H. bind_inv H.
  assert (exists t, a = VTensor t) as [t ->].
  { destruct x as [arr|arr|t|ty]; simpl in Ha; try done.
    - bind_inv Ha. destruct (torch_supports _ _); [|done].
      injection Ha as <-. by eexists.
    - bind_inv Ha. destruct (torch_supports _ _); [|done].
      injection Ha as <-. by eexists.
    - injection Ha as <-. by eexists. }
  case_bool_decide as Hd; injection H as <-; eexists; split; done.
Qed.

Lemma coerce_from_tensors d i inputs xs :
  coerce_from L (Some d) extra_config i inputs = Ok xs ->
  length xs = length inputs /\ Forall (Wrapped.tensor_for d) xs.
Proof.
  revert i xs. induction inputs as [|x inputs IH]; intros i xs H; simpl in H.
  - injection H as <-. by split.
  - bind_inv H. bind_inv H. injection H as <-.
    apply coerce_input_tensor in Ha. apply IH in Ha0 as [Hlen Hall].
    split; [simpl; by rewrite Hlen|by constructor].
Qed.

(** X8.  When [_torchscript_wrapper] returns, the wrapped function was
    called on as many values as there are inputs, each of them a torch
    tensor, on [device] when that is not the cpu, and what it returned
    is the result. *)
Theorem wrapper_hands_tensors {A} d (f : list pyval -> result A)
    (inputs : list pyval) (r : A) :
  _torchscript_wrapper L (Some d) f inputs extra_config = Ok r ->
  exists xs,
    f xs = Ok r
    /\ length xs = length inputs
    /\ Forall (Wrapped.tensor_for d) xs.
Proof.
  unfold _torchscript_wrapper. intros H. bind_inv H.
  exists a. split; [done|]. by eapply coerce_from_tensors.
Qed.

Lemma coerce_input_no_device i x :
  ~ returns (coerce_input L None extra_config i x).
Proof.
  unfold coerce_input. intros [x' H]. bind_inv H. done.
Qed.

Lemma wrapper_no_device {A} (f : list pyval -> result A) (inputs : list pyval) :
  inputs <> [] ->
  ~ returns (_torchscript_wrapper L None f inputs extra_config).
Proof.
  intros Hne [r H]. unfold _torchscript_wrapper in H. bind_inv H.
  destruct inputs as [|x rest]; [done|]. simpl in Ha. bind_inv Ha.
  by eapply coerce_input_no_device; eexists.
Qed.

Lemma coerce_from_app device i l1 l2 :
  coerce_from L device extra_config i (l1 ++ l2)
  = let? xs1 := coerce_from L device extra_config i l1 in
    let? xs2 := coerce_from L device extra_config (i + length l1) l2 in
    Ok (xs1 ++ xs2).
Proof.
  revert i. induction l1 as [|x l1 IH]; intros i; simpl.
  - rewrite Nat.add_0_r. by destruct (coerce_from _ _ _ _ l2).
  - destruct (coerce_input _ _ _ i x) as [x'|e]; simpl; [|done].
    rewrite IH. replace (S i + length l1) with (i + S (length l1)) by lia.
    destruct (coerce_from _ _ _ (S i) l1) as [xs1|e]; simpl; [|done].
    by destruct (coerce_from _ _ _ _ l2).
Qed.

(** X9.  An input that is neither a list, an array nor a tensor makes
    [_torchscript_wrapper] raise [RuntimeError] with the index and the
    type of that input, whenever the inputs before it are converted. *)
Theorem wrapper_rejects_other_types {A} device (f : list pyval -> result A)
    (pre post : list pyval) (type_name : string) :
  returns (coerce_from L device extra_config 0 pre) ->
  _torchscript_wrapper L device f (pre ++ VOther type_name :: post)
    extra_config
  = Raise (RuntimeError ("Inputer tensor " +:+ pretty (length pre)
                         +:+ " of not supported type " +:+ type_name)).
Proof.
  intros [xs Hxs]. unfold _torchscript_wrapper.
  rewrite coerce_from_app, Hxs. simpl. reflexivity.
Qed.

End Wrapper.

Section TorchScriptMethods.
Import TorchScriptSklearnContainer.
Variable L : libraries.
Variable self : container.

Lemma run_lambda_no_device {A} (f : list pyval -> result A)
    (inputs : list pyval) :
  ~ returns (SklearnContainer._run L
               (lambda_x (fun x =>
                  _torchscript_wrapper L None f [x] (_extra_config self)))
               inputs).
Proof.
  intros [r H]. apply run_Ok_inv in H. unfold lambda_x in H.
  destruct inputs as [|x [|]]; try done.
  eapply wrapper_no_device; [|by eexists]. done.
Qed.

(** X10.  For a model for which [get_device] finds no device, no call
    of [transform], [predict], [decision_function] or [score_samples]
    of a TorchScript container returns: the wrapper reads [device.type]
    before it tests [device is not None]. *)
Theorem torchscript_needs_device (inputs : list pyval) :
  get_device L (_model self) = None ->
  ~ returns (transform L self inputs)
  /\ ~ returns (predict L self inputs)
  /\ ~ returns (decision_function L self inputs)
  /\ ~ returns (score_samples L self inputs).
Proof.
  intros Hdev. unfold transform, predict, decision_function, score_samples.
  rewrite !Hdev. repeat split.
  - apply run_lambda_no_device.
  - apply run_lambda_no_device.
  - intros [r H]. bind_inv H. eapply run_lambda_no_device. by eexists.
  - intros [r H]. bind_inv H. eapply run_lambda_no_device. by eexists.
Qed.

Lemma run_lambda_arity {A} (body : pyval -> result A) (inputs : list pyval) :
  2 <= length inputs ->
  SklearnContainer._run L (lambda_x body) inputs = Raise TypeError.
Proof.
  intros Hlen. unfold SklearnContainer._run, lambda_x.
  destruct inputs as [|x [|y rest]]; simpl in Hlen; try lia.
  by destruct (pandas_installed L).
Qed.

(** X11.  [transform], [predict], [decision_function] and
    [score_samples] of the TorchScript containers take one input: the
    function they wrap is [lambda x: ...], so two or more inputs (no
    DataFrame) raise [TypeError]. *)
Theorem torchscript_single_input (inputs : list pyval) :
  2 <= length inputs ->
  transform L self inputs = Raise TypeError
  /\ predict L self inputs = Raise TypeError
  /\ decision_function L self inputs = Raise TypeError
  /\ score_samples L self inputs = Raise TypeError.
Proof.
  intros Hlen. unfold transform, predict, decision_function, score_samples.
  by rewrite !run_lambda_arity.
Qed.

End TorchScriptMethods.

Lemma wrapper_hands_tensors_witness :
  exists xs,
    MoreExamples.count_inputs xs = Ok 1
    /\ length xs = length [VArray PredictExamples.two_rows]
    /\ Forall (Wrapped.tensor_for cpu_device) xs.
Proof.
  exact (wrapper_hands_tensors PredictExamples.example_libraries ∅
           cpu_device MoreExamples.count_inputs
           [VArray PredictExamples.two_rows] 1 eq_refl).
Defined.

Lemma wrapper_rejects_other_types_witness :
  TorchScriptSklearnContainer._torchscript_wrapper
    PredictExamples.example_libraries (Some cpu_device)
    MoreExamples.count_inputs
    ([VArray PredictExamples.two_rows] ++ [VOther "<class 'dict'>"]) ∅
  = Raise (RuntimeError ("Inputer tensor " +:+ pretty 1
                         +:+ " of not supported type " +:+ "<class 'dict'>")).
Proof.
  refine (wrapper_rejects_other_types PredictExamples.example_libraries ∅
            (Some cpu_device) MoreExamples.count_inputs
            [VArray PredictExamples.two_rows] [] "<class 'dict'>" _).
  eexists. reflexivity.
Defined.

Lemma torchscript_needs_device_witness :
  ~ returns (TorchScriptSklearnContainer.predict
               MoreExamples.no_device_libraries
               PredictExamples.anomaly_detector
               [VArray PredictExamples.two_rows]).
Proof.
  exact (proj1 (proj2 (torchscript_needs_device
                         MoreExamples.no_device_libraries
                         PredictExamples.anomaly_detector
                         [VArray PredictExamples.two_rows] eq_refl))).
Defined.

Lemma torchscript_single_input_witness :
  TorchScriptSklearnContainer.transform PredictExamples.example_libraries
    PredictExamples.anomaly_detector
    [VArray PredictExamples.two_rows; VArray PredictExamples.two_rows]
  = Raise TypeError.
Proof.
  exact (proj1 (torchscript_single_input PredictExamples.example_libraries
                  PredictExamples.anomaly_detector
                  [VArray PredictExamples.two_rows;
                   VArray PredictExamples.two_rows] (le_n 2))).
Defined.

Section OnnxNamedInputs.
Local Open Scope result_scope.
Import ONNXSklearnContainer.
Variable L : libraries.
Variable self : container.

Lemma name_inputs_lookup pairs acc named :
  name_inputs L self acc pairs = Ok named ->
  NoDup pairs.*1 ->
  (forall name input, (name, input) ∈ pairs ->
     exists a', named !! name = Some a' /\ NamedInputs.stored L self input a')
  /\ (forall name, name ∉ pairs.*1 -> named !! name = acc !! name).
Proof.
  revert acc. induction pairs as [|[n v] pairs IH]; intros acc H Hnd; simpl in H.
  - injection H as <-. split; [|done]. intros ?? Hin. by apply elem_of_nil in Hin.
  - apply NoDup_cons in Hnd as [Hn Hnd].
    bind_inv H. bind_inv H.
    destruct (IH _ H Hnd) as [Hin Hout].
    assert (NamedInputs.stored L self v a0) as Hst.
    { exists a. split; [done|].
      destruct (bool_decide (kind (dtype a) ∈ _)); [|by injection Ha0 as <-].
      bind_inv Ha0. bind_inv Ha0.
      unfold dict_getitem in Ha2.
      destruct (_ !! MAX_STRING_LENGTH _) as [ml|]; [|done].
      injection Ha2 as ->. by exists a2. }
    split.
    + intros name input [[= -> ->]|Hin']%elem_of_cons.
      * exists a0. split; [|done]. rewrite Hout by done.
        apply lookup_insert_eq.
      * by apply Hin.
    + intros name Hnot. simpl in Hnot.
      apply not_elem_of_cons in Hnot as [Hne Hnot].
      rewrite Hout by done. by apply lookup_insert_ne.
Qed.

(** X12.  [_get_named_inputs] of an ONNX container, on at least as
    many inputs as there are input names: more inputs than names raise
    [AssertionError]; and when it returns, with names that are
    distinct, there are as many inputs as names, the keys of the
    dictionary are the input names, and the entry of the [i]-th name is
    [np.array] of the [i]-th input, turned into integers with the
    stored [MAX_STRING_LENGTH] when it is an array of strings. *)
Theorem onnx_named_inputs (inputs : list pyval) :
  length (_input_names self) <= length inputs ->
  (length (_input_names self) < length inputs ->
   _get_named_inputs L self inputs = Raise (AssertionError None))
  /\ (forall named,
        NoDup (_input_names self) ->
        _get_named_inputs L self inputs = Ok named ->
        length inputs = length (_input_names self)
        /\ (forall name, is_Some (named !! name) <-> name ∈ _input_names self)
        /\ (forall i name input,
              _input_names self !! i = Some name ->
              inputs !! i = Some input ->
              exists a', named !! name = Some a'
                         /\ NamedInputs.stored L self input a')).
Proof.
  intros Hle. unfold _get_named_inputs.
  destruct (Nat.ltb_spec (length inputs) (length (_input_names self)))
    as [?|_]; [lia|]. simpl.
  split.
  - intros Hlt. destruct (Nat.eqb_spec (length inputs)
                            (length (_input_names self))); [lia|done].
  - intros named Hnd H.
    destruct (Nat.eqb_spec (length inputs) (length (_input_names self)))
      as [Hlen|?]; [|done]. simpl in H.
    apply name_inputs_lookup in H as [Hin Hout];
      [|by rewrite fst_zip by lia].
    rewrite fst_zip in Hout by lia.
    split; [done|]. split.
    + intros name. split.
      * intros Hsome. destruct (decide (name ∈ _input_names self)); [done|].
        rewrite Hout in Hsome by done. rewrite lookup_empty in Hsome.
        by destruct Hsome.
      * intros Hname. apply list_elem_of_lookup in Hname as [i Hi].
        destruct (lookup_lt_is_Some_2 inputs i) as [input Hinput].
        { apply lookup_lt_Some in Hi. lia. }
        destruct (Hin name input) as (a' & Ha' & _); [|by eexists].
        apply list_elem_of_lookup. exists i. by apply lookup_zip_with_Some;
          eexists _, _.
    + intros i name input Hi Hinput. apply Hin.
      apply list_elem_of_lookup. exists i.
      apply lookup_zip_with_Some. by eexists _, _.
Qed.

End OnnxNamedInputs.

Lemma onnx_named_inputs_witness :
  ONNXSklearnContainer._get_named_inputs PredictExamples.example_libraries
    PredictExamples.classifier
    [VArray PredictExamples.two_rows; VArray PredictExamples.two_rows]
  = Raise (AssertionError None).
Proof.
  exact (proj1 (onnx_named_inputs PredictExamples.example_libraries
                  PredictExamples.classifier
                  [VArray PredictExamples.two_rows;
                   VArray PredictExamples.two_rows] (le_S 1 1 (le_n 1)))
           (le_n 2)).
Defined.

(** ** Path names *)

Lemma string_app_cons (c : Ascii.ascii) (s t : string) :
  String c s +:+ t = String c (s +:+ t).
Proof. reflexivity. Qed.

Lemma string_app_assoc (s t u : string) : (s +:+ t) +:+ u = s +:+ (t +:+ u).
Proof.
  induction s as [|c s IH]; [done|]. rewrite !string_app_cons. by f_equal.
Qed.

Lemma string_app_nil_r (s : string) : s +:+ "" = s.
Proof.
  induction s as [|c s IH]; [done|]. rewrite string_app_cons. by f_equal.
Qed.

Lemma prefix_app (s t : string) : String.prefix s (s +:+ t) = true.
Proof.
  induction s as [|c s IH]; [by destruct t|].
  rewrite string_app_cons. simpl. by destruct (Ascii.ascii_dec c c).
Qed.

Lemma prefix_app_cancel (s a b : string) :
  String.prefix (s +:+ a) (s +:+ b) = String.prefix a b.
Proof.
  induction s as [|c s IH]; [done|].
  rewrite !string_app_cons. simpl. by destruct (Ascii.ascii_dec c c).
Qed.

Lemma prefix_app_self (s t : string) :
  t <> "" -> String.prefix (s +:+ t) s = false.
Proof.
  intros Ht. induction s as [|c s IH].
  - by destruct t.
  - rewrite string_app_cons. simpl. by destruct (Ascii.ascii_dec c c).
Qed.

Lemma substring_all (s : string) : String.substring 0 (String.length s) s = s.
Proof. induction s as [|c s IH]; simpl; [done|by f_equal]. Qed.

Lemma substring_app (s t : string) :
  String.substring (String.length s)
    (String.length (s +:+ t) - String.length s) (s +:+ t) = t.
Proof.
  induction s as [|c s IH].
  - change ("" +:+ t) with t. simpl. rewrite Nat.sub_0_r. apply substring_all.
  - rewrite string_app_cons. simpl. apply IH.
Qed.

Section Paths.
Variable location : string.
Hypothesis Hplain : Bundle.plain_location location.

Lemma os_path_join_plain (name : string) :
  Bundle.relative_name name ->
  Py.os_path_join location name = (location +:+ "/") +:+ name.
Proof.
  destruct Hplain as (Hne & Hslash & _). intros Hname.
  unfold Py.os_path_join. rewrite Hname, Hslash.
  rewrite bool_decide_eq_false_2 by done. simpl.
  by rewrite string_app_assoc.
Qed.

Lemma relative_to_join (name : string) :
  Bundle.relative_name name ->
  Py.relative_to location (Py.os_path_join location name) = Some name.
Proof.
  intros Hname. rewrite os_path_join_plain by done.
  destruct Hplain as (_ & Hslash & _).
  unfold Py.relative_to. rewrite Hslash, prefix_app.
  by rewrite substring_app.
Qed.

Lemma relative_to_self : Py.relative_to location location = None.
Proof.
  destruct Hplain as (_ & Hslash & _).
  unfold Py.relative_to. rewrite Hslash.
  by rewrite prefix_app_self.
Qed.

Lemma relative_to_zip : Py.relative_to location (location +:+ ".zip") = None.
Proof.
  destruct Hplain as (_ & Hslash & _).
  unfold Py.relative_to. rewrite Hslash.
  by rewrite prefix_app_cancel.
Qed.

Lemma zip_not_location : location +:+ ".zip" <> location.
Proof.
  intros H. rewrite <- (string_app_nil_r location) in H at 2.
  by apply (inj (String.app location)) in H.
Qed.

Lemma os_path_join_inj (name name' : string) :
  Bundle.relative_name name -> Bundle.relative_name name' ->
  Py.os_path_join location name = Py.os_path_join location name' ->
  name = name'.
Proof.
  intros Hn Hn' H. rewrite !os_path_join_plain in H by done.
  by apply (inj (String.app _)) in H.
Qed.

End Paths.

(** ** The directory of a saved model and its archive *)

Lemma entries_functional {A} (entries : list (string * A)) name v v' :
  NoDup entries.*1 -> (name, v) ∈ entries -> (name, v') ∈ entries -> v = v'.
Proof.
  induction entries as [|[r n0] entries IH]; simpl.
  - by intros _ ?%elem_of_nil.
  - intros [Hnotin Hnodup]%NoDup_cons [H1|H1]%elem_of_cons [H2|H2]%elem_of_cons.
    + congruence.
    + injection H1 as -> ->. destruct Hnotin.
      apply list_elem_of_fmap. by exists (r, v').
    + injection H2 as -> ->. destruct Hnotin.
      apply list_elem_of_fmap. by exists (r, v).
    + by apply IH.
Qed.

Lemma archive_members_spec root fs rel node :
  (rel, node) ∈ Bundle.archive_members root fs
  <-> exists path, fs !! path = Some node /\ Py.relative_to root path = Some rel.
Proof.
  unfold Bundle.archive_members. rewrite list_elem_of_omap. split.
  - intros ([path node'] & Hin%elem_of_map_to_list & Hrel).
    destruct (Py.relative_to root path) as [rel'|] eqn:Hto; [|done].
    injection Hrel as -> ->. by exists path.
  - intros (path & Hpath & Hrel). exists (path, node).
    split; [by apply elem_of_map_to_list|]. by rewrite Hrel.
Qed.

Section Bundles.
Variable location : string.
Hypothesis Hplain : Bundle.plain_location location.

Lemma directory_lookup_inv entries fs path v :
  Bundle.directory location entries fs !! path = Some v ->
  (exists name, (name, v) ∈ entries /\ path = Py.os_path_join location name)
  \/ (path = location /\ v = Dir)
  \/ fs !! path = Some v.
Proof.
  induction entries as [|[r n0] entries IH]; simpl.
  - rewrite lookup_insert. case_decide; [|by auto].
    intros [= <-]. by auto.
  - rewrite lookup_insert. case_decide as Heq.
    + intros [= <-]. left. exists r. split; [by left|done].
    + intros [(name & Hin & ->)|H]%IH; [|by auto].
      left. exists name. split; [by right|done].
Qed.

Lemma directory_lookup entries fs name node :
  Forall Bundle.relative_name entries.*1 ->
  (forall v, (name, v) ∈ entries -> v = node) ->
  (name, node) ∈ entries ->
  Bundle.directory location entries fs !! Py.os_path_join location name
  = Some node.
Proof.
  induction entries as [|[r n0] entries IH]; simpl.
  - by intros _ _ ?%elem_of_nil.
  - intros [Hr Hrel]%Forall_cons Hfun Hin.
    destruct (decide (r = name)) as [->|Hne].
    + rewrite (Hfun n0) by (by left). apply lookup_insert_eq.
    + assert (Bundle.relative_name name) as Hname.
      { apply elem_of_cons in Hin as [[= ]|Hin]; [done|].
        eapply Forall_forall in Hrel; [exact Hrel|].
        apply list_elem_of_fmap. by exists (name, node). }
      rewrite lookup_insert_ne; cycle 1.
      { intros Heq. by apply (os_path_join_inj location Hplain) in Heq. }
      apply IH; [done| |].
      * intros v Hv. apply Hfun. by right.
      * apply elem_of_cons in Hin as [[= ]|Hin]; done.
Qed.

Lemma directory_lookup_location entries fs :
  is_Some (Bundle.directory location entries fs !! location).
Proof.
  induction entries as [|[r n0] entries IH]; simpl.
  - rewrite lookup_insert_eq. by eexists.
  - apply lookup_insert_is_Some'. by right.
Qed.

Lemma directory_lookup_other entries fs path :
  Forall Bundle.relative_name entries.*1 ->
  path <> location -> Py.relative_to location path = None ->
  Bundle.directory location entries fs !! path = fs !! path.
Proof.
  intros Hrel Hne Hout.
  induction entries as [|[r n0] entries IH]; simpl.
  - by rewrite lookup_insert_ne.
  - apply Forall_cons in Hrel as [Hr Hrel].
    rewrite lookup_insert_ne; [by apply IH|].
    intros <-. by rewrite relative_to_join in Hout.
Qed.

Lemma members_of_directory entries fs rel node :
  Bundle.vacant location fs ->
  Forall Bundle.relative_name entries.*1 ->
  (rel, node) ∈ Bundle.archive_members location
                   (Bundle.directory location entries fs) ->
  (rel, node) ∈ entries.
Proof.
  intros [_ Hvacant] Hrel (path & Hpath & Hto)%archive_members_spec.
  apply directory_lookup_inv in Hpath as [(name & Hin & ->)|[[-> _]|Hfs]].
  - rewrite relative_to_join in Hto; [by injection Hto as <-|done|].
    eapply Forall_forall in Hrel; [exact Hrel|].
    apply list_elem_of_fmap. by exists (name, node).
  - by rewrite relative_to_self in Hto.
  - rewrite Hvacant in Hfs; [done|]. by rewrite Hto.
Qed.

Lemma directory_members entries fs name node :
  NoDup entries.*1 ->
  Forall Bundle.relative_name entries.*1 ->
  (name, node) ∈ entries ->
  (name, node) ∈ Bundle.archive_members location
                    (Bundle.directory location entries fs).
Proof.
  intros Hnodup Hrel Hin. apply archive_members_spec.
  exists (Py.os_path_join location name). split.
  - apply directory_lookup; [done| |done].
    intros v Hv. by apply (entries_functional entries name).
  - apply relative_to_join; [done|].
    eapply Forall_forall in Hrel; [exact Hrel|].
    apply list_elem_of_fmap. by exists (name, node).
Qed.

(** What was written under a name is read back under it, once the
    directory is archived and the archive unpacked. *)
Lemma unpacked_lookup entries fs fs' name node :
  Bundle.vacant location fs ->
  NoDup entries.*1 ->
  Forall Bundle.relative_name entries.*1 ->
  (name, node) ∈ entries ->
  Bundle.directory location
    (Bundle.archive_members location (Bundle.directory location entries fs))
    fs' !! Py.os_path_join location name
  = Some node.
Proof.
  intros Hvacant Hnodup Hrel Hin. apply directory_lookup.
  - apply Forall_forall. intros rel ([rel' v] & -> & Hv)%list_elem_of_fmap.
    apply members_of_directory in Hv; [|done..]. simpl.
    eapply Forall_forall in Hrel; [exact Hrel|].
    apply list_elem_of_fmap. by exists (rel', v).
  - intros v Hv%members_of_directory; [|done..].
    by apply (entries_functional entries name).
  - by apply directory_members.
Qed.

Lemma archived_zip entries fs :
  Bundle.archived location entries fs !! (location +:+ ".zip")
  = Some (ZipFile (Bundle.archive_members location
                     (Bundle.directory location entries fs))).
Proof.
  unfold Bundle.archived, Bundle.removed. simpl.
  apply map_lookup_filter_Some_2; [apply lookup_insert_eq|].
  split; [by apply zip_not_location|by apply relative_to_zip].
Qed.

Lemma archived_gone entries fs path :
  path = location \/ is_Some (Py.relative_to location path) ->
  Bundle.archived location entries fs !! path = None.
Proof.
  intros Hpath. unfold Bundle.archived, Bundle.removed. simpl.
  apply map_lookup_filter_None_2. right. intros v _ [Hne Hout].
  destruct Hpath as [?|Hin]; [done|]. rewrite Hout in Hin. by destruct Hin.
Qed.

Lemma archived_elsewhere entries fs path :
  Forall Bundle.relative_name entries.*1 ->
  path <> location +:+ ".zip" -> path <> location ->
  Py.relative_to location path = None ->
  Bundle.archived location entries fs !! path = fs !! path.
Proof.
  intros Hrel Hzip Hne Hout. unfold Bundle.archived, Bundle.removed. simpl.
  rewrite map_lookup_filter.
  rewrite lookup_insert_ne by done.
  rewrite directory_lookup_other by done.
  destruct (fs !! path) as [v|]; simpl; [|done].
  by rewrite option_guard_True.
Qed.

Lemma archived_only_archive entries fs :
  Bundle.vacant location fs ->
  NoDup entries.*1 ->
  Forall Bundle.relative_name entries.*1 ->
  Bundle.only_archive location entries fs
    (Bundle.archived location entries fs).
Proof.
  intros Hvacant Hnodup Hrel. split; [|split].
  - eexists. split; [apply archived_zip|]. intros rel node. split.
    + by apply members_of_directory.
    + by apply directory_members.
  - apply archived_gone.
  - intros path. by apply archived_elsewhere.
Qed.

End Bundles.

(** ** Runs of [save] that return *)

Lemma bind_run {S A C} (m : eff S A) (k : A -> eff S C) s a s1 :
  m s = (Ok a, s1) -> bind m k s = k a s1.
Proof. unfold bind. by intros ->. Qed.

Lemma bind_this {C} (k : container -> eff (container * world) C) s :
  bind Saving.this k s = k (fst s) s.
Proof. reflexivity. Qed.

Lemma bind_assign {C} f (k : unit -> eff (container * world) C) s :
  bind (Saving.assign f) k s = k tt (f (fst s), snd s).
Proof. reflexivity. Qed.

Lemma bind_write {C} path node (k : unit -> eff (container * world) C) s :
  bind (Saving.in_world (Py.write_file path node)) k s
  = k tt (fst s, set_files (insert path node) (log_call (OpenWrite path) (snd s))).
Proof. reflexivity. Qed.

Lemma bind_assert_true {S C} msg (k : unit -> eff S C) (s : S) :
  bind (py_assert true msg) k s = k tt s.
Proof. reflexivity. Qed.

Lemma bind_lift_Ok {S A C} (a : A) (k : A -> eff S C) (s : S) :
  bind (lift (Ok a)) k s = k a s.
Proof. reflexivity. Qed.

Lemma bind_null_test_input {C} L (k : unit -> eff (container * world) C) s :
  bind (Saving.null_test_input L) k s
  = k tt (Saving.test_input_nulled L (fst s), snd s).
Proof. unfold bind. by rewrite null_test_input_run. Qed.

Lemma model_test_input_nulled L c :
  _model (Saving.test_input_nulled L c) = _model c.
Proof. unfold Saving.test_input_nulled. by destruct (dict_contains _ _). Qed.

Lemma has_name_rev_app (s acc : string) :
  s <> "" -> Py.has_name s = false ->
  String.prefix "/" (String.rev_app s acc) = true.
Proof.
  revert acc. induction s as [|c s IH]; intros acc Hne Hname; [done|].
  simpl in Hname. apply orb_false_elim in Hname as [Hc Hname].
  apply negb_false_iff, bool_decide_eq_true in Hc as ->.
  destruct s as [|c' s']; [destruct acc; vm_compute; reflexivity|].
  change (String.rev_app (String Py.slash (String c' s')) acc)
    with (String.rev_app (String c' s') (String Py.slash acc)).
  by apply IH.
Qed.

Lemma has_name_plain (location : string) :
  Bundle.plain_location location -> Py.has_name location = true.
Proof.
  intros (Hne & Hslash & _).
  destruct (Py.has_name location) eqn:Hname; [done|].
  unfold Py.endswith in Hslash. change (String.rev "/") with "/" in Hslash.
  unfold String.rev in Hslash.
  by rewrite (has_name_rev_app location "" Hne Hname) in Hslash.
Qed.

Lemma make_parents_exist (ps : list string) (leaf : string)
    (fs : gmap string fnode) :
  Forall (fun p => fs !! p = Some Dir) ps ->
  Py.make_parents ps leaf fs = (Ok tt, fs).
Proof.
  induction 1 as [|p ps Hp _ IH]; simpl; [done|]. by rewrite Hp.
Qed.

Lemma make_fresh_dir_run location c w :
  files w !! location = None ->
  Bundle.plain_location location ->
  Bundle.parents_exist location (files w) ->
  exists w',
    Saving.make_fresh_dir location (c, w) = (Ok tt, (c, w'))
    /\ files w' = <[location := Dir]> (files w).
Proof.
  intros Hnone Hplain Hparents. eexists. split.
  - unfold Saving.make_fresh_dir, bind, Saving.in_world, Py.os_path_exists,
      Py.os_makedirs.
    cbn [fst snd files log_call py_assert].
    rewrite bool_decide_eq_false_2 by (rewrite Hnone; by intros [? ?]).
    cbn [negb py_assert ret].
    rewrite bool_decide_eq_false_2 by apply Hplain.
    rewrite (has_name_plain location Hplain). cbn [negb].
    rewrite (make_parents_exist _ _ _ Hparents), Hnone. reflexivity.
  - done.
Qed.

(** [os.makedirs] on examples: the missing parent is made, and stays
    when [save] removes the directory it wrote; a parent that is a file
    stops it; the empty path names nothing. *)
Lemma os_makedirs_parents :
  (let w := snd (Py.os_makedirs "a/b" PersistExamples.empty_world) in
   files w !! "a" = Some Dir /\ files w !! "a/b" = Some Dir)
  /\ (let w := snd (snd (ONNXSklearnContainer.save
                           PredictExamples.example_libraries "a/b"
                           (PersistExamples.with_test_input,
                            PersistExamples.empty_world))) in
      files w !! "a" = Some Dir /\ files w !! "a/b" = None
      /\ is_Some (files w !! "a/b.zip"))
  /\ fst (Py.os_makedirs "a/b" (World {[ "a" := TextFile "" ]} [] 4 4 ∅))
     = Raise (NotADirectoryError "a/b")
  /\ fst (Py.os_makedirs "" PersistExamples.empty_world)
     = Raise (FileNotFoundError "").
Proof.
  split; [by vm_compute|]. split; [|by vm_compute].
  split; [by vm_compute|]. split; [by vm_compute|].
  vm_compute. by eexists.
Qed.

Lemma zip_and_remove_run location c w :
  is_Some (files w !! location) ->
  exists w',
    Saving.zip_and_remove location (c, w) = (Ok tt, (c, w'))
    /\ files w'
       = Bundle.removed location
           (<[location +:+ ".zip"
              := ZipFile (Bundle.archive_members location (files w))]>
              (files w)).
Proof.
  intros Hsome.
  unfold Saving.zip_and_remove, bind, Saving.in_world,
    Py.shutil_make_archive, Py.shutil_rmtree. simpl.
  destruct (<[_ := _]> (files w) !! location) as [node|] eqn:Hlook.
  - eexists. split; [reflexivity|done].
  - apply eq_None_not_Some in Hlook. destruct Hlook.
    apply lookup_insert_is_Some'. by right.
Qed.

(** The steps of a [save] whose outcome does not depend on the files. *)
Ltac save_run :=
  repeat first
    [ rewrite bind_assoc
    | rewrite bind_this | rewrite bind_assign | rewrite bind_write
    | rewrite bind_assert_true | rewrite bind_lift_Ok
    | rewrite bind_null_test_input ];
  cbv beta zeta; cbn [fst snd].

Section SaveRuns.
Variable L : libraries.
Variable location : string.
Variable self : container.
Variable w : world.
Hypothesis Hmodel : is_none (_model self) = false.
Hypothesis Hfresh : files w !! location = None.
Hypothesis Hplain : Bundle.plain_location location.
Hypothesis Hparents : Bundle.parents_exist location (files w).

Lemma onnx_save_run :
  exists w',
    ONNXSklearnContainer.save L location (self, w)
    = (Ok tt, (Saving.test_input_nulled L self, w'))
    /\ files w' = Bundle.archived location (Bundle.onnx_entries L self) (files w).
Proof.
  unfold ONNXSklearnContainer.save.
  rewrite bind_this. cbv beta. cbn [fst snd]. rewrite Hmodel. simpl negb.
  save_run.
  destruct (make_fresh_dir_run location (Saving.test_input_nulled L self) w
              Hfresh Hplain Hparents) as (w1 & Hrun1 & Hfiles1).
  rewrite (bind_run _ _ _ _ _ Hrun1).
  repeat save_run.
  match goal with
  | |- context [bind (Saving.zip_and_remove location) _ (?c, ?w6)] =>
      destruct (zip_and_remove_run location c w6) as (w7 & Hrun7 & Hfiles7)
  end.
  { cbn [files set_files log_call].
    repeat (apply lookup_insert_is_Some'; right).
    rewrite Hfiles1, lookup_insert_eq. by eexists. }
  rewrite (bind_run _ _ _ _ _ Hrun7). repeat save_run.
  exists w7. split.
  - unfold Saving.assign. cbn [fst snd]. rewrite with_session_restore.
    reflexivity.
  - rewrite Hfiles7. cbn [files set_files log_call]. rewrite Hfiles1.
    by rewrite model_test_input_nulled.
Qed.

Lemma pytorch_save_run_jit :
  Py.contains "torch.jit" (Py.str_type (_model self)) = true ->
  exists w',
    PyTorchSklearnContainer.save L location (self, w)
    = (Ok tt, (Saving.test_input_nulled L self, w'))
    /\ files w'
       = Bundle.archived location (Bundle.torch_jit_entries L self) (files w).
Proof.
  intros Hjit. unfold PyTorchSklearnContainer.save.
  rewrite bind_this. cbv beta. cbn [fst snd]. rewrite Hmodel. simpl negb.
  save_run.
  destruct (make_fresh_dir_run location (Saving.test_input_nulled L self) w
              Hfresh Hplain Hparents) as (w1 & Hrun1 & Hfiles1).
  rewrite (bind_run _ _ _ _ _ Hrun1).
  save_run. rewrite <- (model_test_input_nulled L self) in Hjit.
  rewrite Hjit.
  repeat save_run.
  match goal with
  | |- context [Saving.zip_and_remove location (?c, ?w6)] =>
      destruct (zip_and_remove_run location c w6) as (w7 & Hrun7 & Hfiles7)
  end.
  { cbn [files set_files log_call].
    repeat (apply lookup_insert_is_Some'; right).
    rewrite Hfiles1, lookup_insert_eq. by eexists. }
  exists w7. split.
  - rewrite Hrun7. by rewrite with_model_restore.
  - rewrite Hfiles7. cbn [files set_files log_call]. rewrite Hfiles1.
    by rewrite model_test_input_nulled.
Qed.

Lemma pytorch_save_run_backend :
  Py.contains "torch.jit" (Py.str_type (_model self)) = false ->
  Py.contains "PyTorchBackendModel" (Py.str_type (_model self)) = true ->
  exists w',
    PyTorchSklearnContainer.save L location (self, w)
    = (Ok tt, (Saving.test_input_nulled L self, w'))
    /\ files w'
       = Bundle.archived location (Bundle.torch_entries L self) (files w).
Proof.
  intros Hjit Hbackend. unfold PyTorchSklearnContainer.save.
  rewrite bind_this. cbv beta. cbn [fst snd]. rewrite Hmodel. simpl negb.
  save_run.
  destruct (make_fresh_dir_run location (Saving.test_input_nulled L self) w
              Hfresh Hplain Hparents) as (w1 & Hrun1 & Hfiles1).
  rewrite (bind_run _ _ _ _ _ Hrun1).
  save_run. rewrite <- (model_test_input_nulled L self) in Hjit, Hbackend.
  rewrite Hjit, Hbackend.
  repeat save_run.
  match goal with
  | |- context [Saving.zip_and_remove location (?c, ?w6)] =>
      destruct (zip_and_remove_run location c w6) as (w7 & Hrun7 & Hfiles7)
  end.
  { cbn [files set_files log_call].
    repeat (apply lookup_insert_is_Some'; right).
    rewrite Hfiles1, lookup_insert_eq. by eexists. }
  exists w7. split.
  - by rewrite Hrun7.
  - rewrite Hfiles7. cbn [files set_files log_call]. by rewrite Hfiles1.
Qed.

End SaveRuns.

Lemma bind_config {C} key v (k : pyobj -> eff (container * world) C) c w :
  _extra_config c !! key = Some v ->
  bind (TVMSklearnContainer.config key) k (c, w) = k v (c, w).
Proof.
  intros H. unfold TVMSklearnContainer.config, bind, Saving.this, lift,
    dict_getitem. cbn [fst snd]. by rewrite H.
Qed.

Lemma config_test_input_nulled L c key :
  key <> TEST_INPUT (constants L) ->
  _extra_config (Saving.test_input_nulled L c) !! key = _extra_config c !! key.
Proof.
  intros Hne. unfold Saving.test_input_nulled.
  destruct (dict_contains _ _); [|done]. simpl. by rewrite lookup_insert_ne.
Qed.

Lemma ctx_test_input_nulled L c :
  _ctx (Saving.test_input_nulled L c) = _ctx c.
Proof. unfold Saving.test_input_nulled. by destruct (dict_contains _ _). Qed.

Section TvmSaveRun.
Variable L : libraries.
Variable location : string.
Variable self : container.
Variable w : world.
Variables lib params ctx : pyobj.
Variable graph : string.
Variable device_type : Z.
Hypothesis Hmodel : is_none (_model self) = false.
Hypothesis Hfresh : files w !! location = None.
Hypothesis Hplain : Bundle.plain_location location.
Hypothesis Hparents : Bundle.parents_exist location (files w).
Hypothesis Hlib : _extra_config self !! TVM_LIB (constants L) = Some lib.
Hypothesis Hexport : is_none lib = false.
Hypothesis Hgraph :
  _extra_config self !! TVM_GRAPH (constants L) = Some (PyStr graph).
Hypothesis Hparams :
  _extra_config self !! TVM_PARAMS (constants L) = Some params.
Hypothesis Hctx : _extra_config self !! TVM_CONTEXT (constants L) = Some ctx.
Hypothesis Hdevice : _ctx self = PyTvmContext device_type.
Hypothesis Hkeys :
  Forall (fun key => key <> TEST_INPUT (constants L))
    [TVM_LIB (constants L); TVM_GRAPH (constants L);
     TVM_PARAMS (constants L); TVM_CONTEXT (constants L)].

Lemma tvm_save_run :
  exists w',
    TVMSklearnContainer.save L location (self, w)
    = (Ok tt, (with_ctx ctx (Saving.test_input_nulled L self), w'))
    /\ files w'
       = Bundle.archived location
           (Bundle.tvm_entries L self lib graph params device_type) (files w).
Proof.
  apply Forall_cons in Hkeys as [Hk1 Hkeys1].
  apply Forall_cons in Hkeys1 as [Hk2 Hkeys2].
  apply Forall_cons in Hkeys2 as [Hk3 Hkeys3].
  apply Forall_cons in Hkeys3 as [Hk4 _].
  pose proof (config_test_input_nulled L self _ Hk1) as Hlib'.
  pose proof (config_test_input_nulled L self _ Hk2) as Hgraph'.
  pose proof (config_test_input_nulled L self _ Hk3) as Hparams'.
  pose proof (config_test_input_nulled L self _ Hk4) as Hctx'.
  rewrite Hlib in Hlib'. rewrite Hgraph in Hgraph'.
  rewrite Hparams in Hparams'. rewrite Hctx in Hctx'.
  assert (TVMSklearnContainer.exportable lib = Ok lib) as Hexp.
  { by destruct lib. }
  unfold TVMSklearnContainer.save.
  rewrite bind_this. cbv beta. cbn [fst snd]. rewrite Hmodel. simpl negb.
  save_run.
  destruct (make_fresh_dir_run location self w Hfresh Hplain Hparents)
    as (w1 & Hrun1 & Hfiles1).
  rewrite (bind_run _ _ _ _ _ Hrun1).
  save_run.
  rewrite (bind_config _ _ _ _ _ Hlib). rewrite Hexp. save_run.
  rewrite (bind_config _ _ _ _ _ Hgraph). cbn [TVMSklearnContainer.text_of].
  save_run.
  rewrite (bind_config _ _ _ _ _ Hparams). save_run.
  rewrite (bind_config _ _ _ _ _ Hlib').
  rewrite (bind_config _ _ _ _ _ Hgraph').
  rewrite (bind_config _ _ _ _ _ Hparams').
  rewrite (bind_config _ _ _ _ _ Hctx').
  save_run.
  rewrite ctx_test_input_nulled, Hdevice.
  cbn [TVMSklearnContainer.ctx_device_type]. save_run.
  match goal with
  | |- context [bind (Saving.zip_and_remove location) _ (?c, ?w6)] =>
      destruct (zip_and_remove_run location c w6) as (w7 & Hrun7 & Hfiles7)
  end.
  { cbn [files set_files log_call].
    repeat (apply lookup_insert_is_Some'; right).
    rewrite Hfiles1, lookup_insert_eq. by eexists. }
  rewrite (bind_run _ _ _ _ _ Hrun7). save_run.
  exists w7. split.
  - unfold Saving.assign. cbn [fst snd].
    rewrite model_test_input_nulled.
    rewrite <- (model_test_input_nulled L self) at 1.
    by rewrite (tvm_restore _ _ _ _ _ _ _ _ _ _ Hlib' Hgraph' Hparams' Hctx').
  - rewrite Hfiles7. cbn [files set_files log_call]. rewrite Hfiles1.
    by rewrite !insert_insert_eq.
Qed.

End TvmSaveRun.

(** ** Runs of [load] that return *)

Lemma open_read_run path node w :
  files w !! path = Some node ->
  Py.open_read path w = (Ok node, log_call (OpenRead path) w).
Proof. intros H. unfold Py.open_read. simpl. by rewrite H. Qed.

Lemma unzip_run location members w :
  Py.endswith location "zip" = false ->
  files w !! (location +:+ ".zip") = Some (ZipFile members) ->
  exists w',
    Loading.unzip location w = (Ok location, w')
    /\ files w' = Bundle.directory location members (files w).
Proof.
  intros Hends Hzip. unfold Loading.unzip. rewrite Hends. simpl.
  unfold bind, ret, Py.shutil_unpack_archive, Py.os_path_exists. simpl.
  rewrite Hzip. simpl.
  rewrite bool_decide_eq_true_2 by apply directory_lookup_location.
  simpl. by eexists.
Qed.

Lemma read_model_type_run L dir content w :
  files w !! Py.os_path_join dir (SAVE_LOAD_MODEL_TYPE_PATH (constants L))
  = Some (TextFile content) ->
  exists w',
    Loading.read_model_type L dir w = (Ok (Py.readline content), w')
    /\ files w' = files w.
Proof.
  intros H. unfold Loading.read_model_type.
  rewrite (bind_run _ _ _ _ _ (open_read_run _ _ _ H)). by eexists.
Qed.

Lemma read_object_run path o w :
  files w !! path = Some (ObjectFile o) ->
  exists w', Loading.read_object path w = (Ok o, w') /\ files w' = files w.
Proof.
  intros H. unfold Loading.read_object.
  rewrite (bind_run _ _ _ _ _ (open_read_run _ _ _ H)). by eexists.
Qed.

Lemma read_container_run path c w :
  files w !! path = Some (PickleFile c) ->
  exists w', Loading.read_container path w = (Ok c, w') /\ files w' = files w.
Proof.
  intros H. unfold Loading.read_container.
  rewrite (bind_run _ _ _ _ _ (open_read_run _ _ _ H)). by eexists.
Qed.

Lemma bind_ret {S A C} (a : A) (k : A -> eff S C) (s : S) :
  bind (ret a) k s = k a s.
Proof. reflexivity. Qed.

Section LoadRuns.
Variable L : libraries.
Variable location : string.
Variable w : world.

Lemma onnx_load_archive members model c :
  Py.endswith location "zip" = false ->
  files w !! (location +:+ ".zip") = Some (ZipFile members) ->
  Bundle.directory location members (files w)
    !! Py.os_path_join location (SAVE_LOAD_MODEL_TYPE_PATH (constants L))
  = Some (TextFile "onnx") ->
  Bundle.directory location members (files w)
    !! Py.os_path_join location (SAVE_LOAD_ONNX_PATH (constants L))
  = Some (ObjectFile model) ->
  Bundle.directory location members (files w)
    !! Py.os_path_join location (SAVE_LOAD_CONTAINER_PATH (constants L))
  = Some (PickleFile c) ->
  exists w',
    ONNXSklearnContainer.load L location true w
    = (Ok (with_session
             (ONNXSklearnContainer.inference_session model (_n_threads c))
             (with_model model c)), w')
    /\ files w' = Bundle.directory location members (files w).
Proof.
  intros Hends Hzip Htype Hmodel Hcontainer.
  unfold ONNXSklearnContainer.load. rewrite !bind_assoc.
  destruct (unzip_run _ _ _ Hends Hzip) as (w1 & Hrun1 & Hfiles1).
  rewrite (bind_run _ _ _ _ _ Hrun1). rewrite bind_assoc.
  rewrite <- Hfiles1 in Htype, Hmodel, Hcontainer.
  destruct (read_model_type_run _ _ _ _ Htype) as (w2 & Hrun2 & Hfiles2).
  rewrite (bind_run _ _ _ _ _ Hrun2). rewrite bind_assoc.
  change (Py.readline "onnx") with "onnx".
  rewrite bool_decide_eq_true_2 by done.
  rewrite bind_assert_true, bind_ret.
  rewrite <- Hfiles2 in Hmodel, Hcontainer.
  destruct (read_object_run _ _ _ Hmodel) as (w3 & Hrun3 & Hfiles3).
  rewrite (bind_run _ _ _ _ _ Hrun3).
  rewrite <- Hfiles3 in Hcontainer.
  destruct (read_container_run _ _ _ Hcontainer) as (w4 & Hrun4 & Hfiles4).
  rewrite (bind_run _ _ _ _ _ Hrun4).
  exists w4. split; [by destruct c|congruence].
Qed.

Lemma pytorch_load_archive_jit members model c :
  Py.endswith location "zip" = false ->
  files w !! (location +:+ ".zip") = Some (ZipFile members) ->
  Bundle.directory location members (files w)
    !! Py.os_path_join location (SAVE_LOAD_MODEL_TYPE_PATH (constants L))
  = Some (TextFile "torch.jit") ->
  Bundle.directory location members (files w)
    !! Py.os_path_join location (SAVE_LOAD_TORCH_JIT_PATH (constants L))
  = Some (ObjectFile model) ->
  Bundle.directory location members (files w)
    !! Py.os_path_join location "container.pkl"
  = Some (PickleFile c) ->
  exists w',
    PyTorchSklearnContainer.load L location true w
    = (Ok (with_model model c), w')
    /\ files w' = Bundle.directory location members (files w).
Proof.
  intros Hends Hzip Htype Hmodel Hcontainer.
  unfold PyTorchSklearnContainer.load.
  destruct (unzip_run _ _ _ Hends Hzip) as (w1 & Hrun1 & Hfiles1).
  rewrite (bind_run _ _ _ _ _ Hrun1).
  rewrite <- Hfiles1 in Htype, Hmodel, Hcontainer.
  destruct (read_model_type_run _ _ _ _ Htype) as (w2 & Hrun2 & Hfiles2).
  rewrite (bind_run _ _ _ _ _ Hrun2).
  change (Py.readline "torch.jit") with "torch.jit".
  rewrite bool_decide_eq_true_2 by done. rewrite !bind_assoc.
  rewrite <- Hfiles2 in Hmodel, Hcontainer.
  destruct (read_object_run _ _ _ Hmodel) as (w3 & Hrun3 & Hfiles3).
  rewrite (bind_run _ _ _ _ _ Hrun3). rewrite bind_assoc.
  rewrite <- Hfiles3 in Hcontainer.
  destruct (read_container_run _ _ _ Hcontainer) as (w4 & Hrun4 & Hfiles4).
  rewrite (bind_run _ _ _ _ _ Hrun4). rewrite bind_ret.
  destruct (_n_threads (with_model model c)) as [n|].
  - eexists. split; [reflexivity|]. simpl. congruence.
  - eexists. split; [reflexivity|]. simpl. congruence.
Qed.

Lemma pytorch_load_archive_backend members c :
  Py.endswith location "zip" = false ->
  files w !! (location +:+ ".zip") = Some (ZipFile members) ->
  Bundle.directory location members (files w)
    !! Py.os_path_join location (SAVE_LOAD_MODEL_TYPE_PATH (constants L))
  = Some (TextFile "torch") ->
  Bundle.directory location members (files w)
    !! Py.os_path_join location (SAVE_LOAD_TORCH_JIT_PATH (constants L))
  = Some (PickleFile c) ->
  exists w',
    PyTorchSklearnContainer.load L location true w = (Ok c, w')
    /\ files w' = Bundle.directory location members (files w).
Proof.
  intros Hends Hzip Htype Hcontainer.
  unfold PyTorchSklearnContainer.load.
  destruct (unzip_run _ _ _ Hends Hzip) as (w1 & Hrun1 & Hfiles1).
  rewrite (bind_run _ _ _ _ _ Hrun1).
  rewrite <- Hfiles1 in Htype, Hcontainer.
  destruct (read_model_type_run _ _ _ _ Htype) as (w2 & Hrun2 & Hfiles2).
  rewrite (bind_run _ _ _ _ _ Hrun2).
  change (Py.readline "torch") with "torch".
  rewrite bool_decide_eq_false_2 by done.
  rewrite bool_decide_eq_true_2 by done.
  rewrite <- Hfiles2 in Hcontainer.
  destruct (read_container_run _ _ _ Hcontainer) as (w4 & Hrun4 & Hfiles4).
  rewrite (bind_run _ _ _ _ _ Hrun4).
  destruct (_n_threads c) as [n|].
  - eexists. split; [reflexivity|]. simpl. congruence.
  - eexists. split; [reflexivity|]. simpl. congruence.
Qed.

Lemma tvm_load_archive members graph lib params c :
  Py.endswith location "zip" = false ->
  files w !! (location +:+ ".zip") = Some (ZipFile members) ->
  Bundle.directory location members (files w)
    !! Py.os_path_join location (SAVE_LOAD_MODEL_TYPE_PATH (constants L))
  = Some (TextFile "tvm") ->
  Bundle.directory location members (files w)
    !! Py.os_path_join location (SAVE_LOAD_TVM_GRAPH_PATH (constants L))
  = Some (TextFile graph) ->
  Bundle.directory location members (files w)
    !! Py.os_path_join location (SAVE_LOAD_TVM_LIB_PATH (constants L))
  = Some (ObjectFile lib) ->
  Bundle.directory location members (files w)
    !! Py.os_path_join location (SAVE_LOAD_TVM_PARAMS_PATH (constants L))
  = Some (ObjectFile params) ->
  Bundle.directory location members (files w)
    !! Py.os_path_join location (SAVE_LOAD_CONTAINER_PATH (constants L))
  = Some (PickleFile c) ->
  let ctx := if eq_str (_ctx c) "cpu" then TVMSklearnContainer.tvm_cpu
             else TVMSklearnContainer.tvm_gpu_function in
  exists w',
    TVMSklearnContainer.load L location true w
    = (Ok (with_ctx ctx
             (with_config (TVM_CONTEXT (constants L)) ctx
                (with_config (TVM_PARAMS (constants L)) params
                   (with_config (TVM_LIB (constants L)) lib
                      (with_config (TVM_GRAPH (constants L)) (PyStr graph)
                         (with_model (PyGraphModule (PyStr graph) lib ctx params)
                            c)))))), w')
    /\ files w' = Bundle.directory location members (files w).
Proof.
  intros Hends Hzip Htype Hgraph Hlib Hparams Hcontainer ctx.
  unfold TVMSklearnContainer.load. rewrite !bind_assoc.
  destruct (unzip_run _ _ _ Hends Hzip) as (w1 & Hrun1 & Hfiles1).
  rewrite (bind_run _ _ _ _ _ Hrun1). rewrite bind_assoc.
  rewrite <- Hfiles1 in Htype, Hgraph, Hlib, Hparams, Hcontainer.
  destruct (read_model_type_run _ _ _ _ Htype) as (w2 & Hrun2 & Hfiles2).
  rewrite (bind_run _ _ _ _ _ Hrun2). rewrite bind_assoc.
  change (Py.readline "tvm") with "tvm".
  rewrite bool_decide_eq_true_2 by done.
  rewrite bind_assert_true, bind_ret. cbv zeta.
  rewrite <- Hfiles2 in Hgraph, Hlib, Hparams, Hcontainer.
  rewrite (bind_run _ _ _ _ _ (open_read_run _ _ _ Hgraph)).
  cbn [Py.as_text]. rewrite bind_lift_Ok.
  assert (files (log_call (OpenRead (Py.os_path_join location
            (SAVE_LOAD_TVM_GRAPH_PATH (constants L)))) w2) = files w2)
    as Hfiles2' by done.
  rewrite <- Hfiles2' in Hlib, Hparams, Hcontainer.
  destruct (read_object_run _ _ _ Hlib) as (w3 & Hrun3 & Hfiles3).
  rewrite (bind_run _ _ _ _ _ Hrun3).
  rewrite <- Hfiles3 in Hparams, Hcontainer.
  destruct (read_object_run _ _ _ Hparams) as (w4 & Hrun4 & Hfiles4).
  rewrite (bind_run _ _ _ _ _ Hrun4).
  rewrite <- Hfiles4 in Hcontainer.
  destruct (read_container_run _ _ _ Hcontainer) as (w5 & Hrun5 & Hfiles5).
  rewrite (bind_run _ _ _ _ _ Hrun5).
  eexists. split; [reflexivity|]. simpl. congruence.
Qed.

End LoadRuns.

(** ** [load] after [save] *)

Lemma session_rebuilt L (self : container) :
  with_session
    (ONNXSklearnContainer.inference_session (_model self)
       (_n_threads (with_session PyNone
                      (with_model PyNone (Saving.test_input_nulled L self)))))
    (with_model (_model self)
       (with_session PyNone
          (with_model PyNone (Saving.test_input_nulled L self))))
  = with_session
      (ONNXSklearnContainer.inference_session (_model self) (_n_threads self))
      (Saving.test_input_nulled L self).
Proof.
  unfold Saving.test_input_nulled.
  destruct (dict_contains _ _); by destruct self.
Qed.

(** An entry of a list given by its elements. *)
Ltac entry :=
  first [ by apply elem_of_cons; left
        | apply elem_of_cons; right; entry ].

Lemma config_reload (m : gmap string pyobj) (kl kg kp kc : string)
    (lib graph params ctx : pyobj) :
  m !! kl = Some lib -> m !! kg = Some graph ->
  m !! kp = Some params -> m !! kc = Some ctx ->
  <[kc := ctx]> (<[kp := params]> (<[kl := lib]> (<[kg := graph]>
    (<[kc := PyNone]> (<[kp := PyNone]> (<[kg := PyNone]>
      (<[kl := PyNone]> m))))))) = m.
Proof.
  intros Hl Hg Hp Hc. apply map_eq. intros j.
  rewrite !lookup_insert. repeat case_decide; subst; congruence.
Qed.

Lemma tvm_reload (c : container) (kl kg kp kc : string)
    (lib graph params ctx device model : pyobj) :
  _extra_config c !! kl = Some lib ->
  _extra_config c !! kg = Some graph ->
  _extra_config c !! kp = Some params ->
  _extra_config c !! kc = Some ctx ->
  _ctx c = ctx ->
  with_ctx ctx
    (with_config kc ctx (with_config kp params
       (with_config kl lib (with_config kg graph
          (with_model model
             (with_model PyNone (with_ctx device
                (with_config kc PyNone (with_config kp PyNone
                   (with_config kg PyNone
                      (with_config kl PyNone c)))))))))))
  = with_model model c.
Proof.
  destruct c as [model0 threads0 batch0 config0 reg0 anom0 session0 outs0
                 ins0 ctx0].
  cbv beta iota delta
    [with_model with_ctx with_config
     _model _n_threads _batch_size _extra_config _is_regression
     _is_anomaly_detection _session _output_names _input_names _ctx].
  intros Hl Hg Hp Hc <-. f_equal. by apply config_reload.
Qed.

Section RoundTrip.
Variable L : libraries.
Variable location : string.
Variable self : container.
Variable w : world.




End RoundTrip.

(** *** Saving to ["model"] in the world without files *)

Lemma model_plain_location : Bundle.plain_location "model".
Proof. by split; [|split]. Qed.

Lemma empty_world_vacant :
  Bundle.vacant "model" (files PersistExamples.empty_world).
Proof. split; [done|]. intros path _. apply lookup_empty. Qed.

Lemma model_parents_exist :
  Bundle.parents_exist "model" (files PersistExamples.empty_world).
Proof. apply Forall_nil_2. Qed.

Lemma onnx_entries_names :
  NoDup (Bundle.onnx_entries PredictExamples.example_libraries
           PersistExamples.with_test_input).*1
  /\ Forall Bundle.relative_name
       (Bundle.onnx_entries PredictExamples.example_libraries
          PersistExamples.with_test_input).*1.
Proof.
  split; [|by repeat constructor].
  apply (bool_decide_unpack _). by vm_compute.
Qed.

Lemma torch_jit_entries_names :
  NoDup (Bundle.torch_jit_entries PredictExamples.example_libraries
           PredictExamples.anomaly_detector).*1
  /\ Forall Bundle.relative_name
       (Bundle.torch_jit_entries PredictExamples.example_libraries
          PredictExamples.anomaly_detector).*1.
Proof.
  split; [|by repeat constructor].
  apply (bool_decide_unpack _). by vm_compute.
Qed.

Lemma tvm_entries_names :
  NoDup (Bundle.tvm_entries PredictExamples.example_libraries
           PersistExamples.tvm_container
           (PyObject "<class 'tvm.runtime.module.Module'>" 5) "{}"
           (PyObject "<class 'dict'>" 6) 1).*1
  /\ Forall Bundle.relative_name
       (Bundle.tvm_entries PredictExamples.example_libraries
          PersistExamples.tvm_container
          (PyObject "<class 'tvm.runtime.module.Module'>" 5) "{}"
          (PyObject "<class 'dict'>" 6) 1).*1.
Proof.
  split; [|by repeat constructor].
  apply (bool_decide_unpack _). by vm_compute.
Qed.

Lemma tvm_container_saveable :
  Bundle.tvm_saveable PredictExamples.example_libraries
    PersistExamples.tvm_container
    (PyObject "<class 'tvm.runtime.module.Module'>" 5) "{}"
    (PyObject "<class 'dict'>" 6) TVMSklearnContainer.tvm_cpu 1.
Proof.
  repeat split; try (vm_compute; reflexivity).
  by repeat constructor.
Qed.




(** ** What [save] leaves on the file system *)

Section SaveArchive.
Variable L : libraries.
Variable location : string.
Variable self : container.
Variable w : world.


(** X17.  What a refused [save] has done.  Called without a model,
    [save] of each backend leaves the container and the world as they
    were.  Called with a model on a location that exists, it has made
    the one test [os.path.exists(location)], and the PyTorch and ONNX
    containers have their test input set to [None] already, while the
    TVM container is unchanged. *)
Theorem refused_save_container :
  (is_none (_model self) = true ->
   snd (PyTorchSklearnContainer.save L location (self, w)) = (self, w)
   /\ snd (ONNXSklearnContainer.save L location (self, w)) = (self, w)
   /\ snd (TVMSklearnContainer.save L location (self, w)) = (self, w))
  /\ (is_none (_model self) = false ->
      is_Some (files w !! location) ->
      snd (PyTorchSklearnContainer.save L location (self, w))
      = (Saving.test_input_nulled L self, log_call (OsPathExists location) w)
      /\ snd (ONNXSklearnContainer.save L location (self, w))
         = (Saving.test_input_nulled L self,
            log_call (OsPathExists location) w)
      /\ snd (TVMSklearnContainer.save L location (self, w))
         = (self, log_call (OsPathExists location) w)).
Proof.
  split.
  - intros Hnone.
    unfold PyTorchSklearnContainer.save, ONNXSklearnContainer.save,
      TVMSklearnContainer.save.
    rewrite !bind_this. cbv beta. cbn [fst snd]. by rewrite Hnone.
  - intros Hmodel Hex.
    unfold PyTorchSklearnContainer.save, ONNXSklearnContainer.save,
      TVMSklearnContainer.save.
    rewrite !bind_this. cbv beta. cbn [fst snd]. rewrite Hmodel. simpl negb.
    rewrite !bind_assert_true, !bind_null_test_input. cbn [fst snd].
    unfold bind.
    by rewrite !(make_fresh_dir_exists location w) by done.
Qed.

End SaveArchive.


Lemma refused_save_container_witness :
  snd (ONNXSklearnContainer.save PredictExamples.example_libraries "model"
         (PersistExamples.with_test_input, MoreExamples.occupied_world))
  = (Saving.test_input_nulled PredictExamples.example_libraries
       PersistExamples.with_test_input,
     log_call (OsPathExists "model") MoreExamples.occupied_world).
Proof.
  assert (is_Some (files MoreExamples.occupied_world !! "model")) as Hex
    by (by eexists).
  exact (proj1 (proj2 (proj2 (refused_save_container
                                PredictExamples.example_libraries "model"
                                PersistExamples.with_test_input
                                MoreExamples.occupied_world)
                         eq_refl Hex))).
Defined.

(** ** [load]: the archive, the model type and the threads *)

Lemma files_only_ret {A} (a : A) : Bundle.files_only (ret a).
Proof. by intros w. Qed.

Lemma files_only_raise {A} (e : exn) : Bundle.files_only (@raise world A e).
Proof. by intros w. Qed.

Lemma files_only_lift {A} (r : result A) : Bundle.files_only (lift r).
Proof. by intros w. Qed.

Lemma files_only_py_assert cond msg : Bundle.files_only (py_assert cond msg).
Proof. by destruct cond. Qed.

Lemma files_only_bind {A C} (m : eff world A) (k : A -> eff world C) :
  Bundle.files_only m -> (forall a, Bundle.files_only (k a)) ->
  Bundle.files_only (bind m k).
Proof.
  intros Hm Hk w. unfold bind. pose proof (Hm w) as (H1 & H2 & H3).
  destruct (m w) as [[a|e] w1]; simpl in *; [|done].
  destruct (Hk a w1) as (H4 & H5 & H6).
  split; [|split]; congruence.
Qed.

Lemma files_only_os_path_exists path :
  Bundle.files_only (Py.os_path_exists path).
Proof. by intros w. Qed.

Lemma files_only_open_read path : Bundle.files_only (Py.open_read path).
Proof.
  intros w. unfold Py.open_read. simpl. by destruct (files w !! path).
Qed.

Lemma files_only_unpack_archive filename extract_dir :
  Bundle.files_only (Py.shutil_unpack_archive filename extract_dir).
Proof.
  intros w. unfold Py.shutil_unpack_archive. simpl.
  by destruct (files w !! filename) as [[| | | |members]|].
Qed.

(** The goals [files_only m] for the code the [load] methods share. *)
Ltac files_only_step :=
  repeat first
    [ apply files_only_ret | apply files_only_raise | apply files_only_lift
    | apply files_only_py_assert | apply files_only_os_path_exists
    | apply files_only_open_read | apply files_only_unpack_archive
    | apply files_only_bind; [|intros ?]
    | match goal with
      | |- Bundle.files_only (if ?b then _ else _) => destruct b
      end ].

Lemma files_only_unzip location : Bundle.files_only (Loading.unzip location).
Proof. unfold Loading.unzip. files_only_step. Qed.

Lemma files_only_read_model_type L dir :
  Bundle.files_only (Loading.read_model_type L dir).
Proof. unfold Loading.read_model_type. files_only_step. Qed.

Lemma files_only_read_object path :
  Bundle.files_only (Loading.read_object path).
Proof. unfold Loading.read_object. files_only_step. Qed.

Lemma files_only_read_container path :
  Bundle.files_only (Loading.read_container path).
Proof. unfold Loading.read_container. files_only_step. Qed.

(** The goals [files_only m] for the code of the [load] methods. *)
Ltac files_only :=
  repeat first
    [ apply files_only_unzip | apply files_only_read_model_type
    | apply files_only_read_object | apply files_only_read_container
    | progress files_only_step ].

Lemma files_only_inv {A} (m : eff world A) w a w' :
  Bundle.files_only m -> m w = (Ok a, w') -> Bundle.same_process w w'.
Proof. intros Hm Hrun. specialize (Hm w). by rewrite Hrun in Hm. Qed.

(** One statement of a [load] taken off a returning run [H]: the state
    [w1] it leaves has the thread settings and the environment of [w0]. *)
Ltac load_step H Hsame :=
  let a := fresh "a" in
  let w1 := fresh "w" in
  let H1 := fresh "Hstep" in
  apply bind_Ok_inv in H as (a & w1 & H1 & H);
  apply files_only_inv in H1; [|files_only];
  pose proof (conj (eq_trans (proj1 H1) (proj1 Hsame))
                (conj (eq_trans (proj1 (proj2 H1)) (proj1 (proj2 Hsame)))
                   (eq_trans (proj2 (proj2 H1)) (proj2 (proj2 Hsame)))))
    as Hsame';
  clear Hsame H1; rename Hsame' into Hsame.

Section LoadFacts.
Variable L : libraries.
Variable location : string.
Variable w : world.

(** X18.  The thread settings after a [load] that returns.  PyTorch:
    when the container has [_n_threads], torch runs with that many
    threads and one inter-op thread, else the settings of torch are
    unchanged; the environment is unchanged.  ONNX: the settings and
    the environment are unchanged and [_session] is a session made
    from the model and [_n_threads] of the container.  TVM:
    [TVM_NUM_THREADS] is [str(_n_threads)] in the environment, nothing
    else has changed there or in torch. *)
Theorem load_thread_settings (do_unzip_and_model_type_check : bool)
    (c : container) (w' : world) :
  (PyTorchSklearnContainer.load L location do_unzip_and_model_type_check w
   = (Ok c, w') ->
   environ w' = environ w
   /\ match _n_threads c with
      | Some n => torch_num_threads w' = n /\ torch_num_interop_threads w' = 1%Z
      | None => torch_num_threads w' = torch_num_threads w
                /\ torch_num_interop_threads w'
                   = torch_num_interop_threads w
      end)
  /\ (ONNXSklearnContainer.load L location do_unzip_and_model_type_check w
      = (Ok c, w') ->
      Bundle.same_process w w'
      /\ _session c
         = ONNXSklearnContainer.inference_session (_model c) (_n_threads c))
  /\ (TVMSklearnContainer.load L location do_unzip_and_model_type_check w
      = (Ok c, w') ->
      environ w'
      = <["TVM_NUM_THREADS" := Py.str_threads (_n_threads c)]> (environ w)
      /\ torch_num_threads w' = torch_num_threads w
      /\ torch_num_interop_threads w' = torch_num_interop_threads w).
Proof.
  assert (Bundle.same_process w w) as Hsame by done.
  split; [|split]; intros H.
  - unfold PyTorchSklearnContainer.load in H.
    do 3 load_step H Hsame.
    destruct Hsame as (Hinterop & Hthreads & Henv).
    destruct (_n_threads a1) as [n|] eqn:Hn.
    + injection H as <- <-. rewrite Hn. simpl.
      split; [done|]. split; [done|]. case_bool_decide; [done|lia].
    + injection H as <- <-. by rewrite Hn.
  - unfold ONNXSklearnContainer.load in H.
    do 3 load_step H Hsame.
    injection H as <- <-. by destruct a1.
  - unfold TVMSklearnContainer.load in H.
    do 6 load_step H Hsame.
    destruct Hsame as (Hinterop & Hthreads & Henv).
    injection H as <- <-. simpl. by rewrite Henv.
Qed.

Lemma unzip_no_archive :
  Py.endswith location "zip" = false ->
  (forall members,
     files w !! (location +:+ ".zip") <> Some (ZipFile members)) ->
  Loading.unzip location w
  = (Raise (ReadError (location +:+ ".zip")),
     log_call (UnpackArchive (location +:+ ".zip") location) w).
Proof.
  intros Hends Hzip. unfold Loading.unzip. rewrite Hends. simpl.
  unfold bind, ret, Py.shutil_unpack_archive. simpl.
  destruct (files w !! (location +:+ ".zip")) as [[| | | |members]|] eqn:Hlook;
    try done.
  by destruct (Hzip members).
Qed.

(** X19.  [load(location)] where [location + ".zip"] is no zip archive
    (for a location that does not end in [zip]): each backend raises
    [ReadError] from [shutil.unpack_archive], the one call made on the
    file system, and no file has changed. *)
Theorem load_without_archive :
  Py.endswith location "zip" = false ->
  (forall members,
     files w !! (location +:+ ".zip") <> Some (ZipFile members)) ->
  PyTorchSklearnContainer.load L location true w
  = (Raise (ReadError (location +:+ ".zip")),
     log_call (UnpackArchive (location +:+ ".zip") location) w)
  /\ ONNXSklearnContainer.load L location true w
     = (Raise (ReadError (location +:+ ".zip")),
        log_call (UnpackArchive (location +:+ ".zip") location) w)
  /\ TVMSklearnContainer.load L location true w
     = (Raise (ReadError (location +:+ ".zip")),
        log_call (UnpackArchive (location +:+ ".zip") location) w).
Proof.
  intros Hends Hzip. pose proof (unzip_no_archive Hends Hzip) as Hrun.
  unfold PyTorchSklearnContainer.load, ONNXSklearnContainer.load,
    TVMSklearnContainer.load.
  rewrite !bind_assoc. unfold bind. by rewrite Hrun.
Qed.

(** X20.  [load(location, do_unzip_and_model_type_check=False)] and
    the file of the model type.  The PyTorch loader still reads it, and
    raises [FileNotFoundError] when [location] holds none; the ONNX
    loader reads the model and the container, these two files only,
    and returns the container with the model and a new session. *)
Theorem load_unchecked_model_type :
  (files w !! Py.os_path_join location (SAVE_LOAD_MODEL_TYPE_PATH (constants L))
   = None ->
   PyTorchSklearnContainer.load L location false w
   = (Raise (FileNotFoundError
               (Py.os_path_join location
                  (SAVE_LOAD_MODEL_TYPE_PATH (constants L)))),
      log_call (OpenRead (Py.os_path_join location
                            (SAVE_LOAD_MODEL_TYPE_PATH (constants L)))) w))
  /\ (forall model c,
        files w !! Py.os_path_join location (SAVE_LOAD_ONNX_PATH (constants L))
        = Some (ObjectFile model) ->
        files w
          !! Py.os_path_join location (SAVE_LOAD_CONTAINER_PATH (constants L))
        = Some (PickleFile c) ->
        ONNXSklearnContainer.load L location false w
        = (Ok (with_session
                 (ONNXSklearnContainer.inference_session model (_n_threads c))
                 (with_model model c)),
           log_call (OpenRead (Py.os_path_join location
                                 (SAVE_LOAD_CONTAINER_PATH (constants L))))
             (log_call (OpenRead (Py.os_path_join location
                                    (SAVE_LOAD_ONNX_PATH (constants L)))) w))).
Proof.
  split.
  - intros Hnone. unfold PyTorchSklearnContainer.load.
    rewrite bind_ret. unfold Loading.read_model_type, bind, Py.open_read.
    simpl. by rewrite Hnone.
  - intros model c Hmodel Hcontainer. unfold ONNXSklearnContainer.load.
    rewrite bind_ret. unfold Loading.read_object, Loading.read_container.
    rewrite bind_assoc.
    rewrite (bind_run _ _ _ _ _ (open_read_run _ _ _ Hmodel)).
    cbn [Py.load_object]. rewrite bind_lift_Ok. rewrite bind_assoc.
    rewrite (bind_run _ _ _ _ _
               (open_read_run _ _ (log_call _ w) Hcontainer)).
    cbn [Py.dill_load]. rewrite bind_lift_Ok. unfold ret.
    by destruct c.
Qed.

End LoadFacts.

Lemma load_thread_settings_witness :
  torch_num_threads
    (snd (PyTorchSklearnContainer.load PredictExamples.example_libraries
            "model" false MoreExamples.directory_world)) = 2%Z
  /\ torch_num_interop_threads
       (snd (PyTorchSklearnContainer.load PredictExamples.example_libraries
               "model" false MoreExamples.directory_world)) = 1%Z.
Proof.
  pose (run := PyTorchSklearnContainer.load PredictExamples.example_libraries
                 "model" false MoreExamples.directory_world).
  assert (run = (Ok MoreExamples.threaded, snd run)) as Hrun.
  { assert (fst run = Ok MoreExamples.threaded) as Hok
      by (vm_compute; reflexivity).
    destruct run as [r w1]. simpl in *. by subst. }
  exact (proj2 (proj1 (load_thread_settings PredictExamples.example_libraries
                         "model" MoreExamples.directory_world false
                         MoreExamples.threaded (snd run)) Hrun)).
Defined.

Lemma load_without_archive_witness :
  ONNXSklearnContainer.load PredictExamples.example_libraries "model" true
    PersistExamples.empty_world
  = (Raise (ReadError ("model" +:+ ".zip")),
     log_call (UnpackArchive ("model" +:+ ".zip") "model")
       PersistExamples.empty_world).
Proof.
  assert (forall members,
            files PersistExamples.empty_world !! ("model" +:+ ".zip")
            <> Some (ZipFile members)) as Hnone by done.
  exact (proj1 (proj2 (load_without_archive PredictExamples.example_libraries
                         "model" PersistExamples.empty_world eq_refl Hnone))).
Defined.

Lemma load_unchecked_model_type_witness :
  PyTorchSklearnContainer.load PredictExamples.example_libraries "model" false
    PersistExamples.empty_world
  = (Raise (FileNotFoundError
              (Py.os_path_join "model"
                 (SAVE_LOAD_MODEL_TYPE_PATH
                    (constants PredictExamples.example_libraries)))),
     log_call (OpenRead
                 (Py.os_path_join "model"
                    (SAVE_LOAD_MODEL_TYPE_PATH
                       (constants PredictExamples.example_libraries))))
       PersistExamples.empty_world).
Proof.
  exact (proj1 (load_unchecked_model_type PredictExamples.example_libraries
                  "model" PersistExamples.empty_world) eq_refl).
Defined.
